(** * Data egress service: lifecycle of a workspace's egress store

    A shallow embedding of [DataEgressService]
    (addon-base-raas/packages/base-raas-services/lib/data-egress/data-egress-service.js).

    The service is a class of [async] methods that talk to DynamoDB, S3, SNS,
    KMS, a lock service and an audit writer.  Every method is embedded as a
    computation in a state-and-exception monad over a [World] that holds what
    those collaborators store and how they answer.  An exception leaves the
    world as it was when the exception was raised: nothing is rolled back. *)

From Stdlib Require Import ZArith NArith List String Ascii Bool Lia Sorted.
From stdpp Require Import base gmap sets list strings pretty.

Local Open Scope Z_scope.

(** ** Strings *)

(** The double quote, for messages that quote an identifier. *)
Definition dquote : string := String (ascii_of_nat 34) EmptyString.

(** [String.prototype.toUpperCase] on the ASCII range. *)
Definition upper_ascii (c : ascii) : ascii :=
  let n := nat_of_ascii c in
  if (andb (Nat.leb 97 n) (Nat.leb n 122)) then ascii_of_nat (n - 32) else c.

Fixpoint toUpperCase (s : string) : string :=
  match s with
  | EmptyString => EmptyString
  | String c s' => String (upper_ascii c) (toUpperCase s')
  end.

(** [s.split(sep)] for a one-character separator. *)
Fixpoint split (sep : ascii) (s : string) : list string :=
  match s with
  | EmptyString => [EmptyString]
  | String c s' =>
      if bool_decide (c = sep) then EmptyString :: split sep s'
      else match split sep s' with
           | [] => [String c EmptyString]
           | h :: t => String c h :: t
           end
  end.

(** JavaScript truthiness of a string: every string but the empty one. *)
Definition truthy (s : string) : bool := negb (bool_decide (s = EmptyString)).

(** ** Errors *)

Inductive BoomCode := forbidden | badRequest | notFound | internalError.

(** What an [async] method can reject with: a [boom] error built by the
    service, a [TypeError] of the JavaScript runtime, or an error object
    raised by a collaborator ([code] is its [error.code], [json] its
    [JSON.stringify]). *)
Inductive Error :=
| Boom (code : BoomCode) (message : string)
| TypeError (message : string)
| Upstream (code : string) (json : string).

(** [JSON.stringify(error)] writes the enumerable own properties of the
    error object.  The [message] and the [stack] of an [Error] object are not
    among them: an [Error] that carries nothing else is written as the empty
    object.  The error of a collaborator carries the JSON of its properties.
    The class of the [boom] errors is not among the sources: nothing is
    stated of their JSON. *)
Definition jsonStringify (e : Error) : string :=
  match e with
  | Boom _ _ => "{}"
  | TypeError _ => "{}"
  | Upstream _ j => j
  end.

Definition errorCode (e : Error) : option string :=
  match e with
  | Upstream c _ => Some c
  | _ => None
  end.

(** ** Records of the service *)

(** [new Date().toISOString()] is a string; [new Date().toISOString] is the
    method itself. *)
Inductive Timestamp :=
| IsoString (ms : Z)
| ToISOStringMethod.

Record RequestContext := {
  principalUid : option string;   (* _.get(requestContext, 'principalIdentifier.uid') *)
  principalIsAdmin : bool
}.

(** Modelled from the spec: [isAdmin] of base-services/authorization-utils
    (authorization-role lookup, an external collaborator). *)
Definition isAdmin (requestContext : RequestContext) : bool :=
  principalIsAdmin requestContext.

Module Environment.
Record t := {
  id : string;
  name : string;
  createdBy : string;
  projectId : string
}.
End Environment.

(** An item of the [dbEgressStore] table. *)
Module EgressStoreInfo.
Record t := {
  id : string;
  egressStoreName : string;
  createdAt : Timestamp;
  createdBy : string;
  workspaceId : string;
  projectId : string;
  s3BucketName : string;
  s3BucketPath : string;
  status : string;
  updatedBy : option string;
  updatedAt : Timestamp;
  ver : Z;
  isAbleToSubmitEgressRequest : bool;
  egressStoreObjectListLocation : option string
}.
End EgressStoreInfo.

Definition PROCESSING_STATUS_CODE : string := "PROCESSING".
Definition PROCESSED_STATUS_CODE : string := "PROCESSED".
Definition TERMINATED_STATUS_CODE : string := "TERMINATED".
Definition CREATED_STATUS_CODE : string := "CREATED".
Definition PENDING_STATUS_CODE : string := "PENDING".

(** The descriptor of a store handed to the bucket-policy code. *)
Module EgressStore.
Record t := {
  id : string;
  readable : bool;
  writeable : bool;
  kmsArn : option string;
  bucket : string;
  prefix : string;
  envPermissionRead : bool;
  envPermissionWrite : bool;
  status : string;
  createdBy : string;
  workspaceId : string;
  projectId : string;
  resources : list string
}.
End EgressStore.

(** An object of a bucket, as [listAllObjects] reports it.  [Size] is a
    number of bytes and [LastModified] a date, in ms. *)
Module S3Object.
Record t := {
  Key : string;
  Size : N;
  LastModified : Z
}.
End S3Object.

(** An object of the manifest: the listed object with the version marker and
    the owner [prepareEgressStoreSnapshot] adds to it. *)
Module ManifestObject.
Record t := {
  Key : string;
  Size : N;
  LastModified : Z;
  VersionId : string;
  Owner : string
}.
End ManifestObject.

(** A row of the object list [getEgressStore] returns. *)
Module ListedObject.
Record t := {
  Key : string;
  Size : string;
  LastModified : Z;
  projectId : string;
  workspaceId : string
}.
End ListedObject.

Record PutObjectParams := {
  putBucket : string;
  putKey : string;
  putBody : list ManifestObject.t;     (* JSON.stringify({ objects: objectList }) *)
  putContentType : string
}.

(** The message [notifySNS] publishes. *)
Module Message.
Record t := {
  egressStoreObjectListLocation : string;
  id : nat;                      (* uuid.v4() *)
  egress_store_id : string;
  egress_store_name : string;
  created_at : Timestamp;
  created_by : string;
  workspace_id : string;
  project_id : string;
  s3_bucketname : string;
  s3_bucketpath : string;
  status : string;
  updated_by : option string;
  updated_at : Timestamp;
  ver : Z
}.
End Message.

(** ** Policy statements *)

Inductive ActionKind := GetObject | PutObject | ListBucket.

(** Modelled from the spec: the statement of the shared policy document
    (section 3, PolicyStatement), which the helpers of [../helpers/utils]
    build and rewrite; its principals are a set of account identifiers. *)
Record PolicyStatement := {
  Sid : string;
  Effect : string;
  Action : ActionKind;
  Resource : string;
  Principal : gset string
}.

Definition PolicyDocument := list PolicyStatement.

Inductive AuditBody :=
| AuditText (s : string)
| AuditStore (s : EgressStore.t)
| AuditPolicy (p : PolicyDocument)
| AuditMessage (m : Message.t).

Record AuditEvent := {
  action : string;
  body : AuditBody
}.

(** ** The world the service runs in *)

Record Settings := {
  enableEgressStore : string;
  egressStoreBucketName : string;
  egressNotificationBucketName : string;
  egressStoreKmsKeyAliasArn : string;
  egressNotificationSnsTopicArn : string
}.

(** What the collaborators hold, and how they answer.  The fields from
    [scanError] on say which collaborator call fails, and with what error;
    the service never writes them. *)
Record World := {
  settings : Settings;
  dbEgressStore : list EgressStoreInfo.t;       (* the DynamoDB table *)
  s3 : gmap string (list S3Object.t);           (* bucket name to its objects *)
  putObjects : list PutObjectParams;            (* s3Service.putObject requests served *)
  bucketPolicy : PolicyDocument;                (* Statement of the egress bucket's policy *)
  published : list (string * Message.t);        (* SNS: topic and message *)
  auditLog : list AuditEvent;
  heldLocks : gset string;                      (* lock ids held by other workers *)
  now : Z;                                      (* the clock, in ms *)
  nextUuid : nat;
  scanError : option Error;
  dbWriteError : option Error;
  validationError : Environment.t -> option Error;
  s3ListError : option Error;
  s3WriteError : option Error;
  latestVersion : string -> string -> Error + (string * string);
  kmsKeyArn : string -> Error + string;
  memberAccount : string -> Error + string;
  getPolicyError : option Error;
  putPolicyError : option Error;
  publishError : option Error
}.

Definition set_dbEgressStore (v : list EgressStoreInfo.t) (w : World) : World :=
  {| settings := settings w; dbEgressStore := v; s3 := s3 w; putObjects := putObjects w;
     bucketPolicy := bucketPolicy w; published := published w; auditLog := auditLog w;
     heldLocks := heldLocks w; now := now w; nextUuid := nextUuid w;
     scanError := scanError w; dbWriteError := dbWriteError w;
     validationError := validationError w; s3ListError := s3ListError w;
     s3WriteError := s3WriteError w; latestVersion := latestVersion w;
     kmsKeyArn := kmsKeyArn w; memberAccount := memberAccount w;
     getPolicyError := getPolicyError w; putPolicyError := putPolicyError w;
     publishError := publishError w |}.

Definition set_s3 (v : gmap string (list S3Object.t)) (w : World) : World :=
  {| settings := settings w; dbEgressStore := dbEgressStore w; s3 := v; putObjects := putObjects w;
     bucketPolicy := bucketPolicy w; published := published w; auditLog := auditLog w;
     heldLocks := heldLocks w; now := now w; nextUuid := nextUuid w;
     scanError := scanError w; dbWriteError := dbWriteError w;
     validationError := validationError w; s3ListError := s3ListError w;
     s3WriteError := s3WriteError w; latestVersion := latestVersion w;
     kmsKeyArn := kmsKeyArn w; memberAccount := memberAccount w;
     getPolicyError := getPolicyError w; putPolicyError := putPolicyError w;
     publishError := publishError w |}.

Definition set_putObjects (v : list PutObjectParams) (w : World) : World :=
  {| settings := settings w; dbEgressStore := dbEgressStore w; s3 := s3 w; putObjects := v;
     bucketPolicy := bucketPolicy w; published := published w; auditLog := auditLog w;
     heldLocks := heldLocks w; now := now w; nextUuid := nextUuid w;
     scanError := scanError w; dbWriteError := dbWriteError w;
     validationError := validationError w; s3ListError := s3ListError w;
     s3WriteError := s3WriteError w; latestVersion := latestVersion w;
     kmsKeyArn := kmsKeyArn w; memberAccount := memberAccount w;
     getPolicyError := getPolicyError w; putPolicyError := putPolicyError w;
     publishError := publishError w |}.

Definition set_bucketPolicy (v : PolicyDocument) (w : World) : World :=
  {| settings := settings w; dbEgressStore := dbEgressStore w; s3 := s3 w; putObjects := putObjects w;
     bucketPolicy := v; published := published w; auditLog := auditLog w;
     heldLocks := heldLocks w; now := now w; nextUuid := nextUuid w;
     scanError := scanError w; dbWriteError := dbWriteError w;
     validationError := validationError w; s3ListError := s3ListError w;
     s3WriteError := s3WriteError w; latestVersion := latestVersion w;
     kmsKeyArn := kmsKeyArn w; memberAccount := memberAccount w;
     getPolicyError := getPolicyError w; putPolicyError := putPolicyError w;
     publishError := publishError w |}.

Definition set_published (v : list (string * Message.t)) (w : World) : World :=
  {| settings := settings w; dbEgressStore := dbEgressStore w; s3 := s3 w; putObjects := putObjects w;
     bucketPolicy := bucketPolicy w; published := v; auditLog := auditLog w;
     heldLocks := heldLocks w; now := now w; nextUuid := nextUuid w;
     scanError := scanError w; dbWriteError := dbWriteError w;
     validationError := validationError w; s3ListError := s3ListError w;
     s3WriteError := s3WriteError w; latestVersion := latestVersion w;
     kmsKeyArn := kmsKeyArn w; memberAccount := memberAccount w;
     getPolicyError := getPolicyError w; putPolicyError := putPolicyError w;
     publishError := publishError w |}.

Definition set_auditLog (v : list AuditEvent) (w : World) : World :=
  {| settings := settings w; dbEgressStore := dbEgressStore w; s3 := s3 w; putObjects := putObjects w;
     bucketPolicy := bucketPolicy w; published := published w; auditLog := v;
     heldLocks := heldLocks w; now := now w; nextUuid := nextUuid w;
     scanError := scanError w; dbWriteError := dbWriteError w;
     validationError := validationError w; s3ListError := s3ListError w;
     s3WriteError := s3WriteError w; latestVersion := latestVersion w;
     kmsKeyArn := kmsKeyArn w; memberAccount := memberAccount w;
     getPolicyError := getPolicyError w; putPolicyError := putPolicyError w;
     publishError := publishError w |}.

Definition set_nextUuid (v : nat) (w : World) : World :=
  {| settings := settings w; dbEgressStore := dbEgressStore w; s3 := s3 w; putObjects := putObjects w;
     bucketPolicy := bucketPolicy w; published := published w; auditLog := auditLog w;
     heldLocks := heldLocks w; now := now w; nextUuid := v;
     scanError := scanError w; dbWriteError := dbWriteError w;
     validationError := validationError w; s3ListError := s3ListError w;
     s3WriteError := s3WriteError w; latestVersion := latestVersion w;
     kmsKeyArn := kmsKeyArn w; memberAccount := memberAccount w;
     getPolicyError := getPolicyError w; putPolicyError := putPolicyError w;
     publishError := publishError w |}.

(** ** Asynchronous computations

    [await] is sequencing; a rejected promise is a thrown error; the world
    reached when an error is thrown is the world the caller is left with. *)

Inductive Outcome (A : Type) :=
| Returned (a : A)
| Thrown (e : Error).
Arguments Returned {A} a.
Arguments Thrown {A} e.

Definition Async (A : Type) : Type := World -> Outcome A * World.

Definition ret {A : Type} (a : A) : Async A := fun w => (Returned a, w).

Definition throw {A : Type} (e : Error) : Async A := fun w => (Thrown e, w).

Definition bind {A B : Type} (m : Async A) (k : A -> Async B) : Async B :=
  fun w =>
    match m w with
    | (Returned a, w') => k a w'
    | (Thrown e, w') => (Thrown e, w')
    end.

(** [try { m } catch (error) { h(error) }] *)
Definition tryCatch {A : Type} (m : Async A) (h : Error -> Async A) : Async A :=
  fun w =>
    match m w with
    | (Returned a, w') => (Returned a, w')
    | (Thrown e, w') => h e w'
    end.

Definition get : Async World := fun w => (Returned w, w).

Definition modify (f : World -> World) : Async unit := fun w => (Returned tt, f w).

Declare Scope async_scope.
Delimit Scope async_scope with async.
Notation "x <- m ;; k" := (bind m (fun x => k))
  (at level 100, m at next level, right associativity) : async_scope.
Notation "m ;;; k" := (bind m (fun _ => k))
  (at level 100, right associativity) : async_scope.
Local Open Scope async_scope.

(** [if (c) throw e;] *)
Definition throwIf (c : bool) (e : Error) : Async unit :=
  if c then throw e else ret tt.

(** A collaborator call that only fails or succeeds. *)
Definition failWith (f : World -> option Error) : Async unit :=
  fun w => match f w with
           | Some e => (Thrown e, w)
           | None => (Returned tt, w)
           end.

Definition fromSum {A : Type} (r : Error + A) : Async A :=
  match r with
  | inl e => throw e
  | inr a => ret a
  end.

Fixpoint mapM {A B : Type} (f : A -> Async B) (l : list A) : Async (list B) :=
  match l with
  | [] => ret []
  | x :: l' => y <- f x ;; ys <- mapM f l' ;; ret (y :: ys)
  end.

(** ** Collaborators *)

(** Modelled from the spec: the record store (section 6, RecordStore),
    reached through [dbService.helper]; [_scanner().limit(n).scan()] returns
    the items of the table, [n] of them at most. *)
Definition scan (limit : nat) : Async (list EgressStoreInfo.t) :=
  failWith scanError ;;;
  w <- get ;;
  ret (take limit (dbEgressStore w)).

Inductive Condition := attribute_not_exists_id | attribute_exists_id.

Definition conditionalCheckFailed : Error :=
  Upstream "ConditionalCheckFailedException" "The conditional request failed".

Definition hasKey (key : string) (table : list EgressStoreInfo.t) : bool :=
  existsb (fun i => bool_decide (EgressStoreInfo.id i = key)) table.

Definition putItem (key : string) (item : EgressStoreInfo.t)
    (table : list EgressStoreInfo.t) : list EgressStoreInfo.t :=
  if hasKey key table
  then map (fun i => if bool_decide (EgressStoreInfo.id i = key) then item else i) table
  else table ++ [item].

(** Modelled from the spec: the conditional write of the record store
    ([_updater().condition(c).key({ id }).item(item).update()]): the item is
    written under its key when the condition holds of the table, and the call
    fails with the conditional-check error when it does not. *)
Definition update (c : Condition) (key : string) (item : EgressStoreInfo.t) : Async unit :=
  failWith dbWriteError ;;;
  w <- get ;;
  let table := dbEgressStore w in
  let holds := match c with
               | attribute_not_exists_id => negb (hasKey key table)
               | attribute_exists_id => hasKey key table
               end in
  if holds then modify (set_dbEgressStore (putItem key item table))
  else throw conditionalCheckFailed.

(** Modelled from the spec: [runAndCatch] of base-services/helpers/utils runs
    [fn] and hands a conditional-check failure to [handler]; any other error
    goes through. *)
Definition runAndCatch {A : Type} (fn : Async A) (handler : Error -> Async A) : Async A :=
  tryCatch fn (fun e =>
    if bool_decide (errorCode e = Some "ConditionalCheckFailedException")
    then handler e else throw e).

(** Modelled from the spec: the lock coordinator (section 4.3).  The section
    runs when nobody else holds the lock, and the lock is released on every
    exit path; the call fails when the lock cannot be obtained. *)
Definition tryWriteLockAndRun {A : Type} (lockId : string) (section : Async A) : Async A :=
  w <- get ;;
  if bool_decide (lockId ∈ heldLocks w)
  then throw (Boom internalError "Could not obtain a lock")
  else section.

Definition objectsOf (w : World) (bucketName : string) : list S3Object.t :=
  default [] (s3 w !! bucketName).

Definition underPrefix (path : string) (o : S3Object.t) : bool :=
  String.prefix path (S3Object.Key o).

(** Modelled from the spec: [createPrefix] of the object storage
    (section 6, ObjectStorage), reached through [s3Service]: the prefix is
    there afterwards, as an empty object under its name. *)
Definition createPath (bucketName folderName : string) : Async unit :=
  fun w =>
    match s3WriteError w with
    | Some e => (Thrown e, w)
    | None =>
        let objs := objectsOf w bucketName in
        if existsb (fun o => bool_decide (S3Object.Key o = folderName)) objs
        then (Returned tt, w)
        else (Returned tt,
              set_s3 (<[bucketName :=
                         objs ++ [ {| S3Object.Key := folderName; S3Object.Size := 0%N;
                                      S3Object.LastModified := now w |} ]]> (s3 w)) w)
    end.

(** Modelled from the spec: [clearPrefix] removes every object under the
    prefix (section 6, ObjectStorage). *)
Definition clearPath (bucketName path : string) : Async unit :=
  failWith s3WriteError ;;;
  modify (fun w =>
    set_s3 (alter (List.filter (fun o => negb (underPrefix path o))) bucketName (s3 w)) w).

(** Modelled from the spec: [listAll] returns every object under the prefix
    (section 6, ObjectStorage). *)
Definition listAllObjects (bucketName path : string) : Async (list S3Object.t) :=
  failWith s3ListError ;;;
  w <- get ;;
  ret (List.filter (underPrefix path) (objectsOf w bucketName)).

(** Modelled from the spec: [getLatestVersion] answers with the version
    marker and the owner of an object (section 6, ObjectStorage). *)
Definition getLatestObjectVersion (bucketName key : string) : Async (string * string) :=
  w <- get ;;
  fromSum (latestVersion w bucketName key).

(** Modelled from the spec: [putObject] (section 6, ObjectStorage); the
    world keeps the requests that were served. *)
Definition putObject (params : PutObjectParams) : Async unit :=
  failWith s3WriteError ;;;
  modify (fun w => set_putObjects (putObjects w ++ [params]) w).

(** Modelled from the spec: the policy store (section 6, PolicyStore), reached
    through the S3 client's [getBucketPolicy] and [putBucketPolicy]. *)
Definition getBucketPolicy : Async PolicyDocument :=
  failWith getPolicyError ;;;
  w <- get ;;
  ret (bucketPolicy w).

(** Modelled from the spec: [setPolicy] replaces the document
    (section 6, PolicyStore). *)
Definition putBucketPolicy (doc : PolicyDocument) : Async unit :=
  failWith putPolicyError ;;;
  modify (set_bucketPolicy doc).

(** [uuid.v4()]: an identifier that was not given before. *)
Definition uuid_v4 : Async nat :=
  w <- get ;;
  modify (set_nextUuid (S (nextUuid w))) ;;;
  ret (nextUuid w).

(** [new Date()]: the clock of the world. *)
Definition newDate : Async Z :=
  w <- get ;;
  ret (now w).

(** A promise that is not awaited: its rejection reaches nobody. *)
Definition unawaited (m : Async unit) : Async unit :=
  tryCatch m (fun _ => ret tt).

(** ** Policy statements of a store ([../helpers/utils]) *)

Record StatementParams := {
  statementId : string;
  resource : string;
  actions : ActionKind
}.

(** Modelled from the spec: the description of the get statement of a store,
    of [../helpers/utils]; the statement id is derived from the store's prefix
    and the kind of action, the resource is scoped to the store's prefix
    (section 3, PolicyStatement). *)
Definition getStatementParamsFn (bucket prefix : string) : StatementParams :=
  {| statementId := "Get:" +:+ prefix;
     resource := "arn:aws:s3:::" +:+ bucket +:+ "/" +:+ prefix +:+ "*";
     actions := GetObject |}.

(** Modelled from the spec: the description of the put statement of a store
    (section 3, PolicyStatement). *)
Definition putStatementParamsFn (bucket prefix : string) : StatementParams :=
  {| statementId := "Put:" +:+ prefix;
     resource := "arn:aws:s3:::" +:+ bucket +:+ "/" +:+ prefix +:+ "*";
     actions := PutObject |}.

(** Modelled from the spec: the description of the list statement of a store
    (section 3, PolicyStatement). *)
Definition listStatementParamsFn (bucket prefix : string) : StatementParams :=
  {| statementId := "List:" +:+ prefix;
     resource := "arn:aws:s3:::" +:+ bucket;
     actions := ListBucket |}.

(** Modelled from the spec: an absent statement is synthesized empty
    (section 4.2, grant, step 2). *)
Definition createAllowStatement (p : StatementParams) : PolicyStatement :=
  {| Sid := statementId p; Effect := "Allow"; Action := actions p;
     Resource := resource p; Principal := ∅ |}.

(** Modelled from the spec: [addAccountToStatement] adds the account to the
    statement's principal set, a set union (section 4.2, grant, step 2). *)
Definition addAccountToStatement (oldStatement : PolicyStatement)
    (memberAccountId : string) : PolicyStatement :=
  {| Sid := Sid oldStatement; Effect := Effect oldStatement;
     Action := Action oldStatement; Resource := Resource oldStatement;
     Principal := Principal oldStatement ∪ {[ memberAccountId ]} |}.

(** Modelled from the spec: [removeAccountFromStatement] removes the account
    from the statement's principal set (section 4.2, revoke). *)
Definition removeAccountFromStatement (oldStatement : PolicyStatement)
    (memberAccountId : string) : PolicyStatement :=
  {| Sid := Sid oldStatement; Effect := Effect oldStatement;
     Action := Action oldStatement; Resource := Resource oldStatement;
     Principal := Principal oldStatement ∖ {[ memberAccountId ]} |}.

Definition findStatement (sid : string) (s3Policy : PolicyDocument) : option PolicyStatement :=
  List.find (fun st => bool_decide (Sid st = sid)) s3Policy.

(** Modelled from the spec: [getRevisedS3Statements] locates, for each kind of
    statement asked for, the statement of the store in the document, takes an
    empty one when there is none, and applies the update to it
    (section 4.2, grant, step 2). *)
Definition getRevisedS3Statements (s3Policy : PolicyDocument) (egressStore : EgressStore.t)
    (s3BucketName : string) (statementParamFunctions : list (string -> string -> StatementParams))
    (updateStatementFn : PolicyStatement -> PolicyStatement) : list PolicyStatement :=
  map (fun statementParamsFn =>
         let params := statementParamsFn s3BucketName (EgressStore.prefix egressStore) in
         let oldStatement := default (createAllowStatement params)
                                     (findStatement (statementId params) s3Policy) in
         updateStatementFn oldStatement)
      statementParamFunctions.

Definition isRevised (revisedStatements : list PolicyStatement) (st : PolicyStatement) : bool :=
  bool_decide (Sid st ∈ map Sid revisedStatements).

Definition hasPrincipals (st : PolicyStatement) : bool :=
  negb (bool_decide (Principal st = ∅)).

(** Modelled from the spec: the revised document is made of the statements
    that were not revised, as they were and in their order, and of the
    revised statements that still have a principal; a statement whose
    principal set is empty is dropped (section 4.2, revoke).  The spec fixes
    no place for a revised statement: here they follow the others. *)
Definition reviseS3Policy (s3Policy : PolicyDocument)
    (revisedStatements : list PolicyStatement) : PolicyDocument :=
  List.filter (fun st => negb (isRevised revisedStatements st)) s3Policy
  ++ List.filter hasPrincipals revisedStatements.

(** Modelled from the spec: [updateS3BucketPolicy] writes the full revised
    document back as one replace (section 4.2, grant, step 3). *)
Definition updateS3BucketPolicy (s3BucketName : string) (s3Policy : PolicyDocument)
    (revisedStatements : list PolicyStatement) : Async PolicyDocument :=
  let revised := reviseS3Policy s3Policy revisedStatements in
  putBucketPolicy revised ;;;
  ret revised.

(** ** The service *)

(** [auditWriterService.writeAndForget]: the event is logged and the call
    never fails. *)
Definition audit (requestContext : RequestContext) (auditEvent : AuditEvent) : Async unit :=
  modify (fun w => set_auditLog (auditLog w ++ [auditEvent]) w).

(** [!enableEgressStore || enableEgressStore.toUpperCase() !== 'TRUE'] *)
Definition featureDisabled (enable : string) : bool :=
  negb (truthy enable) || negb (bool_decide (toUpperCase enable = "TRUE")).

Definition getEgressStoreInfo (environmentId : string) : Async (option EgressStoreInfo.t) :=
  let workspaceId := environmentId in
  egressStoreScanResult <-
    tryCatch
      (egressStores <- scan 1000 ;;
       ret (List.filter (fun store => bool_decide (EgressStoreInfo.workspaceId store = workspaceId))
                        egressStores))
      (fun error =>
         throw (Boom notFound ("Error in fetch egress store info: " +:+ jsonStringify error))) ;;
  match egressStoreScanResult with
  | [] => ret None
  | [store] => ret (Some store)
  | _ => throw (Boom internalError
           "Error in getting egress store info: multiple results fetched from egrss store table")
  end.

Definition getKmsKeyIdArn : Async string :=
  w <- get ;;
  fromSum (kmsKeyArn w (egressStoreKmsKeyAliasArn (settings w))).

Definition getMemberAccountId (requestContext : RequestContext) (environmentId : string)
    : Async string :=
  w <- get ;;
  fromSum (memberAccount w environmentId).

Definition publishMessage (message : Message.t) : Async unit :=
  w <- get ;;
  let topicArn := egressNotificationSnsTopicArn (settings w) in
  failWith publishError ;;;
  modify (fun w => set_published (published w ++ [(topicArn, message)]) w).

Definition getS3BucketAndPolicy : Async (string * PolicyDocument) :=
  w <- get ;;
  let s3BucketName := egressStoreBucketName (settings w) in
  s3Policy <- getBucketPolicy ;;
  ret (s3BucketName, s3Policy).

Definition addEgressStoreBucketPolicy (requestContext : RequestContext)
    (egressStore : EgressStore.t) (memberAccountId : string) : Async unit :=
  bucketAndPolicy <- getS3BucketAndPolicy ;;
  let s3BucketName := fst bucketAndPolicy in
  let s3Policy := snd bucketAndPolicy in
  let statementParamFunctions :=
    (if EgressStore.envPermissionRead egressStore then [getStatementParamsFn] else [])
    ++ (if EgressStore.envPermissionWrite egressStore then [putStatementParamsFn] else [])
    ++ (if EgressStore.envPermissionRead egressStore || EgressStore.envPermissionWrite egressStore
        then [listStatementParamsFn] else []) in
  let revisedStatements :=
    getRevisedS3Statements s3Policy egressStore s3BucketName statementParamFunctions
      (fun oldStatement => addAccountToStatement oldStatement memberAccountId) in
  revised <- updateS3BucketPolicy s3BucketName s3Policy revisedStatements ;;
  audit requestContext
    {| action := "add-egress-store-to-bucket-policy"; body := AuditPolicy revised |}.

Definition removeEgressStoreBucketPolicy (requestContext : RequestContext)
    (egressStore : EgressStore.t) (memberAccountId : string) : Async unit :=
  bucketAndPolicy <- getS3BucketAndPolicy ;;
  let s3BucketName := fst bucketAndPolicy in
  let s3Policy := snd bucketAndPolicy in
  let statementParamFunctions :=
    [getStatementParamsFn; putStatementParamsFn; listStatementParamsFn] in
  let revisedStatement :=
    getRevisedS3Statements s3Policy egressStore s3BucketName statementParamFunctions
      (fun oldStatement => removeAccountFromStatement oldStatement memberAccountId) in
  revised <- updateS3BucketPolicy s3BucketName s3Policy revisedStatement ;;
  audit requestContext
    {| action := "remove-egress-store-from-bucket-policy"; body := AuditPolicy revised |}.

Definition lockAndUpdate (lockId dbKey : string) (dbObject : EgressStoreInfo.t) : Async unit :=
  tryWriteLockAndRun lockId
    (runAndCatch
       (update attribute_exists_id dbKey dbObject)
       (fun _ => throw (Boom badRequest
          ("Egress Store with id " +:+ dquote +:+ dbKey +:+ dquote +:+ " got updating error")))).

Definition createEgressStore (requestContext : RequestContext) (environment : Environment.t)
    : Async EgressStore.t :=
  w <- get ;;
  let enableEgressStore := enableEgressStore (settings w) in
  let by_ := principalUid requestContext in
  throwIf (featureDisabled enableEgressStore)
    (Boom forbidden "Unable to create Egress store since this feature is disabled") ;;;
  failWith (fun w => validationError w environment) ;;;
  let bucketName := egressStoreBucketName (settings w) in
  let folderName := Environment.id environment +:+ "/" in
  unawaited (createPath bucketName folderName) ;;;
  let egressStoreId := Environment.id environment in
  let creationTime := ToISOStringMethod in
  let dbObject :=
    {| EgressStoreInfo.id := egressStoreId;
       EgressStoreInfo.egressStoreName := Environment.name environment +:+ "-egress-store";
       EgressStoreInfo.createdAt := creationTime;
       EgressStoreInfo.createdBy := Environment.createdBy environment;
       EgressStoreInfo.workspaceId := Environment.id environment;
       EgressStoreInfo.projectId := Environment.projectId environment;
       EgressStoreInfo.s3BucketName := bucketName;
       EgressStoreInfo.s3BucketPath := folderName;
       EgressStoreInfo.status := CREATED_STATUS_CODE;
       EgressStoreInfo.updatedBy := by_;
       EgressStoreInfo.updatedAt := creationTime;
       EgressStoreInfo.ver := 0;
       EgressStoreInfo.isAbleToSubmitEgressRequest := false;
       EgressStoreInfo.egressStoreObjectListLocation := None |} in
  let egressStoreDdbLockId := "egress-store-ddb-access-" +:+ egressStoreId in
  tryWriteLockAndRun egressStoreDdbLockId
    (runAndCatch
       (update attribute_not_exists_id egressStoreId dbObject)
       (fun _ => throw (Boom badRequest
          ("Egress Store with id " +:+ dquote +:+ egressStoreId +:+ dquote +:+ " already exists")))) ;;;
  kmsArn <- getKmsKeyIdArn ;;
  let egressStore :=
    {| EgressStore.id := "egress-store-" +:+ Environment.id environment;
       EgressStore.readable := true;
       EgressStore.writeable := true;
       EgressStore.kmsArn := Some kmsArn;
       EgressStore.bucket := bucketName;
       EgressStore.prefix := folderName;
       EgressStore.envPermissionRead := true;
       EgressStore.envPermissionWrite := true;
       EgressStore.status := "reachable";
       EgressStore.createdBy := Environment.createdBy environment;
       EgressStore.workspaceId := Environment.id environment;
       EgressStore.projectId := Environment.projectId environment;
       EgressStore.resources :=
         ["arn:aws:s3:::" +:+ bucketName +:+ "/" +:+ Environment.id environment +:+ "/"] |} in
  memberAccountId <- getMemberAccountId requestContext (Environment.id environment) ;;
  let bucketPolicyLockId := "bucket-policy-access-" +:+ bucketName in
  tryWriteLockAndRun bucketPolicyLockId
    (addEgressStoreBucketPolicy requestContext egressStore memberAccountId) ;;;
  ret egressStore.

Definition terminateEgressStore (requestContext : RequestContext) (environmentId : string)
    : Async (option EgressStoreInfo.t) :=
  w <- get ;;
  let enableEgressStore := enableEgressStore (settings w) in
  let curUser := principalUid requestContext in
  throwIf (featureDisabled enableEgressStore)
    (Boom forbidden "Unable to terminate Egress store since this feature is disabled") ;;;
  found <- getEgressStoreInfo environmentId ;;
  match found with
  | None =>
      audit requestContext
        {| action := "terminated-egress-store";
           body := AuditText "No egress store found to be terminated" |} ;;;
      ret None
  | Some egressStoreInfo =>
      let isEgressStoreOwner :=
        bool_decide (Some (EgressStoreInfo.createdBy egressStoreInfo) = curUser) in
      throwIf (negb (isAdmin requestContext) && negb isEgressStoreOwner)
        (Boom forbidden
           "You are not authorized to terminate the egress store. Please contact your administrator.") ;;;
      let egressStoreStatus := EgressStoreInfo.status egressStoreInfo in
      let isEgressStoreNotTouched :=
        bool_decide (toUpperCase egressStoreStatus = CREATED_STATUS_CODE)
        && bool_decide (EgressStoreInfo.isAbleToSubmitEgressRequest egressStoreInfo = false) in
      if bool_decide (toUpperCase egressStoreStatus = PROCESSING_STATUS_CODE) then
        throw (Boom forbidden
          ("Egress store: " +:+ EgressStoreInfo.id egressStoreInfo +:+
           " is still in processing. The egress store is not terminated and the workspce can not be terminated before egress request is processed."))
      else if bool_decide (toUpperCase egressStoreStatus = PROCESSED_STATUS_CODE)
              || isEgressStoreNotTouched then
        tryCatch
          (clearPath (EgressStoreInfo.s3BucketName egressStoreInfo)
                     (EgressStoreInfo.s3BucketPath egressStoreInfo))
          (fun _ => throw (Boom badRequest
             ("Error in deleting egress store:" +:+ EgressStoreInfo.s3BucketName egressStoreInfo +:+
              " in bucket: " +:+ EgressStoreInfo.s3BucketPath egressStoreInfo))) ;;;
        let egressStoreDdbLockId :=
          "egress-store-ddb-access-" +:+ EgressStoreInfo.id egressStoreInfo in
        date <- newDate ;;
        let egressStoreInfo :=
          {| EgressStoreInfo.id := EgressStoreInfo.id egressStoreInfo;
             EgressStoreInfo.egressStoreName := EgressStoreInfo.egressStoreName egressStoreInfo;
             EgressStoreInfo.createdAt := EgressStoreInfo.createdAt egressStoreInfo;
             EgressStoreInfo.createdBy := EgressStoreInfo.createdBy egressStoreInfo;
             EgressStoreInfo.workspaceId := EgressStoreInfo.workspaceId egressStoreInfo;
             EgressStoreInfo.projectId := EgressStoreInfo.projectId egressStoreInfo;
             EgressStoreInfo.s3BucketName := EgressStoreInfo.s3BucketName egressStoreInfo;
             EgressStoreInfo.s3BucketPath := EgressStoreInfo.s3BucketPath egressStoreInfo;
             EgressStoreInfo.status := TERMINATED_STATUS_CODE;
             EgressStoreInfo.updatedBy := curUser;
             EgressStoreInfo.updatedAt := IsoString date;
             EgressStoreInfo.ver := EgressStoreInfo.ver egressStoreInfo;
             EgressStoreInfo.isAbleToSubmitEgressRequest := false;
             EgressStoreInfo.egressStoreObjectListLocation :=
               EgressStoreInfo.egressStoreObjectListLocation egressStoreInfo |} in
        lockAndUpdate egressStoreDdbLockId (EgressStoreInfo.id egressStoreInfo) egressStoreInfo ;;;
        let egressStore :=
          {| EgressStore.id := "egress-store-" +:+ environmentId;
             EgressStore.readable := true;
             EgressStore.writeable := true;
             EgressStore.kmsArn := None;
             EgressStore.bucket := EgressStoreInfo.s3BucketName egressStoreInfo;
             EgressStore.prefix := EgressStoreInfo.s3BucketPath egressStoreInfo;
             EgressStore.envPermissionRead := true;
             EgressStore.envPermissionWrite := true;
             EgressStore.status := "reachable";
             EgressStore.createdBy := EgressStoreInfo.createdBy egressStoreInfo;
             EgressStore.workspaceId := environmentId;
             EgressStore.projectId := EgressStoreInfo.projectId egressStoreInfo;
             EgressStore.resources :=
               ["arn:aws:s3:::" +:+ EgressStoreInfo.s3BucketName egressStoreInfo +:+ "/" +:+
                environmentId +:+ "/"] |} in
        memberAccountId <- getMemberAccountId requestContext environmentId ;;
        let lockId := "bucket-policy-access-" +:+ EgressStoreInfo.s3BucketName egressStoreInfo in
        tryWriteLockAndRun lockId
          (removeEgressStoreBucketPolicy requestContext egressStore memberAccountId) ;;;
        audit requestContext
          {| action := "terminated-egress-store"; body := AuditStore egressStore |} ;;;
        ret (Some egressStoreInfo)
      else ret (Some egressStoreInfo)
  end.

(** [parseInt(n, 10)] of a number that is an integer. *)
Definition parseInt (n : Z) : Z := n.

Definition sizes : list string := ["Bytes"; "KB"; "MB"; "GB"; "TB"; "PB"].

(** [sizes[i]] *)
Definition sizeName (i : Z) : string :=
  if i <? 0 then "undefined" else default "undefined" (sizes !! Z.to_nat i).

(** [Math.round(bytes / 1024 ** i)]: the quotient by a power of two is exact,
    and [Math.round] takes it to the nearest integer, a half going up. *)
Definition roundedQuotient (bytes : N) (i : Z) : Z :=
  if 0 <=? i then (2 * Z.of_N bytes + 1024 ^ i) / (2 * 1024 ^ i)
  else Z.of_N bytes * 1024 ^ (- i).

(** The exact value of [Math.floor(Math.log(bytes) / Math.log(1024))] for a
    positive number of bytes: the logarithm in base [2 ^ 10], rounded down. *)
Definition exactFloorLog1024 (bytes : N) : Z :=
  Z.log2 (Z.of_N bytes) / 10.

(** The order of [objectList.sort((a, b) => new Date(a.LastModified) - new
    Date(b.LastModified))]: ascending dates, objects of equal dates in the
    order they had. *)
Fixpoint insertByLastModified (o : S3Object.t) (l : list S3Object.t) : list S3Object.t :=
  match l with
  | [] => [o]
  | x :: l' =>
      if S3Object.LastModified o <=? S3Object.LastModified x then o :: l
      else x :: insertByLastModified o l'
  end.

Definition sortByLastModified (l : list S3Object.t) : list S3Object.t :=
  foldr insertByLastModified [] l.

Record ObjectListing := {
  objectList : list ListedObject.t;
  listingIsAbleToSubmitEgressRequest : bool
}.

Section ObjectList.

(** [Math.floor(Math.log(bytes) / Math.log(1024))] is computed in floating
    point; the service is embedded for whatever value the runtime gives it. *)
Variable floorLog1024 : N -> Z.

Definition bytesToSize (bytes : N) : string :=
  if bool_decide (bytes = 0%N) then "0 Byte"
  else
    let i := parseInt (floorLog1024 bytes) in
    let i := if i <=? 5 then i else 5 in
    pretty (roundedQuotient bytes i) +:+ " " +:+ sizeName i.

(** The body of [_.forEach(objectList, obj => ...)]: the row pushed for [obj],
    if one is. *)
Definition listedRow (egressStoreInfo : EgressStoreInfo.t) (obj : S3Object.t)
    : option ListedObject.t :=
  let size := bytesToSize (S3Object.Size obj) in
  let newKey := split "/" (S3Object.Key obj) in
  match newKey !! 1%nat with
  | Some key =>
      if truthy key then
        Some {| ListedObject.Key := key;
                ListedObject.Size := size;
                ListedObject.LastModified := S3Object.LastModified obj;
                ListedObject.projectId := EgressStoreInfo.projectId egressStoreInfo;
                ListedObject.workspaceId := EgressStoreInfo.workspaceId egressStoreInfo |}
      else None
  | None => None
  end.

Definition getEgressStore (requestContext : RequestContext) (environmentId : string)
    : Async ObjectListing :=
  w <- get ;;
  let enableEgressStore := enableEgressStore (settings w) in
  throwIf (featureDisabled enableEgressStore)
    (Boom forbidden "Unable to list objects in egress store since this feature is disabled") ;;;
  let curUser := principalUid requestContext in
  found <- getEgressStoreInfo environmentId ;;
  match found with
  | None => throw (TypeError "Cannot read properties of null (reading 'createdBy')")
  | Some egressStoreInfo =>
      let isEgressStoreOwner :=
        bool_decide (Some (EgressStoreInfo.createdBy egressStoreInfo) = curUser) in
      throwIf (negb (isAdmin requestContext) && negb isEgressStoreOwner)
        (Boom forbidden
           "You are not authorized to perform egress store list. Please contact your administrator for more information.") ;;;
      objectList <- listAllObjects (EgressStoreInfo.s3BucketName egressStoreInfo)
                                   (EgressStoreInfo.s3BucketPath egressStoreInfo) ;;
      let objectList := sortByLastModified objectList in
      let result := omap (listedRow egressStoreInfo) objectList in
      let result := if (100 <? length result)%nat then take 100 result else result in
      ret {| objectList := result;
             listingIsAbleToSubmitEgressRequest :=
               EgressStoreInfo.isAbleToSubmitEgressRequest egressStoreInfo |}
  end.

End ObjectList.

Definition prepareEgressStoreSnapshot (egressStoreInfo : EgressStoreInfo.t)
    : Async (string * string) :=
  w <- get ;;
  let egressNotificationBucketName := egressNotificationBucketName (settings w) in
  let curVersion := parseInt (EgressStoreInfo.ver egressStoreInfo) + 1 in
  let key := EgressStoreInfo.id egressStoreInfo +:+ "/" +:+
             EgressStoreInfo.egressStoreName egressStoreInfo +:+ "-ver" +:+
             pretty curVersion +:+ ".json" in
  tryCatch
    (objectList <- listAllObjects (EgressStoreInfo.s3BucketName egressStoreInfo)
                                  (EgressStoreInfo.s3BucketPath egressStoreInfo) ;;
     objects <- mapM (fun obj =>
                   latestVersion <- getLatestObjectVersion
                                      (EgressStoreInfo.s3BucketName egressStoreInfo)
                                      (S3Object.Key obj) ;;
                   ret {| ManifestObject.Key := S3Object.Key obj;
                          ManifestObject.Size := S3Object.Size obj;
                          ManifestObject.LastModified := S3Object.LastModified obj;
                          ManifestObject.VersionId := fst latestVersion;
                          ManifestObject.Owner := snd latestVersion |})
                 objectList ;;
     putObject {| putBucket := egressNotificationBucketName; putKey := key;
                  putBody := objects; putContentType := "application/json" |})
    (fun _ => throw (Boom badRequest
       ("Error in preparing EgressStoreSnapshot, bucket:" +:+ egressNotificationBucketName +:+
        ", key: " +:+ key))) ;;;
  ret (egressNotificationBucketName, key).

Definition notifySNS (requestContext : RequestContext) (environmentId : string)
    : Async Message.t :=
  w <- get ;;
  let enableEgressStore := enableEgressStore (settings w) in
  let curUser := principalUid requestContext in
  throwIf (featureDisabled enableEgressStore)
    (Boom forbidden "Unable to create Egress store since this feature is disabled") ;;;
  found <- getEgressStoreInfo environmentId ;;
  match found with
  | None =>
      throw (TypeError "Cannot read properties of null (reading 'isAbleToSubmitEgressRequest')")
  | Some egressStoreInfo =>
      throwIf (negb (EgressStoreInfo.isAbleToSubmitEgressRequest egressStoreInfo))
        (Boom badRequest
           ("Egress Store:" +:+ EgressStoreInfo.id egressStoreInfo +:+
            " is not ready for egress. Please contact your administrator for more information.")) ;;;
      let isEgressStoreOwner :=
        bool_decide (Some (EgressStoreInfo.createdBy egressStoreInfo) = curUser) in
      throwIf (negb (isAdmin requestContext) && negb isEgressStoreOwner)
        (Boom forbidden
           "You are not authorized to submit egress request. Please contact your administrator for more information.") ;;;
      egressStoreObjectList <- prepareEgressStoreSnapshot egressStoreInfo ;;
      let egressStoreDdbLockId :=
        "egress-store-ddb-access-" +:+ EgressStoreInfo.id egressStoreInfo in
      let location := "arn:aws:s3:::" +:+ fst egressStoreObjectList +:+ "/" +:+
                      snd egressStoreObjectList in
      date <- newDate ;;
      let egressStoreInfo :=
        {| EgressStoreInfo.id := EgressStoreInfo.id egressStoreInfo;
           EgressStoreInfo.egressStoreName := EgressStoreInfo.egressStoreName egressStoreInfo;
           EgressStoreInfo.createdAt := EgressStoreInfo.createdAt egressStoreInfo;
           EgressStoreInfo.createdBy := EgressStoreInfo.createdBy egressStoreInfo;
           EgressStoreInfo.workspaceId := EgressStoreInfo.workspaceId egressStoreInfo;
           EgressStoreInfo.projectId := EgressStoreInfo.projectId egressStoreInfo;
           EgressStoreInfo.s3BucketName := EgressStoreInfo.s3BucketName egressStoreInfo;
           EgressStoreInfo.s3BucketPath := EgressStoreInfo.s3BucketPath egressStoreInfo;
           EgressStoreInfo.status :=
             if negb (bool_decide (toUpperCase (EgressStoreInfo.status egressStoreInfo)
                                   = PENDING_STATUS_CODE))
             then PENDING_STATUS_CODE else EgressStoreInfo.status egressStoreInfo;
           EgressStoreInfo.updatedBy := curUser;
           EgressStoreInfo.updatedAt := IsoString date;
           EgressStoreInfo.ver := parseInt (EgressStoreInfo.ver egressStoreInfo) + 1;
           EgressStoreInfo.isAbleToSubmitEgressRequest := false;
           EgressStoreInfo.egressStoreObjectListLocation := Some location |} in
      lockAndUpdate egressStoreDdbLockId (EgressStoreInfo.id egressStoreInfo) egressStoreInfo ;;;
      uuid <- uuid_v4 ;;
      let message :=
        {| Message.egressStoreObjectListLocation := location;
           Message.id := uuid;
           Message.egress_store_id := EgressStoreInfo.id egressStoreInfo;
           Message.egress_store_name := EgressStoreInfo.egressStoreName egressStoreInfo;
           Message.created_at := EgressStoreInfo.createdAt egressStoreInfo;
           Message.created_by := EgressStoreInfo.createdBy egressStoreInfo;
           Message.workspace_id := EgressStoreInfo.workspaceId egressStoreInfo;
           Message.project_id := EgressStoreInfo.projectId egressStoreInfo;
           Message.s3_bucketname := EgressStoreInfo.s3BucketName egressStoreInfo;
           Message.s3_bucketpath := EgressStoreInfo.s3BucketPath egressStoreInfo;
           Message.status := EgressStoreInfo.status egressStoreInfo;
           Message.updated_by := EgressStoreInfo.updatedBy egressStoreInfo;
           Message.updated_at := EgressStoreInfo.updatedAt egressStoreInfo;
           Message.ver := EgressStoreInfo.ver egressStoreInfo |} in
      tryCatch
        (publishMessage message)
        (fun _ => throw (Boom badRequest
           ("Unable to publish message for egress store: " +:+
            EgressStoreInfo.id egressStoreInfo))) ;;;
      audit requestContext
        {| action := "trigger-egress-notification-process"; body := AuditMessage message |} ;;;
      ret message
  end.

Definition enableEgressStoreSubmission (egressStoreInfo : EgressStoreInfo.t) : Async unit :=
  let egressStoreDdbLockId :=
    "egress-store-ddb-access-" +:+ EgressStoreInfo.id egressStoreInfo in
  let egressStoreInfo :=
    {| EgressStoreInfo.id := EgressStoreInfo.id egressStoreInfo;
       EgressStoreInfo.egressStoreName := EgressStoreInfo.egressStoreName egressStoreInfo;
       EgressStoreInfo.createdAt := EgressStoreInfo.createdAt egressStoreInfo;
       EgressStoreInfo.createdBy := EgressStoreInfo.createdBy egressStoreInfo;
       EgressStoreInfo.workspaceId := EgressStoreInfo.workspaceId egressStoreInfo;
       EgressStoreInfo.projectId := EgressStoreInfo.projectId egressStoreInfo;
       EgressStoreInfo.s3BucketName := EgressStoreInfo.s3BucketName egressStoreInfo;
       EgressStoreInfo.s3BucketPath := EgressStoreInfo.s3BucketPath egressStoreInfo;
       EgressStoreInfo.status := EgressStoreInfo.status egressStoreInfo;
       EgressStoreInfo.updatedBy := EgressStoreInfo.updatedBy egressStoreInfo;
       EgressStoreInfo.updatedAt := EgressStoreInfo.updatedAt egressStoreInfo;
       EgressStoreInfo.ver := EgressStoreInfo.ver egressStoreInfo;
       EgressStoreInfo.isAbleToSubmitEgressRequest := true;
       EgressStoreInfo.egressStoreObjectListLocation :=
         EgressStoreInfo.egressStoreObjectListLocation egressStoreInfo |} in
  lockAndUpdate egressStoreDdbLockId (EgressStoreInfo.id egressStoreInfo) egressStoreInfo.

(** ** A sample deployment

    One workspace, [ws1], of the researcher [alice]; the linked account is
    [111122223333]. *)

Definition sampleSettings : Settings :=
  {| enableEgressStore := "true";
     egressStoreBucketName := "egress-store";
     egressNotificationBucketName := "egress-notification";
     egressStoreKmsKeyAliasArn := "alias/egress";
     egressNotificationSnsTopicArn := "arn:aws:sns:egress-topic" |}.

Definition emptyWorld : World :=
  {| settings := sampleSettings;
     dbEgressStore := [];
     s3 := ∅;
     putObjects := [];
     bucketPolicy := [];
     published := [];
     auditLog := [];
     heldLocks := ∅;
     now := 1600000000000;
     nextUuid := 0;
     scanError := None;
     dbWriteError := None;
     validationError := fun _ => None;
     s3ListError := None;
     s3WriteError := None;
     latestVersion := fun _ _ => inr ("v1", "owner");
     kmsKeyArn := fun _ => inr "arn:aws:kms:key/1";
     memberAccount := fun _ => inr "111122223333";
     getPolicyError := None;
     putPolicyError := None;
     publishError := None |}.

Definition alice : RequestContext :=
  {| principalUid := Some "alice"; principalIsAdmin := false |}.

Definition ws1 : Environment.t :=
  {| Environment.id := "ws1"; Environment.name := "study";
     Environment.createdBy := "alice"; Environment.projectId := "p1" |}.

Definition sampleInfo (status : string) (able : bool) (ver : Z) : EgressStoreInfo.t :=
  {| EgressStoreInfo.id := "ws1";
     EgressStoreInfo.egressStoreName := "study-egress-store";
     EgressStoreInfo.createdAt := ToISOStringMethod;
     EgressStoreInfo.createdBy := "alice";
     EgressStoreInfo.workspaceId := "ws1";
     EgressStoreInfo.projectId := "p1";
     EgressStoreInfo.s3BucketName := "egress-store";
     EgressStoreInfo.s3BucketPath := "ws1/";
     EgressStoreInfo.status := status;
     EgressStoreInfo.updatedBy := Some "alice";
     EgressStoreInfo.updatedAt := ToISOStringMethod;
     EgressStoreInfo.ver := ver;
     EgressStoreInfo.isAbleToSubmitEgressRequest := able;
     EgressStoreInfo.egressStoreObjectListLocation := None |}.

(** The descriptor of the store of [ws1]. *)
Definition sampleStore : EgressStore.t :=
  {| EgressStore.id := "egress-store-ws1";
     EgressStore.readable := true;
     EgressStore.writeable := true;
     EgressStore.kmsArn := Some "arn:aws:kms:key/1";
     EgressStore.bucket := "egress-store";
     EgressStore.prefix := "ws1/";
     EgressStore.envPermissionRead := true;
     EgressStore.envPermissionWrite := true;
     EgressStore.status := "reachable";
     EgressStore.createdBy := "alice";
     EgressStore.workspaceId := "ws1";
     EgressStore.projectId := "p1";
     EgressStore.resources := ["arn:aws:s3:::egress-store/ws1/"] |}.

(** A policy document in which the account of [ws1] is already a principal
    of the store's get statement. *)
Definition grantedBefore : PolicyDocument :=
  [ {| Sid := "Get:ws1/"; Effect := "Allow"; Action := GetObject;
       Resource := "arn:aws:s3:::egress-store/ws1/*";
       Principal := {[ "111122223333" ]} |} ].

(** The world in which [ws1] has the given record. *)
Definition worldWith (info : EgressStoreInfo.t) : World :=
  set_dbEgressStore [info] emptyWorld.

(** The world in which [ws1] has the given record and its store three
    objects: the folder marker and two files. *)
Definition listingWorld (info : EgressStoreInfo.t) : World :=
  set_s3 {[ "egress-store" :=
              [ {| S3Object.Key := "ws1/"; S3Object.Size := 0%N; S3Object.LastModified := 5 |};
                {| S3Object.Key := "ws1/b.csv"; S3Object.Size := 1536%N;
                   S3Object.LastModified := 20 |};
                {| S3Object.Key := "ws1/a.csv"; S3Object.Size := 0%N;
                   S3Object.LastModified := 10 |} ] ]}
         (worldWith info).

(** ** Vocabulary of the statements *)

(** The items of the table that [getEgressStoreInfo] keeps for a workspace. *)
Definition recordsOf (w : World) (environmentId : string) : list EgressStoreInfo.t :=
  List.filter (fun store => bool_decide (EgressStoreInfo.workspaceId store = environmentId))
              (take 1000 (dbEgressStore w)).

(** The table can be scanned, and the scan holds exactly the record [r] for
    the workspace. *)
Definition hasRecord (w : World) (environmentId : string) (r : EgressStoreInfo.t) : Prop :=
  scanError w = None /\ recordsOf w environmentId = [r].

(** The table can be scanned, and the scan holds no record for the workspace. *)
Definition hasNoRecord (w : World) (environmentId : string) : Prop :=
  scanError w = None /\ recordsOf w environmentId = [].

Definition featureEnabled (w : World) : Prop :=
  featureDisabled (enableEgressStore (settings w)) = false.

(** The caller is an admin or the one who created the store. *)
Definition adminOrOwner (requestContext : RequestContext) (r : EgressStoreInfo.t) : Prop :=
  isAdmin requestContext = true \/
  principalUid requestContext = Some (EgressStoreInfo.createdBy r).

(** The error of a create that finds the store's record in the table. *)
Definition alreadyExists (environment : Environment.t) : Error :=
  Boom badRequest
    ("Egress Store with id " +:+ dquote +:+ Environment.id environment +:+ dquote +:+
     " already exists").

Definition ddbLockId (id : string) : string := "egress-store-ddb-access-" +:+ id.

Definition bucketPolicyLockId (bucketName : string) : string :=
  "bucket-policy-access-" +:+ bucketName.

(** The statement of the document that a description stands for: the first
    one under its id, or an empty one. *)
Definition oldStatementFor (s3Policy : PolicyDocument) (params : StatementParams)
    : PolicyStatement :=
  default (createAllowStatement params) (findStatement (statementId params) s3Policy).

Definition revisedFor (s3Policy : PolicyDocument) (params : list StatementParams)
    (updateStatementFn : PolicyStatement -> PolicyStatement) : list PolicyStatement :=
  map (fun p => updateStatementFn (oldStatementFor s3Policy p)) params.

(** The statement descriptions [addEgressStoreBucketPolicy] asks for. *)
Definition grantParams (egressStore : EgressStore.t) (s3BucketName : string)
    : list StatementParams :=
  map (fun fn => fn s3BucketName (EgressStore.prefix egressStore))
    ((if EgressStore.envPermissionRead egressStore then [getStatementParamsFn] else [])
     ++ (if EgressStore.envPermissionWrite egressStore then [putStatementParamsFn] else [])
     ++ (if EgressStore.envPermissionRead egressStore || EgressStore.envPermissionWrite egressStore
         then [listStatementParamsFn] else [])).

(** The statement descriptions [removeEgressStoreBucketPolicy] asks for. *)
Definition revokeParams (egressStore : EgressStore.t) (s3BucketName : string)
    : list StatementParams :=
  map (fun fn => fn s3BucketName (EgressStore.prefix egressStore))
    [getStatementParamsFn; putStatementParamsFn; listStatementParamsFn].

(** The ids of the three statements of a store. *)
Definition storeSids (egressStore : EgressStore.t) : list string :=
  [ "Get:" +:+ EgressStore.prefix egressStore;
    "Put:" +:+ EgressStore.prefix egressStore;
    "List:" +:+ EgressStore.prefix egressStore ].

(** A statement of the store: its id is one of the store's three. *)
Definition ofStore (egressStore : EgressStore.t) (st : PolicyStatement) : bool :=
  bool_decide (Sid st ∈ storeSids egressStore).

(** The document [addEgressStoreBucketPolicy] writes when it reads [s3Policy]. *)
Definition grantedPolicy (s3Policy : PolicyDocument) (egressStore : EgressStore.t)
    (s3BucketName memberAccountId : string) : PolicyDocument :=
  reviseS3Policy s3Policy
    (revisedFor s3Policy (grantParams egressStore s3BucketName)
       (fun oldStatement => addAccountToStatement oldStatement memberAccountId)).

(** The document [removeEgressStoreBucketPolicy] writes when it reads [s3Policy]. *)
Definition revokedPolicy (s3Policy : PolicyDocument) (egressStore : EgressStore.t)
    (s3BucketName memberAccountId : string) : PolicyDocument :=
  reviseS3Policy s3Policy
    (revisedFor s3Policy (revokeParams egressStore s3BucketName)
       (fun oldStatement => removeAccountFromStatement oldStatement memberAccountId)).

(** The record [terminateEgressStore] writes over the record [r]. *)
Definition terminatedInfo (r : EgressStoreInfo.t) (curUser : option string) (date : Z)
    : EgressStoreInfo.t :=
  {| EgressStoreInfo.id := EgressStoreInfo.id r;
     EgressStoreInfo.egressStoreName := EgressStoreInfo.egressStoreName r;
     EgressStoreInfo.createdAt := EgressStoreInfo.createdAt r;
     EgressStoreInfo.createdBy := EgressStoreInfo.createdBy r;
     EgressStoreInfo.workspaceId := EgressStoreInfo.workspaceId r;
     EgressStoreInfo.projectId := EgressStoreInfo.projectId r;
     EgressStoreInfo.s3BucketName := EgressStoreInfo.s3BucketName r;
     EgressStoreInfo.s3BucketPath := EgressStoreInfo.s3BucketPath r;
     EgressStoreInfo.status := TERMINATED_STATUS_CODE;
     EgressStoreInfo.updatedBy := curUser;
     EgressStoreInfo.updatedAt := IsoString date;
     EgressStoreInfo.ver := EgressStoreInfo.ver r;
     EgressStoreInfo.isAbleToSubmitEgressRequest := false;
     EgressStoreInfo.egressStoreObjectListLocation :=
       EgressStoreInfo.egressStoreObjectListLocation r |}.

(** The descriptor [terminateEgressStore] hands to the bucket-policy code. *)
Definition terminatedStore (environmentId : string) (r : EgressStoreInfo.t) : EgressStore.t :=
  {| EgressStore.id := "egress-store-" +:+ environmentId;
     EgressStore.readable := true;
     EgressStore.writeable := true;
     EgressStore.kmsArn := None;
     EgressStore.bucket := EgressStoreInfo.s3BucketName r;
     EgressStore.prefix := EgressStoreInfo.s3BucketPath r;
     EgressStore.envPermissionRead := true;
     EgressStore.envPermissionWrite := true;
     EgressStore.status := "reachable";
     EgressStore.createdBy := EgressStoreInfo.createdBy r;
     EgressStore.workspaceId := environmentId;
     EgressStore.projectId := EgressStoreInfo.projectId r;
     EgressStore.resources :=
       ["arn:aws:s3:::" +:+ EgressStoreInfo.s3BucketName r +:+ "/" +:+ environmentId +:+ "/"] |}.

(** The table with the item under the id of [r] replaced by [r']. *)
Definition replaced (r r' : EgressStoreInfo.t) (table : list EgressStoreInfo.t)
    : list EgressStoreInfo.t :=
  map (fun i => if bool_decide (EgressStoreInfo.id i = EgressStoreInfo.id r) then r' else i)
      table.

(** The error of a terminate that finds the export running. *)
Definition stillProcessing (r : EgressStoreInfo.t) : Error :=
  Boom forbidden
    ("Egress store: " +:+ EgressStoreInfo.id r +:+
     " is still in processing. The egress store is not terminated and the workspce can not be terminated before egress request is processed.").

(** The key of the manifest [prepareEgressStoreSnapshot] writes for [r]. *)
Definition snapshotKey (r : EgressStoreInfo.t) : string :=
  EgressStoreInfo.id r +:+ "/" +:+ EgressStoreInfo.egressStoreName r +:+ "-ver" +:+
  pretty (parseInt (EgressStoreInfo.ver r) + 1) +:+ ".json".

(** The location of that manifest. *)
Definition snapshotLocation (w : World) (r : EgressStoreInfo.t) : string :=
  "arn:aws:s3:::" +:+ egressNotificationBucketName (settings w) +:+ "/" +:+ snapshotKey r.

(** The record [notifySNS] writes over the record [r]. *)
Definition submittedInfo (r : EgressStoreInfo.t) (curUser : option string) (date : Z)
    (location : string) : EgressStoreInfo.t :=
  {| EgressStoreInfo.id := EgressStoreInfo.id r;
     EgressStoreInfo.egressStoreName := EgressStoreInfo.egressStoreName r;
     EgressStoreInfo.createdAt := EgressStoreInfo.createdAt r;
     EgressStoreInfo.createdBy := EgressStoreInfo.createdBy r;
     EgressStoreInfo.workspaceId := EgressStoreInfo.workspaceId r;
     EgressStoreInfo.projectId := EgressStoreInfo.projectId r;
     EgressStoreInfo.s3BucketName := EgressStoreInfo.s3BucketName r;
     EgressStoreInfo.s3BucketPath := EgressStoreInfo.s3BucketPath r;
     EgressStoreInfo.status :=
       if negb (bool_decide (toUpperCase (EgressStoreInfo.status r) = PENDING_STATUS_CODE))
       then PENDING_STATUS_CODE else EgressStoreInfo.status r;
     EgressStoreInfo.updatedBy := curUser;
     EgressStoreInfo.updatedAt := IsoString date;
     EgressStoreInfo.ver := parseInt (EgressStoreInfo.ver r) + 1;
     EgressStoreInfo.isAbleToSubmitEgressRequest := false;
     EgressStoreInfo.egressStoreObjectListLocation := Some location |}.

(** The message [notifySNS] publishes for the record [r'] it has written. *)
Definition messageOf (r' : EgressStoreInfo.t) (location : string) (uuid : nat) : Message.t :=
  {| Message.egressStoreObjectListLocation := location;
     Message.id := uuid;
     Message.egress_store_id := EgressStoreInfo.id r';
     Message.egress_store_name := EgressStoreInfo.egressStoreName r';
     Message.created_at := EgressStoreInfo.createdAt r';
     Message.created_by := EgressStoreInfo.createdBy r';
     Message.workspace_id := EgressStoreInfo.workspaceId r';
     Message.project_id := EgressStoreInfo.projectId r';
     Message.s3_bucketname := EgressStoreInfo.s3BucketName r';
     Message.s3_bucketpath := EgressStoreInfo.s3BucketPath r';
     Message.status := EgressStoreInfo.status r';
     Message.updated_by := EgressStoreInfo.updatedBy r';
     Message.updated_at := EgressStoreInfo.updatedAt r';
     Message.ver := EgressStoreInfo.ver r' |}.

(** The record [enableEgressStoreSubmission] writes over the record [r]. *)
Definition enabledInfo (r : EgressStoreInfo.t) : EgressStoreInfo.t :=
  {| EgressStoreInfo.id := EgressStoreInfo.id r;
     EgressStoreInfo.egressStoreName := EgressStoreInfo.egressStoreName r;
     EgressStoreInfo.createdAt := EgressStoreInfo.createdAt r;
     EgressStoreInfo.createdBy := EgressStoreInfo.createdBy r;
     EgressStoreInfo.workspaceId := EgressStoreInfo.workspaceId r;
     EgressStoreInfo.projectId := EgressStoreInfo.projectId r;
     EgressStoreInfo.s3BucketName := EgressStoreInfo.s3BucketName r;
     EgressStoreInfo.s3BucketPath := EgressStoreInfo.s3BucketPath r;
     EgressStoreInfo.status := EgressStoreInfo.status r;
     EgressStoreInfo.updatedBy := EgressStoreInfo.updatedBy r;
     EgressStoreInfo.updatedAt := EgressStoreInfo.updatedAt r;
     EgressStoreInfo.ver := EgressStoreInfo.ver r;
     EgressStoreInfo.isAbleToSubmitEgressRequest := true;
     EgressStoreInfo.egressStoreObjectListLocation :=
       EgressStoreInfo.egressStoreObjectListLocation r |}.

(** The error of a submit whose message could not be published. *)
Definition publishFailed (r : EgressStoreInfo.t) : Error :=
  Boom badRequest ("Unable to publish message for egress store: " +:+ EgressStoreInfo.id r).

(** The objects [listAllObjects] reports for the store of [r]. *)
Definition listing (w : World) (r : EgressStoreInfo.t) : list S3Object.t :=
  List.filter (underPrefix (EgressStoreInfo.s3BucketPath r))
              (objectsOf w (EgressStoreInfo.s3BucketName r)).

(** S3 knows the latest version of every object of the store of [r]. *)
Definition versionsKnown (w : World) (r : EgressStoreInfo.t) : Prop :=
  forall o, o ∈ listing w r ->
    exists v, latestVersion w (EgressStoreInfo.s3BucketName r) (S3Object.Key o) = inr v.

(** The computation leaves the component [proj] of the world as it is,
    whether it returns or throws. *)
Definition preserves {F A : Type} (proj : World -> F) (m : Async A) : Prop :=
  forall w, proj (snd (m w)) = proj w.

(** ** Further vocabulary: the errors of the service *)

(** The error of a lookup that finds several records for a workspace. *)
Definition multipleResults : Error :=
  Boom internalError
    "Error in getting egress store info: multiple results fetched from egrss store table".

(** The error of a terminate that could not clear the store. *)
Definition deleteFailed (r : EgressStoreInfo.t) : Error :=
  Boom badRequest
    ("Error in deleting egress store:" +:+ EgressStoreInfo.s3BucketName r +:+
     " in bucket: " +:+ EgressStoreInfo.s3BucketPath r).

(** The error of a submit whose snapshot could not be taken. *)
Definition snapshotFailed (w : World) (r : EgressStoreInfo.t) : Error :=
  Boom badRequest
    ("Error in preparing EgressStoreSnapshot, bucket:" +:+
     egressNotificationBucketName (settings w) +:+ ", key: " +:+ snapshotKey r).

(** The error of a write over an item that is not in the table. *)
Definition updateFailed (dbKey : string) : Error :=
  Boom badRequest
    ("Egress Store with id " +:+ dquote +:+ dbKey +:+ dquote +:+ " got updating error").

(** The error of a submit on a store that is not ready. *)
Definition notReady (r : EgressStoreInfo.t) : Error :=
  Boom badRequest
    ("Egress Store:" +:+ EgressStoreInfo.id r +:+
     " is not ready for egress. Please contact your administrator for more information.").

(** The caller is neither an admin nor the one who created the store. *)
Definition stranger (requestContext : RequestContext) (r : EgressStoreInfo.t) : Prop :=
  isAdmin requestContext = false /\
  principalUid requestContext <> Some (EgressStoreInfo.createdBy r).

Definition bob : RequestContext :=
  {| principalUid := Some "bob"; principalIsAdmin := false |}.

(** The world in which the table holds two records for [ws1]. *)
Definition twoRecordsWorld : World :=
  set_dbEgressStore [sampleInfo "CREATED" false 0; sampleInfo "PENDING" false 1] emptyWorld.

(** The empty world with one fault set. *)
Definition withScanError (err : Error) (w : World) : World :=
  {| settings := settings w; dbEgressStore := dbEgressStore w; s3 := s3 w;
     putObjects := putObjects w; bucketPolicy := bucketPolicy w; published := published w;
     auditLog := auditLog w; heldLocks := heldLocks w; now := now w; nextUuid := nextUuid w;
     scanError := Some err; dbWriteError := dbWriteError w;
     validationError := validationError w; s3ListError := s3ListError w;
     s3WriteError := s3WriteError w; latestVersion := latestVersion w;
     kmsKeyArn := kmsKeyArn w; memberAccount := memberAccount w;
     getPolicyError := getPolicyError w; putPolicyError := putPolicyError w;
     publishError := publishError w |}.

Definition withS3WriteError (err : Error) (w : World) : World :=
  {| settings := settings w; dbEgressStore := dbEgressStore w; s3 := s3 w;
     putObjects := putObjects w; bucketPolicy := bucketPolicy w; published := published w;
     auditLog := auditLog w; heldLocks := heldLocks w; now := now w; nextUuid := nextUuid w;
     scanError := scanError w; dbWriteError := dbWriteError w;
     validationError := validationError w; s3ListError := s3ListError w;
     s3WriteError := Some err; latestVersion := latestVersion w;
     kmsKeyArn := kmsKeyArn w; memberAccount := memberAccount w;
     getPolicyError := getPolicyError w; putPolicyError := putPolicyError w;
     publishError := publishError w |}.

Definition withSettings (v : Settings) (w : World) : World :=
  {| settings := v; dbEgressStore := dbEgressStore w; s3 := s3 w;
     putObjects := putObjects w; bucketPolicy := bucketPolicy w; published := published w;
     auditLog := auditLog w; heldLocks := heldLocks w; now := now w; nextUuid := nextUuid w;
     scanError := scanError w; dbWriteError := dbWriteError w;
     validationError := validationError w; s3ListError := s3ListError w;
     s3WriteError := s3WriteError w; latestVersion := latestVersion w;
     kmsKeyArn := kmsKeyArn w; memberAccount := memberAccount w;
     getPolicyError := getPolicyError w; putPolicyError := putPolicyError w;
     publishError := publishError w |}.

Definition withMemberAccount (v : string -> Error + string) (w : World) : World :=
  {| settings := settings w; dbEgressStore := dbEgressStore w; s3 := s3 w;
     putObjects := putObjects w; bucketPolicy := bucketPolicy w; published := published w;
     auditLog := auditLog w; heldLocks := heldLocks w; now := now w; nextUuid := nextUuid w;
     scanError := scanError w; dbWriteError := dbWriteError w;
     validationError := validationError w; s3ListError := s3ListError w;
     s3WriteError := s3WriteError w; latestVersion := latestVersion w;
     kmsKeyArn := kmsKeyArn w; memberAccount := v;
     getPolicyError := getPolicyError w; putPolicyError := putPolicyError w;
     publishError := publishError w |}.

Definition withDbWriteError (err : Error) (w : World) : World :=
  {| settings := settings w; dbEgressStore := dbEgressStore w; s3 := s3 w;
     putObjects := putObjects w; bucketPolicy := bucketPolicy w; published := published w;
     auditLog := auditLog w; heldLocks := heldLocks w; now := now w; nextUuid := nextUuid w;
     scanError := scanError w; dbWriteError := Some err;
     validationError := validationError w; s3ListError := s3ListError w;
     s3WriteError := s3WriteError w; latestVersion := latestVersion w;
     kmsKeyArn := kmsKeyArn w; memberAccount := memberAccount w;
     getPolicyError := getPolicyError w; putPolicyError := putPolicyError w;
     publishError := publishError w |}.

(** An error of a collaborator that is out of service. *)
Definition outage : Error := Upstream "ServiceUnavailable" "{}".

(** The settings of the sample deployment with the feature switched off. *)
Definition disabledSettings : Settings :=
  {| enableEgressStore := "false";
     egressStoreBucketName := "egress-store";
     egressNotificationBucketName := "egress-notification";
     egressStoreKmsKeyAliasArn := "alias/egress";
     egressNotificationSnsTopicArn := "arn:aws:sns:egress-topic" |}.

(** The event a terminate logs when it finds no record. *)
Definition nothingToTerminate : AuditEvent :=
  {| action := "terminated-egress-store";
     body := AuditText "No egress store found to be terminated" |}.

(** The world of [ws1] with one object that S3 cannot tell the version of. *)
Definition unknownVersionWorld (info : EgressStoreInfo.t) : World :=
  let w := listingWorld info in
  {| settings := settings w; dbEgressStore := dbEgressStore w; s3 := s3 w;
     putObjects := putObjects w; bucketPolicy := bucketPolicy w; published := published w;
     auditLog := auditLog w; heldLocks := heldLocks w; now := now w; nextUuid := nextUuid w;
     scanError := scanError w; dbWriteError := dbWriteError w;
     validationError := validationError w; s3ListError := s3ListError w;
     s3WriteError := s3WriteError w;
     latestVersion := fun _ key =>
       if bool_decide (key = "ws1/b.csv") then inl outage else inr ("v1", "owner");
     kmsKeyArn := kmsKeyArn w; memberAccount := memberAccount w;
     getPolicyError := getPolicyError w; putPolicyError := putPolicyError w;
     publishError := publishError w |}.

Definition withS3ListError (err : Error) (w : World) : World :=
  {| settings := settings w; dbEgressStore := dbEgressStore w; s3 := s3 w;
     putObjects := putObjects w; bucketPolicy := bucketPolicy w; published := published w;
     auditLog := auditLog w; heldLocks := heldLocks w; now := now w; nextUuid := nextUuid w;
     scanError := scanError w; dbWriteError := dbWriteError w;
     validationError := validationError w; s3ListError := Some err;
     s3WriteError := s3WriteError w; latestVersion := latestVersion w;
     kmsKeyArn := kmsKeyArn w; memberAccount := memberAccount w;
     getPolicyError := getPolicyError w; putPolicyError := putPolicyError w;
     publishError := publishError w |}.

(** The record [createEgressStore] writes for an environment. *)
Definition createdInfo (requestContext : RequestContext) (environment : Environment.t)
    (bucketName : string) : EgressStoreInfo.t :=
  {| EgressStoreInfo.id := Environment.id environment;
     EgressStoreInfo.egressStoreName := Environment.name environment +:+ "-egress-store";
     EgressStoreInfo.createdAt := ToISOStringMethod;
     EgressStoreInfo.createdBy := Environment.createdBy environment;
     EgressStoreInfo.workspaceId := Environment.id environment;
     EgressStoreInfo.projectId := Environment.projectId environment;
     EgressStoreInfo.s3BucketName := bucketName;
     EgressStoreInfo.s3BucketPath := Environment.id environment +:+ "/";
     EgressStoreInfo.status := CREATED_STATUS_CODE;
     EgressStoreInfo.updatedBy := principalUid requestContext;
     EgressStoreInfo.updatedAt := ToISOStringMethod;
     EgressStoreInfo.ver := 0;
     EgressStoreInfo.isAbleToSubmitEgressRequest := false;
     EgressStoreInfo.egressStoreObjectListLocation := None |}.

(** The descriptor [createEgressStore] returns. *)
Definition createdStore (environment : Environment.t) (bucketName kmsArn : string)
    : EgressStore.t :=
  {| EgressStore.id := "egress-store-" +:+ Environment.id environment;
     EgressStore.readable := true;
     EgressStore.writeable := true;
     EgressStore.kmsArn := Some kmsArn;
     EgressStore.bucket := bucketName;
     EgressStore.prefix := Environment.id environment +:+ "/";
     EgressStore.envPermissionRead := true;
     EgressStore.envPermissionWrite := true;
     EgressStore.status := "reachable";
     EgressStore.createdBy := Environment.createdBy environment;
     EgressStore.workspaceId := Environment.id environment;
     EgressStore.projectId := Environment.projectId environment;
     EgressStore.resources :=
       ["arn:aws:s3:::" +:+ bucketName +:+ "/" +:+ Environment.id environment +:+ "/"] |}.

(** The collaborators a create talks to answer, and the table holds no item
    under the id of the environment. *)
Definition canCreate (w : World) (environment : Environment.t) (kmsArn account : string)
    : Prop :=
  featureEnabled w
  /\ validationError w environment = None
  /\ (ddbLockId (Environment.id environment) ∉ heldLocks w)
  /\ dbWriteError w = None
  /\ hasKey (Environment.id environment) (dbEgressStore w) = false
  /\ kmsKeyArn w (egressStoreKmsKeyAliasArn (settings w)) = inr kmsArn
  /\ memberAccount w (Environment.id environment) = inr account
  /\ (bucketPolicyLockId (egressStoreBucketName (settings w)) ∉ heldLocks w)
  /\ getPolicyError w = None
  /\ putPolicyError w = None.

(** ** Further vocabulary: the table and the calls *)

(** The table holds one item per id at most, and every item is the record of
    the workspace it is filed under. *)
Definition wellKeyed (table : list EgressStoreInfo.t) : Prop :=
  List.NoDup (map EgressStoreInfo.id table)
  /\ Forall (fun i => EgressStoreInfo.workspaceId i = EgressStoreInfo.id i) table.

(** A call of one of the operations that write the table from a lookup. *)
Inductive Request :=
| Create (requestContext : RequestContext) (environment : Environment.t)
| Terminate (requestContext : RequestContext) (environmentId : string)
| Submit (requestContext : RequestContext) (environmentId : string)
| List_ (requestContext : RequestContext) (environmentId : string).

(** The world a call leaves, whether it returns or throws. *)
Definition serve (q : Request) (w : World) : World :=
  match q with
  | Create requestContext environment => snd (createEgressStore requestContext environment w)
  | Terminate requestContext environmentId =>
      snd (terminateEgressStore requestContext environmentId w)
  | Submit requestContext environmentId => snd (notifySNS requestContext environmentId w)
  | List_ requestContext environmentId =>
      snd (getEgressStore exactFloorLog1024 requestContext environmentId w)
  end.

Definition serveAll (qs : list Request) (w : World) : World :=
  foldl (fun w q => serve q w) w qs.

(** A day in the life of [ws1]: created by alice, submitted by bob (who is
    refused), listed and terminated by alice. *)
Definition sampleCalls : list Request :=
  [ Create alice ws1; Submit bob "ws1"; List_ alice "ws1"; Terminate alice "ws1";
    Create alice ws1 ].

Definition withPublishError (err : Error) (w : World) : World :=
  {| settings := settings w; dbEgressStore := dbEgressStore w; s3 := s3 w;
     putObjects := putObjects w; bucketPolicy := bucketPolicy w; published := published w;
     auditLog := auditLog w; heldLocks := heldLocks w; now := now w; nextUuid := nextUuid w;
     scanError := scanError w; dbWriteError := dbWriteError w;
     validationError := validationError w; s3ListError := s3ListError w;
     s3WriteError := s3WriteError w; latestVersion := latestVersion w;
     kmsKeyArn := kmsKeyArn w; memberAccount := memberAccount w;
     getPolicyError := getPolicyError w; putPolicyError := putPolicyError w;
     publishError := Some err |}.


(** ** Further vocabulary: the names of a listing *)

(** The string holds no [/]. *)
Fixpoint slashFree (s : string) : bool :=
  match s with
  | EmptyString => true
  | String c s' => negb (bool_decide (c = "/"%char)) && slashFree s'
  end.


(** ** Further vocabulary: a second submission *)

(** What the collaborators answer is the same in both worlds, and so are the
    settings, the objects of the buckets and the locks held by others. *)
Definition sameCollaborators (w w' : World) : Prop :=
  settings w' = settings w
  /\ scanError w' = scanError w
  /\ s3 w' = s3 w
  /\ latestVersion w' = latestVersion w
  /\ s3ListError w' = s3ListError w
  /\ s3WriteError w' = s3WriteError w
  /\ heldLocks w' = heldLocks w
  /\ dbWriteError w' = dbWriteError w
  /\ publishError w' = publishError w.


(** ** Further vocabulary: where a record comes from *)

(** Two records of the same store: the same id and name, the same creator
    and creation time, the same workspace and project, the same bucket and
    prefix. *)
Definition sameOrigin (r r' : EgressStoreInfo.t) : Prop :=
  EgressStoreInfo.id r' = EgressStoreInfo.id r
  /\ EgressStoreInfo.egressStoreName r' = EgressStoreInfo.egressStoreName r
  /\ EgressStoreInfo.createdAt r' = EgressStoreInfo.createdAt r
  /\ EgressStoreInfo.createdBy r' = EgressStoreInfo.createdBy r
  /\ EgressStoreInfo.workspaceId r' = EgressStoreInfo.workspaceId r
  /\ EgressStoreInfo.projectId r' = EgressStoreInfo.projectId r
  /\ EgressStoreInfo.s3BucketName r' = EgressStoreInfo.s3BucketName r
  /\ EgressStoreInfo.s3BucketPath r' = EgressStoreInfo.s3BucketPath r.

(** The table [table'] holds the records of [table], in their places and
    possibly rewritten, followed by the records that were added. *)
Definition keepsRecords (table table' : list EgressStoreInfo.t) : Prop :=
  exists kept added,
    table' = kept ++ added /\ Forall2 sameOrigin table kept.


(** ** Further vocabulary: the version of a record *)

(** The record [r'] has the id of [r] and a [ver] that is not lower. *)
Definition verNotLowered (r r' : EgressStoreInfo.t) : Prop :=
  EgressStoreInfo.id r' = EgressStoreInfo.id r
  /\ EgressStoreInfo.ver r <= EgressStoreInfo.ver r'.

(** The table [table'] holds, for each item of [table] and in its place, an
    item of the same id whose [ver] is not lower, followed by the items that
    were added. *)
Definition keepsVer (table table' : list EgressStoreInfo.t) : Prop :=
  exists kept added,
    table' = kept ++ added /\ Forall2 verNotLowered table kept.

(** * Properties *)

(** ** Running computations *)

Lemma bind_ok {A B : Type} (m : Async A) (k : A -> Async B) w a w1 :
  m w = (Returned a, w1) -> bind m k w = k a w1.
Proof. intros H. unfold bind. rewrite H. reflexivity. Qed.

Lemma bind_err {A B : Type} (m : Async A) (k : A -> Async B) w e w1 :
  m w = (Thrown e, w1) -> bind m k w = (Thrown e, w1).
Proof. intros H. unfold bind. rewrite H. reflexivity. Qed.

Lemma bind_inv {A B : Type} (m : Async A) (k : A -> Async B) w b w' :
  bind m k w = (Returned b, w') ->
  exists a w1, m w = (Returned a, w1) /\ k a w1 = (Returned b, w').
Proof.
  unfold bind. destruct (m w) as [[a|e] w1]; intros H; [eauto | discriminate].
Qed.

Lemma throwIf_false e w : throwIf false e w = (Returned tt, w).
Proof. reflexivity. Qed.

Lemma throwIf_inv c e w u w' :
  throwIf c e w = (Returned u, w') -> c = false /\ w' = w.
Proof. destruct c; cbn; intros H; [discriminate | by inversion H]. Qed.

Lemma failWith_ok f w : f w = None -> failWith f w = (Returned tt, w).
Proof. intros H. unfold failWith. rewrite H. reflexivity. Qed.

Lemma failWith_inv f w u w' :
  failWith f w = (Returned u, w') -> f w = None /\ w' = w.
Proof. unfold failWith. destruct (f w); intros H; [discriminate | by inversion H]. Qed.

Lemma tryWriteLockAndRun_free {A : Type} lockId (section : Async A) w :
  lockId ∉ heldLocks w -> tryWriteLockAndRun lockId section w = section w.
Proof.
  intros H. unfold tryWriteLockAndRun, bind, get.
  rewrite bool_decide_eq_false_2 by assumption. reflexivity.
Qed.

Lemma tryWriteLockAndRun_ok {A : Type} lockId (section : Async A) w a w' :
  lockId ∉ heldLocks w -> section w = (Returned a, w') ->
  tryWriteLockAndRun lockId section w = (Returned a, w').
Proof. intros H1 H2. by rewrite tryWriteLockAndRun_free. Qed.

Lemma tryWriteLockAndRun_inv {A : Type} lockId (section : Async A) w a w' :
  tryWriteLockAndRun lockId section w = (Returned a, w') ->
  (lockId ∉ heldLocks w) /\ section w = (Returned a, w').
Proof.
  unfold tryWriteLockAndRun, bind, get. case_bool_decide; [discriminate | auto].
Qed.

(** ** What a computation leaves alone *)

Section Preserves.
Context {F : Type} (proj : World -> F).

Lemma preserves_ret {A : Type} (a : A) : preserves proj (ret a).
Proof. intros w. reflexivity. Qed.

Lemma preserves_throw {A : Type} e : preserves proj (@throw A e).
Proof. intros w. reflexivity. Qed.

Lemma preserves_get : preserves proj get.
Proof. intros w. reflexivity. Qed.

Lemma preserves_bind {A B : Type} (m : Async A) (k : A -> Async B) :
  preserves proj m -> (forall a, preserves proj (k a)) -> preserves proj (bind m k).
Proof.
  intros Hm Hk w. unfold bind. specialize (Hm w).
  destruct (m w) as [[a|e] w1]; cbn in *; [|assumption].
  rewrite Hk. assumption.
Qed.

Lemma preserves_tryCatch {A : Type} (m : Async A) h :
  preserves proj m -> (forall e, preserves proj (h e)) -> preserves proj (tryCatch m h).
Proof.
  intros Hm Hh w. unfold tryCatch. specialize (Hm w).
  destruct (m w) as [[a|e] w1]; cbn in *; [assumption|].
  rewrite Hh. assumption.
Qed.

Lemma preserves_throwIf c e : preserves proj (throwIf c e).
Proof. intros w. destruct c; reflexivity. Qed.

Lemma preserves_failWith f : preserves proj (failWith f).
Proof. intros w. unfold failWith. destruct (f w); reflexivity. Qed.

Lemma preserves_fromSum {A : Type} (r : Error + A) : preserves proj (fromSum r).
Proof. intros w. destruct r; reflexivity. Qed.

Lemma preserves_modify f :
  (forall w, proj (f w) = proj w) -> preserves proj (modify f).
Proof. intros H w. apply H. Qed.

Lemma preserves_runAndCatch {A : Type} (fn : Async A) handler :
  preserves proj fn -> (forall e, preserves proj (handler e)) ->
  preserves proj (runAndCatch fn handler).
Proof.
  intros Hf Hh. apply preserves_tryCatch; [assumption|].
  intros e. case_bool_decide; [apply Hh | apply preserves_throw].
Qed.

Lemma preserves_tryWriteLockAndRun {A : Type} lockId (section : Async A) :
  preserves proj section -> preserves proj (tryWriteLockAndRun lockId section).
Proof.
  intros H. apply preserves_bind; [apply preserves_get|].
  intros w. case_bool_decide; [apply preserves_throw | assumption].
Qed.

Lemma preserves_mapM {A B : Type} (f : A -> Async B) l :
  (forall a, preserves proj (f a)) -> preserves proj (mapM f l).
Proof.
  intros Hf. induction l as [|x l IH]; cbn [mapM]; [apply preserves_ret|].
  apply preserves_bind; [apply Hf|]. intros y.
  apply preserves_bind; [apply IH|]. intros ys. apply preserves_ret.
Qed.

End Preserves.

Create HintDb preserves.

#[local] Hint Resolve preserves_ret preserves_throw preserves_get preserves_throwIf
  preserves_failWith preserves_fromSum : preserves.

(** Splits a goal [preserves proj m] along the structure of [m]. *)
Ltac preserves_step :=
  match goal with
  | |- preserves _ (bind _ _) => apply preserves_bind; [|intros ?]
  | |- preserves _ (tryCatch _ _) => apply preserves_tryCatch; [|intros ?]
  | |- preserves _ (runAndCatch _ _) => apply preserves_runAndCatch; [|intros ?]
  | |- preserves _ (unawaited _) => apply preserves_tryCatch; [|intros ?]
  | |- preserves _ (tryWriteLockAndRun _ _) => apply preserves_tryWriteLockAndRun
  | |- preserves _ (mapM _ _) => apply preserves_mapM; intros ?
  | |- preserves _ (modify _) => apply preserves_modify; intros ?; reflexivity
  | |- preserves _ (if ?c then _ else _) => destruct c
  | |- preserves _ (match ?x with _ => _ end) => destruct x
  | |- preserves _ _ => solve [auto with preserves]
  end.

Ltac preserves_tac := cbv zeta; repeat preserves_step.

(** Unfolds the plumbing of [Async] computations. *)
Ltac async_unfold :=
  repeat (progress (unfold bind, tryCatch, failWith, get, modify, ret, throw, throwIf,
                           fromSum, runAndCatch, unawaited, newDate; cbv beta)).

(** ** Looking a record up *)

Lemma getEgressStoreInfo_found w environmentId r :
  hasRecord w environmentId r ->
  getEgressStoreInfo environmentId w = (Returned (Some r), w).
Proof.
  intros [Hscan Hrec]. unfold recordsOf in Hrec.
  unfold getEgressStoreInfo, scan; async_unfold.
  rewrite Hscan. cbv beta iota. rewrite Hrec. reflexivity.
Qed.

Lemma getEgressStoreInfo_absent w environmentId :
  hasNoRecord w environmentId ->
  getEgressStoreInfo environmentId w = (Returned None, w).
Proof.
  intros [Hscan Hrec]. unfold recordsOf in Hrec.
  unfold getEgressStoreInfo, scan; async_unfold.
  rewrite Hscan. cbv beta iota. rewrite Hrec. reflexivity.
Qed.

(** A lookup reads the table and writes nothing. *)
Lemma getEgressStoreInfo_reads environmentId w :
  snd (getEgressStoreInfo environmentId w) = w.
Proof.
  unfold getEgressStoreInfo, scan; async_unfold.
  destruct (scanError w); cbv beta iota; [reflexivity|].
  destruct (List.filter _ _) as [|x [|y l]]; reflexivity.
Qed.

(** ** Submitting *)

(** C7: a submit on a store whose record has [isAbleToSubmitEgressRequest]
    false fails with the bad-request error "is not ready for egress" (the
    invalid-state error of the service), and the world it leaves is the world
    it found: nothing is published and no record is written. *)
Theorem notifySNS_not_ready requestContext environmentId w r :
  featureEnabled w ->
  hasRecord w environmentId r ->
  EgressStoreInfo.isAbleToSubmitEgressRequest r = false ->
  notifySNS requestContext environmentId w =
    (Thrown (Boom badRequest
       ("Egress Store:" +:+ EgressStoreInfo.id r +:+
        " is not ready for egress. Please contact your administrator for more information.")),
     w)
  /\ published (snd (notifySNS requestContext environmentId w)) = published w
  /\ dbEgressStore (snd (notifySNS requestContext environmentId w)) = dbEgressStore w.
Proof.
  intros Hen Hrec Hable.
  assert (Heq : notifySNS requestContext environmentId w =
    (Thrown (Boom badRequest
       ("Egress Store:" +:+ EgressStoreInfo.id r +:+
        " is not ready for egress. Please contact your administrator for more information.")),
     w)).
  { unfold notifySNS. unfold bind at 1. cbn [get].
    unfold bind at 1. red in Hen. rewrite Hen. cbn [throwIf ret].
    unfold bind at 1. rewrite (getEgressStoreInfo_found _ _ _ Hrec).
    unfold bind at 1. rewrite Hable. reflexivity. }
  rewrite Heq. auto.
Qed.

Lemma notifySNS_not_ready_witness :
  notifySNS alice "ws1" (worldWith (sampleInfo "CREATED" false 0)) =
    (Thrown (Boom badRequest
       "Egress Store:ws1 is not ready for egress. Please contact your administrator for more information."),
     worldWith (sampleInfo "CREATED" false 0)).
Proof.
  apply (notifySNS_not_ready alice "ws1" (worldWith (sampleInfo "CREATED" false 0))
           (sampleInfo "CREATED" false 0)).
  - reflexivity.
  - split; reflexivity.
  - reflexivity.
Defined.

(** ** Collaborators, step by step *)

Lemma unawaited_returns m w : unawaited m w = (Returned tt, snd (unawaited m w)).
Proof. unfold unawaited, tryCatch, ret. destruct (m w) as [[[]|e] w1]; reflexivity. Qed.

Lemma createPath_preserves {F : Type} (proj : World -> F) bucketName folderName :
  (forall v w, proj (set_s3 v w) = proj w) ->
  preserves proj (createPath bucketName folderName).
Proof.
  intros H w. unfold createPath. destruct (s3WriteError w); [reflexivity|].
  destruct (existsb _ _); cbn [snd]; [reflexivity | apply H].
Qed.

Lemma update_absent_inv key item w u w' :
  update attribute_not_exists_id key item w = (Returned u, w') ->
  dbWriteError w = None /\
  hasKey key (dbEgressStore w) = false /\
  w' = set_dbEgressStore (dbEgressStore w ++ [item]) w.
Proof.
  unfold update. intros H.
  apply bind_inv in H as (? & w1 & H1 & H). apply failWith_inv in H1 as [Hdb ->].
  apply bind_inv in H as (? & w2 & H2 & H). inversion H2; subst; clear H2.
  cbv zeta in H. unfold putItem in H.
  destruct (hasKey key (dbEgressStore w2)); cbn in H; [discriminate|].
  inversion H; auto.
Qed.

Lemma update_absent_clash key item w :
  dbWriteError w = None -> hasKey key (dbEgressStore w) = true ->
  update attribute_not_exists_id key item w = (Thrown conditionalCheckFailed, w).
Proof.
  intros Hdb Hkey. unfold update.
  rewrite (bind_ok _ _ _ _ _ (failWith_ok _ _ Hdb)).
  unfold bind, get. cbv zeta. rewrite Hkey. reflexivity.
Qed.

Lemma update_exists_ok key item w :
  dbWriteError w = None -> hasKey key (dbEgressStore w) = true ->
  update attribute_exists_id key item w =
    (Returned tt,
     set_dbEgressStore
       (map (fun i => if bool_decide (EgressStoreInfo.id i = key) then item else i)
            (dbEgressStore w)) w).
Proof.
  intros Hdb Hkey. unfold update.
  rewrite (bind_ok _ _ _ _ _ (failWith_ok _ _ Hdb)).
  unfold bind, get. cbv zeta. unfold putItem. rewrite Hkey. reflexivity.
Qed.

Lemma runAndCatch_inv {A : Type} (fn : Async A) e w a w' :
  runAndCatch fn (fun _ => throw e) w = (Returned a, w') -> fn w = (Returned a, w').
Proof.
  unfold runAndCatch, tryCatch. destruct (fn w) as [[x|err] w1]; [auto|].
  case_bool_decide; discriminate.
Qed.

Lemma runAndCatch_ok {A : Type} (fn : Async A) handler w a w' :
  fn w = (Returned a, w') -> runAndCatch fn handler w = (Returned a, w').
Proof. intros H. unfold runAndCatch, tryCatch. rewrite H. reflexivity. Qed.

Lemma getKmsKeyIdArn_reads w : snd (getKmsKeyIdArn w) = w.
Proof. unfold getKmsKeyIdArn, bind, get. by destruct (kmsKeyArn w _). Qed.

Lemma getMemberAccountId_reads requestContext environmentId w :
  snd (getMemberAccountId requestContext environmentId w) = w.
Proof. unfold getMemberAccountId, bind, get. by destruct (memberAccount w _). Qed.

Lemma getMemberAccountId_ok requestContext environmentId w account :
  memberAccount w environmentId = inr account ->
  getMemberAccountId requestContext environmentId w = (Returned account, w).
Proof. intros H. unfold getMemberAccountId, bind, get. by rewrite H. Qed.

Lemma hasKey_elem key table r :
  r ∈ table -> EgressStoreInfo.id r = key -> hasKey key table = true.
Proof.
  intros Hin Hid. unfold hasKey. apply existsb_exists. exists r.
  split; [by apply list_elem_of_In | by apply bool_decide_eq_true_2].
Qed.

Lemma recordsOf_elem w environmentId r :
  recordsOf w environmentId = [r] ->
  r ∈ dbEgressStore w /\ EgressStoreInfo.workspaceId r = environmentId.
Proof.
  intros H. assert (Hin : In r (recordsOf w environmentId)) by (rewrite H; left; reflexivity).
  unfold recordsOf in Hin. apply filter_In in Hin as [Hin Hb].
  apply bool_decide_eq_true_1 in Hb. split; [|done].
  by apply (subseteq_take 1000), list_elem_of_In.
Qed.

Lemma lockAndUpdate_ok lockId item w :
  lockId ∉ heldLocks w -> dbWriteError w = None ->
  item ∈ dbEgressStore w -> 
  forall item',
  lockAndUpdate lockId (EgressStoreInfo.id item) item' w =
    (Returned tt,
     set_dbEgressStore
       (map (fun i => if bool_decide (EgressStoreInfo.id i = EgressStoreInfo.id item)
                      then item' else i)
            (dbEgressStore w)) w).
Proof.
  intros Hlock Hdb Hin item'. unfold lockAndUpdate.
  rewrite tryWriteLockAndRun_free by assumption.
  apply runAndCatch_ok, update_exists_ok; [assumption|].
  by apply (hasKey_elem _ _ item).
Qed.

Lemma addEgressStoreBucketPolicy_db requestContext egressStore memberAccountId :
  preserves dbEgressStore
    (addEgressStoreBucketPolicy requestContext egressStore memberAccountId).
Proof.
  unfold addEgressStoreBucketPolicy, getS3BucketAndPolicy, getBucketPolicy,
    updateS3BucketPolicy, putBucketPolicy, audit.
  preserves_tac.
Qed.

Lemma removeEgressStoreBucketPolicy_db requestContext egressStore memberAccountId :
  preserves dbEgressStore
    (removeEgressStoreBucketPolicy requestContext egressStore memberAccountId).
Proof.
  unfold removeEgressStoreBucketPolicy, getS3BucketAndPolicy, getBucketPolicy,
    updateS3BucketPolicy, putBucketPolicy, audit.
  preserves_tac.
Qed.

(** ** Creating a store *)

Lemma createEgressStore_static requestContext environment :
  preserves settings (createEgressStore requestContext environment) /\
  preserves validationError (createEgressStore requestContext environment) /\
  preserves heldLocks (createEgressStore requestContext environment) /\
  preserves dbWriteError (createEgressStore requestContext environment).
Proof.
  unfold createEgressStore, getKmsKeyIdArn, getMemberAccountId, update,
    addEgressStoreBucketPolicy, getS3BucketAndPolicy, getBucketPolicy,
    updateS3BucketPolicy, putBucketPolicy, audit.
  repeat split; preserves_tac;
    try (apply createPath_preserves; intros; reflexivity).
Qed.

(** What a create that returns has found and written. *)
Lemma createEgressStore_inv requestContext environment w store w' :
  createEgressStore requestContext environment w = (Returned store, w') ->
  featureEnabled w /\ validationError w environment = None /\
  (ddbLockId (Environment.id environment) ∉ heldLocks w) /\
  dbWriteError w = None /\
  hasKey (Environment.id environment) (dbEgressStore w) = false /\
  exists item,
    dbEgressStore w' = dbEgressStore w ++ [item] /\
    EgressStoreInfo.id item = Environment.id environment /\
    EgressStoreInfo.workspaceId item = Environment.id environment /\
    EgressStoreInfo.status item = CREATED_STATUS_CODE /\
    EgressStoreInfo.ver item = 0 /\
    EgressStoreInfo.isAbleToSubmitEgressRequest item = false /\
    EgressStoreInfo.createdAt item = ToISOStringMethod /\
    EgressStoreInfo.updatedAt item = ToISOStringMethod.
Proof.
  unfold createEgressStore. intros H.
  apply bind_inv in H as (w0 & w1 & Hget & H). inversion Hget; subst w0 w1; clear Hget.
  cbv zeta in H.
  apply bind_inv in H as (? & w2 & Hfeat & H). apply throwIf_inv in Hfeat as [Hfeat ->].
  apply bind_inv in H as (? & w3 & Hval & H). apply failWith_inv in Hval as [Hval ->].
  apply bind_inv in H as (? & w4 & Hpath & H).
  assert (Hw4 : w4 = snd (unawaited (createPath (egressStoreBucketName (settings w))
                                       (Environment.id environment +:+ "/")) w))
    by (rewrite Hpath; reflexivity).
  assert (Hdb4 : dbEgressStore w4 = dbEgressStore w).
  { rewrite Hw4. apply preserves_tryCatch;
      [apply createPath_preserves; intros; reflexivity | intros; apply preserves_ret]. }
  assert (Hlk4 : heldLocks w4 = heldLocks w).
  { rewrite Hw4. apply preserves_tryCatch;
      [apply createPath_preserves; intros; reflexivity | intros; apply preserves_ret]. }
  assert (Hwe4 : dbWriteError w4 = dbWriteError w).
  { rewrite Hw4. apply preserves_tryCatch;
      [apply createPath_preserves; intros; reflexivity | intros; apply preserves_ret]. }
  apply bind_inv in H as (? & w5 & Hupd & H).
  apply tryWriteLockAndRun_inv in Hupd as [Hlock Hupd].
  apply runAndCatch_inv, update_absent_inv in Hupd as (Hwe & Hkey & Hw5).
  apply bind_inv in H as (kmsArn & w6 & Hkms & H).
  assert (Hdb6 : dbEgressStore w6 = dbEgressStore w5).
  { replace w6 with (snd (getKmsKeyIdArn w5)) by (rewrite Hkms; reflexivity).
    by rewrite getKmsKeyIdArn_reads. }
  apply bind_inv in H as (acct & w7 & Hacct & H).
  assert (Hdb7 : dbEgressStore w7 = dbEgressStore w6).
  { replace w7 with (snd (getMemberAccountId requestContext (Environment.id environment) w6))
      by (rewrite Hacct; reflexivity).
    by rewrite getMemberAccountId_reads. }
  apply bind_inv in H as (? & w8 & Hpol & H).
  assert (Hdb8 : dbEgressStore w8 = dbEgressStore w7).
  { match type of Hpol with ?m w7 = _ => replace w8 with (snd (m w7)) by (rewrite Hpol; reflexivity) end.
    apply preserves_tryWriteLockAndRun, addEgressStoreBucketPolicy_db. }
  inversion H; subst w'.
  repeat split; try assumption.
  - unfold ddbLockId. rewrite <- Hlk4. exact Hlock.
  - rewrite <- Hwe4. exact Hwe.
  - rewrite <- Hdb4. exact Hkey.
  - eexists. split.
    + rewrite Hdb8, Hdb7, Hdb6, Hw5. cbn [dbEgressStore set_dbEgressStore].
      rewrite Hdb4. reflexivity.
    + cbn. repeat split; reflexivity.
Qed.

(** A create that finds an item under the workspace's id stops at the
    conditional write. *)
Lemma createEgressStore_clash requestContext environment w :
  featureEnabled w ->
  validationError w environment = None ->
  ddbLockId (Environment.id environment) ∉ heldLocks w ->
  dbWriteError w = None ->
  hasKey (Environment.id environment) (dbEgressStore w) = true ->
  exists w',
    createEgressStore requestContext environment w = (Thrown (alreadyExists environment), w')
    /\ dbEgressStore w' = dbEgressStore w.
Proof.
  intros Hen Hval Hlock Hdb Hkey.
  set (m := unawaited (createPath (egressStoreBucketName (settings w))
                         (Environment.id environment +:+ "/"))).
  assert (Hp : forall {F} (proj : World -> F),
             (forall v w, proj (set_s3 v w) = proj w) -> proj (snd (m w)) = proj w).
  { intros F proj H. apply preserves_tryCatch;
      [by apply createPath_preserves | intros; apply preserves_ret]. }
  exists (snd (m w)). split; [|by apply Hp].
  unfold createEgressStore.
  rewrite (bind_ok get _ w w w eq_refl). cbv zeta.
  red in Hen. rewrite Hen.
  rewrite (bind_ok _ _ _ _ _ (throwIf_false _ _)).
  rewrite (bind_ok _ _ _ _ _ (failWith_ok _ _ Hval)).
  rewrite (bind_ok _ _ _ _ _ (unawaited_returns _ _)). fold m.
  apply bind_err.
  rewrite tryWriteLockAndRun_free by (rewrite Hp; [exact Hlock | reflexivity]).
  unfold runAndCatch, tryCatch.
  rewrite update_absent_clash; [reflexivity | |].
  - rewrite Hp; [exact Hdb | reflexivity].
  - rewrite Hp; [exact Hkey | reflexivity].
Qed.

(** C6: a create for a workspace whose record is in the table, under the
    workspace's id, fails with the bad-request error "already exists" (the
    already-exists error of the service) and leaves the table as it is; so
    does a create that follows a create that returned. *)
Theorem createEgressStore_twice requestContext environment :
  (forall w r,
     featureEnabled w ->
     validationError w environment = None ->
     ddbLockId (Environment.id environment) ∉ heldLocks w ->
     dbWriteError w = None ->
     r ∈ dbEgressStore w ->
     EgressStoreInfo.id r = Environment.id environment ->
     exists w',
       createEgressStore requestContext environment w =
         (Thrown (alreadyExists environment), w')
       /\ dbEgressStore w' = dbEgressStore w)
  /\
  (forall w store w1,
     createEgressStore requestContext environment w = (Returned store, w1) ->
     exists w2,
       createEgressStore requestContext environment w1 =
         (Thrown (alreadyExists environment), w2)
       /\ dbEgressStore w2 = dbEgressStore w1).
Proof.
  split.
  - intros w r Hen Hval Hlock Hdb Hin Hid.
    apply createEgressStore_clash; try assumption.
    by apply (hasKey_elem _ _ r).
  - intros w store w1 Hrun.
    destruct (createEgressStore_static requestContext environment)
      as (Hset & Hvalid & Hlocks & Hwrite).
    specialize (Hset w). specialize (Hvalid w). specialize (Hlocks w). specialize (Hwrite w).
    rewrite Hrun in Hset, Hvalid, Hlocks, Hwrite. cbn [snd] in *.
    apply createEgressStore_inv in Hrun
      as (Hen & Hval & Hlock & Hdb & _ & item & Htable & Hid & _).
    apply createEgressStore_clash.
    + unfold featureEnabled. rewrite Hset. exact Hen.
    + rewrite Hvalid. exact Hval.
    + rewrite Hlocks. exact Hlock.
    + rewrite Hwrite. exact Hdb.
    + apply (hasKey_elem _ _ item); [|exact Hid].
      rewrite Htable. apply elem_of_app. right. by apply list_elem_of_singleton.
Qed.

Lemma createEgressStore_twice_witness :
  (exists w',
     createEgressStore alice ws1 (worldWith (sampleInfo "PENDING" false 1)) =
       (Thrown (alreadyExists ws1), w')
     /\ dbEgressStore w' = [sampleInfo "PENDING" false 1])
  /\
  (exists w2,
     createEgressStore alice ws1 (snd (createEgressStore alice ws1 emptyWorld)) =
       (Thrown (alreadyExists ws1), w2)
     /\ dbEgressStore w2 = dbEgressStore (snd (createEgressStore alice ws1 emptyWorld))).
Proof.
  destruct (createEgressStore_twice alice ws1) as [Hfound Hagain]. split.
  - apply (Hfound (worldWith (sampleInfo "PENDING" false 1)) (sampleInfo "PENDING" false 1)).
    + reflexivity.
    + reflexivity.
    + apply not_elem_of_empty.
    + reflexivity.
    + apply list_elem_of_singleton. reflexivity.
    + reflexivity.
  - apply (Hagain emptyWorld sampleStore).
    vm_compute. reflexivity.
Defined.

(** C10: the record a create that returns has written carries, as
    [createdAt] and as [updatedAt], the method [toISOString] itself, not the
    string the method returns: it is no ISO-8601 timestamp. *)
Theorem createEgressStore_timestamps requestContext environment w store w' :
  createEgressStore requestContext environment w = (Returned store, w') ->
  exists item,
    dbEgressStore w' = dbEgressStore w ++ [item]
    /\ EgressStoreInfo.id item = Environment.id environment
    /\ EgressStoreInfo.createdAt item = ToISOStringMethod
    /\ EgressStoreInfo.updatedAt item = ToISOStringMethod
    /\ forall ms, EgressStoreInfo.createdAt item <> IsoString ms
                  /\ EgressStoreInfo.updatedAt item <> IsoString ms.
Proof.
  intros Hrun.
  apply createEgressStore_inv in Hrun
    as (_ & _ & _ & _ & _ & item & Htable & Hid & _ & _ & _ & _ & Hc & Hu).
  exists item. repeat split; try assumption.
  - rewrite Hc. discriminate.
  - rewrite Hu. discriminate.
Qed.

Lemma createEgressStore_timestamps_witness :
  exists item,
    dbEgressStore (snd (createEgressStore alice ws1 emptyWorld)) =
      dbEgressStore emptyWorld ++ [item]
    /\ EgressStoreInfo.id item = "ws1"
    /\ EgressStoreInfo.createdAt item = ToISOStringMethod
    /\ EgressStoreInfo.updatedAt item = ToISOStringMethod
    /\ forall ms, EgressStoreInfo.createdAt item <> IsoString ms
                  /\ EgressStoreInfo.updatedAt item <> IsoString ms.
Proof.
  apply (createEgressStore_timestamps alice ws1 emptyWorld sampleStore).
  vm_compute. reflexivity.
Defined.

(** ** A workspace without a record *)

(** C9: for a workspace that has no record, [getEgressStore] and [notifySNS]
    read a property of the [null] that the lookup returned, before any test
    of it, and fail with the runtime's [TypeError]; [terminateEgressStore]
    tests the result first and returns [null]. *)
Theorem null_record_is_dereferenced floorLog1024 requestContext environmentId w :
  featureEnabled w ->
  hasNoRecord w environmentId ->
  getEgressStore floorLog1024 requestContext environmentId w =
    (Thrown (TypeError "Cannot read properties of null (reading 'createdBy')"), w)
  /\ notifySNS requestContext environmentId w =
       (Thrown (TypeError
          "Cannot read properties of null (reading 'isAbleToSubmitEgressRequest')"), w)
  /\ fst (terminateEgressStore requestContext environmentId w) = Returned None.
Proof.
  intros Hen Hnone. red in Hen. repeat split.
  - unfold getEgressStore.
    rewrite (bind_ok get _ w w w eq_refl). cbv zeta. rewrite Hen.
    rewrite (bind_ok _ _ _ _ _ (throwIf_false _ _)).
    rewrite (bind_ok _ _ _ _ _ (getEgressStoreInfo_absent _ _ Hnone)).
    reflexivity.
  - unfold notifySNS.
    rewrite (bind_ok get _ w w w eq_refl). cbv zeta. rewrite Hen.
    rewrite (bind_ok _ _ _ _ _ (throwIf_false _ _)).
    rewrite (bind_ok _ _ _ _ _ (getEgressStoreInfo_absent _ _ Hnone)).
    reflexivity.
  - unfold terminateEgressStore.
    rewrite (bind_ok get _ w w w eq_refl). cbv zeta. rewrite Hen.
    rewrite (bind_ok _ _ _ _ _ (throwIf_false _ _)).
    rewrite (bind_ok _ _ _ _ _ (getEgressStoreInfo_absent _ _ Hnone)).
    reflexivity.
Qed.

Lemma null_record_is_dereferenced_witness :
  getEgressStore exactFloorLog1024 alice "ws1" emptyWorld =
    (Thrown (TypeError "Cannot read properties of null (reading 'createdBy')"), emptyWorld)
  /\ notifySNS alice "ws1" emptyWorld =
       (Thrown (TypeError
          "Cannot read properties of null (reading 'isAbleToSubmitEgressRequest')"),
        emptyWorld)
  /\ fst (terminateEgressStore alice "ws1" emptyWorld) = Returned None.
Proof.
  apply (null_record_is_dereferenced exactFloorLog1024 alice "ws1" emptyWorld).
  - reflexivity.
  - split; reflexivity.
Defined.

(** ** Revising the policy document *)

Lemma findStatement_Sid sid doc st : findStatement sid doc = Some st -> Sid st = sid.
Proof.
  unfold findStatement. intros H. apply find_some in H as [_ H].
  by apply bool_decide_eq_true_1 in H.
Qed.

Lemma findStatement_app sid l1 l2 :
  findStatement sid (l1 ++ l2) =
    match findStatement sid l1 with
    | Some st => Some st
    | None => findStatement sid l2
    end.
Proof.
  unfold findStatement. induction l1 as [|x l1 IH]; cbn; [reflexivity|].
  destruct (bool_decide (Sid x = sid)); [reflexivity | exact IH].
Qed.

Lemma findStatement_absent sid l : sid ∉ map Sid l -> findStatement sid l = None.
Proof.
  unfold findStatement. induction l as [|x l IH]; cbn; [reflexivity|]. intros H.
  rewrite bool_decide_eq_false_2.
  - apply IH. intros Hin. apply H. by right.
  - intros Heq. apply H. rewrite Heq. by left.
Qed.

(** Dropping statements under other ids does not change what is found. *)
Lemma findStatement_filter sid (keep : PolicyStatement -> bool) l :
  (forall st, Sid st = sid -> keep st = true) ->
  findStatement sid (List.filter keep l) = findStatement sid l.
Proof.
  intros Hkeep. unfold findStatement. induction l as [|x l IH]; cbn; [reflexivity|].
  destruct (bool_decide (Sid x = sid)) eqn:Hx.
  - apply bool_decide_eq_true_1 in Hx. rewrite (Hkeep x Hx). cbn.
    by rewrite bool_decide_eq_true_2.
  - destruct (keep x); cbn; [rewrite Hx|]; exact IH.
Qed.

Lemma Sid_oldStatementFor doc p : Sid (oldStatementFor doc p) = statementId p.
Proof.
  unfold oldStatementFor.
  destruct (findStatement (statementId p) doc) as [st|] eqn:H; cbn; [|reflexivity].
  by apply findStatement_Sid in H.
Qed.

Lemma Sids_revisedFor doc params upd :
  (forall st, Sid (upd st) = Sid st) ->
  map Sid (revisedFor doc params upd) = map statementId params.
Proof.
  intros Hupd. unfold revisedFor. rewrite map_map. apply map_ext.
  intros p. rewrite Hupd. apply Sid_oldStatementFor.
Qed.

(** With one description per id, the revised statement found under the id of
    a description is the one made from it. *)
Lemma findStatement_revisedFor doc params upd p :
  (forall st, Sid (upd st) = Sid st) ->
  List.NoDup (map statementId params) ->
  p ∈ params ->
  findStatement (statementId p) (revisedFor doc params upd) =
    Some (upd (oldStatementFor doc p)).
Proof.
  intros Hupd. unfold findStatement, revisedFor.
  induction params as [|q params IH]; intros Hnd Hin; [by apply elem_of_nil in Hin|].
  cbn. inversion Hnd as [|? ? Hq Hnd']; subst.
  apply elem_of_cons in Hin as [->|Hin].
  - rewrite bool_decide_eq_true_2; [reflexivity|].
    rewrite Hupd. apply Sid_oldStatementFor.
  - rewrite bool_decide_eq_false_2; [by apply IH|].
    rewrite Hupd, Sid_oldStatementFor. intros Heq. apply Hq.
    rewrite Heq. apply in_map. by apply list_elem_of_In.
Qed.

Lemma isRevised_revisedFor doc params upd st :
  (forall st, Sid (upd st) = Sid st) ->
  isRevised (revisedFor doc params upd) st = bool_decide (Sid st ∈ map statementId params).
Proof. intros Hupd. unfold isRevised. by rewrite Sids_revisedFor. Qed.

(** The statement a description stands for, once the document is revised. *)
Lemma oldStatementFor_revised doc params upd p :
  (forall st, Sid (upd st) = Sid st) ->
  (forall st, hasPrincipals (upd st) = true) ->
  List.NoDup (map statementId params) ->
  p ∈ params ->
  oldStatementFor (reviseS3Policy doc (revisedFor doc params upd)) p =
    upd (oldStatementFor doc p).
Proof.
  intros Hupd Hhas Hnd Hin. unfold oldStatementFor at 1, reviseS3Policy.
  rewrite findStatement_app, findStatement_absent.
  - rewrite forallb_filter_id.
    + by rewrite findStatement_revisedFor.
    + apply forallb_forall. intros st Hst. unfold revisedFor in Hst.
      apply in_map_iff in Hst as (q & <- & _). apply Hhas.
  - intros Hsid. apply list_elem_of_In, in_map_iff in Hsid as (st & Hst & Hmem).
    apply filter_In in Hmem as [_ Hrev].
    rewrite isRevised_revisedFor in Hrev by assumption.
    rewrite bool_decide_eq_true_2 in Hrev; [discriminate|].
    rewrite Hst. apply list_elem_of_In, in_map. by apply list_elem_of_In.
Qed.

Lemma oldStatementFor_untouched doc params upd p :
  (forall st, Sid (upd st) = Sid st) ->
  statementId p ∉ map statementId params ->
  oldStatementFor (reviseS3Policy doc (revisedFor doc params upd)) p =
    oldStatementFor doc p.
Proof.
  intros Hupd Hout. unfold oldStatementFor, reviseS3Policy.
  rewrite findStatement_app, findStatement_filter.
  - destruct (findStatement (statementId p) doc); [reflexivity|].
    rewrite findStatement_absent; [reflexivity|].
    intros Hsid. apply Hout. rewrite <- (Sids_revisedFor doc params upd Hupd).
    apply list_elem_of_In in Hsid. apply list_elem_of_In.
    apply in_map_iff in Hsid as (st & Hst & Hmem). apply filter_In in Hmem as [Hmem _].
    rewrite <- Hst. by apply in_map.
  - intros st Hst. rewrite isRevised_revisedFor by assumption.
    rewrite bool_decide_eq_false_2; [reflexivity|]. by rewrite Hst.
Qed.

Lemma filter_filter_weaker {A : Type} (f g : A -> bool) l :
  (forall x, f x = true -> g x = true) ->
  List.filter f (List.filter g l) = List.filter f l.
Proof.
  intros Hfg. induction l as [|x l IH]; cbn; [reflexivity|].
  destruct (g x) eqn:Hg; cbn.
  - destruct (f x); by rewrite IH.
  - destruct (f x) eqn:Hf; [|exact IH]. apply Hfg in Hf. congruence.
Qed.

Lemma filter_nothing {A : Type} (f : A -> bool) l :
  (forall x, In x l -> f x = false) -> List.filter f l = [].
Proof.
  induction l as [|x l IH]; cbn; intros H; [reflexivity|].
  rewrite (H x) by (by left). apply IH. intros y Hy. apply H. by right.
Qed.

Lemma filter_everything {A : Type} (f : A -> bool) l :
  (forall x, In x l -> f x = true) -> List.filter f l = l.
Proof. intros H. apply forallb_filter_id, forallb_forall, H. Qed.

(** Two revisions in a row, the second over ids that cover the ids of the
    first: the statements under other ids are those of the first document,
    and the revised ones are those of the second revision. *)
Lemma reviseS3Policy_twice doc params1 params2 upd1 upd2 :
  (forall st, Sid (upd1 st) = Sid st) ->
  (forall st, Sid (upd2 st) = Sid st) ->
  (forall sid, sid ∈ map statementId params1 -> sid ∈ map statementId params2) ->
  let doc1 := reviseS3Policy doc (revisedFor doc params1 upd1) in
  let revised2 := revisedFor doc1 params2 upd2 in
  reviseS3Policy doc1 revised2 =
    List.filter (fun st => negb (isRevised revised2 st)) doc
    ++ List.filter hasPrincipals revised2.
Proof.
  intros Hupd1 Hupd2 Hsub doc1 revised2. unfold reviseS3Policy at 1.
  f_equal. unfold doc1, reviseS3Policy. rewrite List.filter_app.
  rewrite (filter_nothing _ (List.filter hasPrincipals _)).
  - rewrite app_nil_r. apply filter_filter_weaker.
    intros st. unfold revised2.
    rewrite !isRevised_revisedFor by assumption.
    intros Hst. apply negb_true_iff, bool_decide_eq_false_1 in Hst.
    apply negb_true_iff, bool_decide_eq_false_2. intros H1. apply Hst, Hsub, H1.
  - intros st Hst. apply filter_In in Hst as [Hst _].
    unfold revisedFor in Hst. apply in_map_iff in Hst as (q & <- & Hq).
    unfold revised2. rewrite isRevised_revisedFor by assumption.
    rewrite bool_decide_eq_true_2; [reflexivity|]. apply Hsub.
    rewrite Hupd1, Sid_oldStatementFor. apply list_elem_of_In, in_map, Hq.
Qed.

Lemma Sid_addAccountToStatement st account :
  Sid (addAccountToStatement st account) = Sid st.
Proof. reflexivity. Qed.

Lemma Sid_removeAccountFromStatement st account :
  Sid (removeAccountFromStatement st account) = Sid st.
Proof. reflexivity. Qed.

Lemma hasPrincipals_addAccountToStatement st account :
  hasPrincipals (addAccountToStatement st account) = true.
Proof.
  unfold hasPrincipals. apply negb_true_iff, bool_decide_eq_false_2. cbn.
  intros H. assert (Hin : account ∈ Principal st ∪ {[account]})
    by (apply elem_of_union; right; by apply elem_of_singleton).
  rewrite H in Hin. by apply not_elem_of_empty in Hin.
Qed.

(** Adding an account that is there already changes nothing. *)
Lemma addAccountToStatement_idem st account :
  addAccountToStatement (addAccountToStatement st account) account =
    addAccountToStatement st account.
Proof.
  unfold addAccountToStatement. cbn. f_equal.
  apply set_eq. intros x. rewrite !elem_of_union. tauto.
Qed.

Lemma removeAccountFromStatement_added st account :
  removeAccountFromStatement (addAccountToStatement st account) account =
    removeAccountFromStatement st account.
Proof.
  unfold removeAccountFromStatement, addAccountToStatement. cbn. f_equal.
  apply set_eq. intros x. rewrite !elem_of_difference, elem_of_union. tauto.
Qed.

Lemma statementIds_distinct prefix :
  "Get:" +:+ prefix <> "Put:" +:+ prefix
  /\ "Get:" +:+ prefix <> "List:" +:+ prefix
  /\ "Put:" +:+ prefix <> "List:" +:+ prefix.
Proof. repeat split; discriminate. Qed.

Lemma revokeParams_Sids egressStore s3BucketName :
  map statementId (revokeParams egressStore s3BucketName) = storeSids egressStore.
Proof. reflexivity. Qed.

Lemma revokeParams_NoDup egressStore s3BucketName :
  List.NoDup (map statementId (revokeParams egressStore s3BucketName)).
Proof.
  rewrite revokeParams_Sids. unfold storeSids.
  destruct (statementIds_distinct (EgressStore.prefix egressStore)) as (H1 & H2 & H3).
  repeat constructor; cbn; intuition congruence.
Qed.

Lemma grantParams_NoDup egressStore s3BucketName :
  List.NoDup (map statementId (grantParams egressStore s3BucketName)).
Proof.
  unfold grantParams.
  destruct (statementIds_distinct (EgressStore.prefix egressStore)) as (H1 & H2 & H3).
  destruct (EgressStore.envPermissionRead egressStore),
           (EgressStore.envPermissionWrite egressStore);
    cbn; repeat constructor; cbn; intuition congruence.
Qed.

(** A description [removeEgressStoreBucketPolicy] asks for is one that
    [addEgressStoreBucketPolicy] asks for, or has another id than those. *)
Lemma revokeParams_grantParams egressStore s3BucketName p :
  p ∈ revokeParams egressStore s3BucketName ->
  p ∈ grantParams egressStore s3BucketName
  \/ statementId p ∉ map statementId (grantParams egressStore s3BucketName).
Proof.
  unfold revokeParams, grantParams.
  destruct (statementIds_distinct (EgressStore.prefix egressStore)) as (H1 & H2 & H3).
  intros Hin. cbn in Hin. rewrite !elem_of_cons in Hin.
  destruct (EgressStore.envPermissionRead egressStore),
           (EgressStore.envPermissionWrite egressStore);
    cbn; rewrite ?elem_of_cons, ?elem_of_nil;
    destruct Hin as [-> | [-> | [-> | Hin]]];
    try (by apply elem_of_nil in Hin); cbn; intuition congruence.
Qed.

Lemma grantParams_Sids egressStore s3BucketName sid :
  sid ∈ map statementId (grantParams egressStore s3BucketName) ->
  sid ∈ map statementId (revokeParams egressStore s3BucketName).
Proof.
  unfold grantParams, revokeParams.
  destruct (EgressStore.envPermissionRead egressStore),
           (EgressStore.envPermissionWrite egressStore);
    cbn; rewrite ?elem_of_cons, ?elem_of_nil; intuition.
Qed.

Lemma getRevisedS3Statements_revisedFor doc egressStore s3BucketName fns upd :
  getRevisedS3Statements doc egressStore s3BucketName fns upd =
    revisedFor doc (map (fun fn => fn s3BucketName (EgressStore.prefix egressStore)) fns) upd.
Proof. unfold getRevisedS3Statements, revisedFor. by rewrite map_map. Qed.

(** Granting twice is granting once. *)
Lemma grantedPolicy_idem doc egressStore s3BucketName account :
  grantedPolicy (grantedPolicy doc egressStore s3BucketName account)
                egressStore s3BucketName account =
    grantedPolicy doc egressStore s3BucketName account.
Proof.
  unfold grantedPolicy. rewrite reviseS3Policy_twice; try done.
  unfold reviseS3Policy.
  replace (revisedFor (_ ++ _) _ _)
    with (revisedFor doc (grantParams egressStore s3BucketName)
            (fun oldStatement => addAccountToStatement oldStatement account));
    [reflexivity|].
  unfold revisedFor at 1 3. apply map_ext_in. intros p Hp.
  change (List.filter _ doc ++ List.filter hasPrincipals _)
    with (reviseS3Policy doc (revisedFor doc (grantParams egressStore s3BucketName)
            (fun oldStatement => addAccountToStatement oldStatement account))).
  rewrite oldStatementFor_revised.
  - by rewrite addAccountToStatement_idem.
  - done.
  - intros st. apply hasPrincipals_addAccountToStatement.
  - apply grantParams_NoDup.
  - by apply list_elem_of_In.
Qed.

(** Revoking after a grant is revoking. *)
Lemma revokedPolicy_granted doc egressStore s3BucketName account :
  revokedPolicy (grantedPolicy doc egressStore s3BucketName account)
                egressStore s3BucketName account =
    revokedPolicy doc egressStore s3BucketName account.
Proof.
  unfold revokedPolicy at 1, grantedPolicy.
  rewrite reviseS3Policy_twice; try done; [|apply grantParams_Sids].
  unfold revokedPolicy, reviseS3Policy.
  replace (revisedFor (_ ++ _) _ _)
    with (revisedFor doc (revokeParams egressStore s3BucketName)
            (fun oldStatement => removeAccountFromStatement oldStatement account));
    [reflexivity|].
  unfold revisedFor at 1 3. apply map_ext_in. intros p Hp.
  change (List.filter _ doc ++ List.filter hasPrincipals _)
    with (reviseS3Policy doc (revisedFor doc (grantParams egressStore s3BucketName)
            (fun oldStatement => addAccountToStatement oldStatement account))).
  apply list_elem_of_In, revokeParams_grantParams in Hp as [Hp|Hp].
  - rewrite oldStatementFor_revised.
    + by rewrite removeAccountFromStatement_added.
    + done.
    + intros st. apply hasPrincipals_addAccountToStatement.
    + apply grantParams_NoDup.
    + exact Hp.
  - by rewrite oldStatementFor_untouched.
Qed.

Lemma isRevised_revoke doc egressStore s3BucketName account st :
  isRevised (revisedFor doc (revokeParams egressStore s3BucketName)
               (fun oldStatement => removeAccountFromStatement oldStatement account)) st
  = ofStore egressStore st.
Proof. by rewrite isRevised_revisedFor. Qed.

(** A revoke leaves the statements of other stores as they are, in their
    order. *)
Lemma revokedPolicy_others doc egressStore s3BucketName account :
  List.filter (fun st => negb (ofStore egressStore st))
              (revokedPolicy doc egressStore s3BucketName account)
  = List.filter (fun st => negb (ofStore egressStore st)) doc.
Proof.
  unfold revokedPolicy, reviseS3Policy. rewrite List.filter_app.
  rewrite (filter_nothing _ (List.filter hasPrincipals _)).
  - rewrite app_nil_r. apply filter_filter_weaker.
    intros st Hst. by rewrite isRevised_revoke.
  - intros st Hst. apply filter_In in Hst as [Hst _].
    unfold revisedFor in Hst. apply in_map_iff in Hst as (q & <- & Hq).
    apply negb_false_iff, bool_decide_eq_true_2.
    rewrite Sid_removeAccountFromStatement, Sid_oldStatementFor.
    rewrite <- (revokeParams_Sids egressStore s3BucketName).
    apply list_elem_of_In, in_map, Hq.
Qed.

(** After a revoke, a statement of the store does not list the account, and
    lists somebody. *)
Lemma revokedPolicy_store doc egressStore s3BucketName account st :
  st ∈ revokedPolicy doc egressStore s3BucketName account ->
  ofStore egressStore st = true ->
  (account ∉ Principal st) /\ Principal st <> ∅.
Proof.
  unfold revokedPolicy, reviseS3Policy. intros Hin Hof.
  apply elem_of_app in Hin as [Hin|Hin]; apply list_elem_of_In, filter_In in Hin as [Hin H].
  - rewrite isRevised_revoke, Hof in H. discriminate.
  - split.
    + unfold revisedFor in Hin. apply in_map_iff in Hin as (q & <- & _). cbn.
      intros Hacc. apply elem_of_difference in Hacc as [_ Hacc].
      apply Hacc. by apply elem_of_singleton.
    + unfold hasPrincipals in H. by apply negb_true_iff, bool_decide_eq_false_1 in H.
Qed.

(** A revoke on a document without statements of the store changes nothing. *)
Lemma revokedPolicy_fresh doc egressStore s3BucketName account :
  (forall st, st ∈ doc -> ofStore egressStore st = false) ->
  revokedPolicy doc egressStore s3BucketName account = doc.
Proof.
  intros Hfresh. unfold revokedPolicy, reviseS3Policy.
  rewrite filter_everything, filter_nothing; [apply app_nil_r | |].
  - intros st Hst. unfold revisedFor in Hst. apply in_map_iff in Hst as (q & <- & Hq).
    unfold oldStatementFor. rewrite findStatement_absent.
    + apply negb_false_iff, bool_decide_eq_true_2. cbn.
      apply set_eq. intros x. rewrite elem_of_difference.
      split; [intros [H _] | intros H]; by apply not_elem_of_empty in H.
    + intros Hsid. apply list_elem_of_In, in_map_iff in Hsid as (st & Hst & Hmem).
      apply list_elem_of_In, Hfresh in Hmem. unfold ofStore in Hmem.
      apply bool_decide_eq_false_1 in Hmem. apply Hmem. rewrite Hst.
      rewrite <- (revokeParams_Sids egressStore s3BucketName).
      apply list_elem_of_In, in_map, Hq.
  - intros st Hst. rewrite isRevised_revoke.
    apply negb_true_iff, Hfresh. by apply list_elem_of_In.
Qed.

(** ** Granting and revoking in the world *)

Lemma addEgressStoreBucketPolicy_ok requestContext egressStore account w :
  getPolicyError w = None -> putPolicyError w = None ->
  let revised := grantedPolicy (bucketPolicy w) egressStore
                   (egressStoreBucketName (settings w)) account in
  addEgressStoreBucketPolicy requestContext egressStore account w =
    (Returned tt,
     set_auditLog (auditLog w ++ [ {| action := "add-egress-store-to-bucket-policy";
                                      body := AuditPolicy revised |} ])
       (set_bucketPolicy revised w)).
Proof.
  intros Hget Hput revised.
  unfold addEgressStoreBucketPolicy, getS3BucketAndPolicy, getBucketPolicy,
    updateS3BucketPolicy, putBucketPolicy, audit.
  async_unfold. cbv zeta. rewrite Hget. cbn [fst snd putPolicyError set_bucketPolicy].
  rewrite Hput. rewrite getRevisedS3Statements_revisedFor. reflexivity.
Qed.

Lemma removeEgressStoreBucketPolicy_ok requestContext egressStore account w :
  getPolicyError w = None -> putPolicyError w = None ->
  let revised := revokedPolicy (bucketPolicy w) egressStore
                   (egressStoreBucketName (settings w)) account in
  removeEgressStoreBucketPolicy requestContext egressStore account w =
    (Returned tt,
     set_auditLog (auditLog w ++ [ {| action := "remove-egress-store-from-bucket-policy";
                                      body := AuditPolicy revised |} ])
       (set_bucketPolicy revised w)).
Proof.
  intros Hget Hput revised.
  unfold removeEgressStoreBucketPolicy, getS3BucketAndPolicy, getBucketPolicy,
    updateS3BucketPolicy, putBucketPolicy, audit.
  async_unfold. cbv zeta. rewrite Hget. cbn [fst snd putPolicyError set_bucketPolicy].
  rewrite Hput. rewrite getRevisedS3Statements_revisedFor. reflexivity.
Qed.

(** C3: a grant that follows a grant for the same store and the same account
    writes the document the first grant wrote. *)
Theorem grant_is_idempotent requestContext egressStore account w :
  getPolicyError w = None -> putPolicyError w = None ->
  exists w1 w2,
    addEgressStoreBucketPolicy requestContext egressStore account w = (Returned tt, w1)
    /\ addEgressStoreBucketPolicy requestContext egressStore account w1 = (Returned tt, w2)
    /\ bucketPolicy w2 = bucketPolicy w1.
Proof.
  intros Hget Hput. eexists; eexists. split; [|split].
  - by apply addEgressStoreBucketPolicy_ok.
  - by apply addEgressStoreBucketPolicy_ok.
  - cbn [bucketPolicy set_auditLog set_bucketPolicy settings].
    apply grantedPolicy_idem.
Qed.

Lemma grant_is_idempotent_witness :
  exists w1 w2,
    addEgressStoreBucketPolicy alice sampleStore "111122223333" emptyWorld = (Returned tt, w1)
    /\ addEgressStoreBucketPolicy alice sampleStore "111122223333" w1 = (Returned tt, w2)
    /\ bucketPolicy w2 = bucketPolicy w1.
Proof.
  apply (grant_is_idempotent alice sampleStore "111122223333" emptyWorld); reflexivity.
Defined.

(** C2, as amended: a revoke that follows a grant for the same store and the
    same account writes the document a revoke alone would have written: the
    statements of other stores are as before the grant and in their order,
    no statement of the store lists the account, none is left without a
    principal, a document that held no statement of the store before the
    grant is restored, and a document in which a statement of the store
    listed the account before the grant is not. *)
Theorem grant_then_revoke requestContext egressStore account w :
  getPolicyError w = None -> putPolicyError w = None ->
  exists w1 w2,
    addEgressStoreBucketPolicy requestContext egressStore account w = (Returned tt, w1)
    /\ removeEgressStoreBucketPolicy requestContext egressStore account w1 = (Returned tt, w2)
    /\ bucketPolicy w2 =
         revokedPolicy (bucketPolicy w) egressStore (egressStoreBucketName (settings w)) account
    /\ List.filter (fun st => negb (ofStore egressStore st)) (bucketPolicy w2)
       = List.filter (fun st => negb (ofStore egressStore st)) (bucketPolicy w)
    /\ (forall st, st ∈ bucketPolicy w2 -> ofStore egressStore st = true ->
          (account ∉ Principal st) /\ Principal st <> ∅)
    /\ ((forall st, st ∈ bucketPolicy w -> ofStore egressStore st = false) ->
        bucketPolicy w2 = bucketPolicy w)
    /\ (forall st, st ∈ bucketPolicy w -> ofStore egressStore st = true ->
          account ∈ Principal st -> bucketPolicy w2 <> bucketPolicy w).
Proof.
  intros Hget Hput. eexists; eexists. split; [|split].
  - by apply addEgressStoreBucketPolicy_ok.
  - by apply removeEgressStoreBucketPolicy_ok.
  - cbn [bucketPolicy set_auditLog set_bucketPolicy settings].
    rewrite revokedPolicy_granted. repeat split.
    + apply revokedPolicy_others.
    + eapply revokedPolicy_store; eassumption.
    + eapply revokedPolicy_store; eassumption.
    + apply revokedPolicy_fresh.
    + intros st Hin Hof Hacc Heq. rewrite <- Heq in Hin.
      by destruct (revokedPolicy_store _ _ _ _ _ Hin Hof).
Qed.

Lemma grant_then_revoke_witness :
  exists w1 w2,
    addEgressStoreBucketPolicy alice sampleStore "111122223333" emptyWorld = (Returned tt, w1)
    /\ removeEgressStoreBucketPolicy alice sampleStore "111122223333" w1 = (Returned tt, w2)
    /\ bucketPolicy w2 = bucketPolicy emptyWorld.
Proof.
  destruct (grant_then_revoke alice sampleStore "111122223333" emptyWorld eq_refl eq_refl)
    as (w1 & w2 & Hadd & Hremove & _ & _ & _ & Hfresh & _).
  exists w1, w2. repeat split; [exact Hadd | exact Hremove |].
  apply Hfresh. intros st Hst. by apply elem_of_nil in Hst.
Defined.

(** C2, as stated, fails on a document in which the account is a principal of
    the store's statement before the grant: the grant adds nothing, the revoke
    removes the account, and the statement, left without a principal, is
    dropped. *)
Lemma grant_then_revoke_not_restoring :
  let w := set_bucketPolicy grantedBefore emptyWorld in
  let w1 := snd (addEgressStoreBucketPolicy alice sampleStore "111122223333" w) in
  let w2 := snd (removeEgressStoreBucketPolicy alice sampleStore "111122223333" w1) in
  fst (addEgressStoreBucketPolicy alice sampleStore "111122223333" w) = Returned tt
  /\ fst (removeEgressStoreBucketPolicy alice sampleStore "111122223333" w1) = Returned tt
  /\ bucketPolicy w = grantedBefore
  /\ bucketPolicy w2 = []
  /\ bucketPolicy w2 <> bucketPolicy w.
Proof.
  cbv zeta. repeat split; try (vm_compute; reflexivity).
  intros H. apply (f_equal length) in H. vm_compute in H. discriminate H.
Qed.

(** ** Terminating a store *)

(** The status codes of the service are their own upper case: on them the
    comparisons of the service are comparisons of the status itself. *)
Example status_codes_upper :
  map toUpperCase [CREATED_STATUS_CODE; PENDING_STATUS_CODE; PROCESSING_STATUS_CODE;
                   PROCESSED_STATUS_CODE; TERMINATED_STATUS_CODE]
  = [CREATED_STATUS_CODE; PENDING_STATUS_CODE; PROCESSING_STATUS_CODE;
     PROCESSED_STATUS_CODE; TERMINATED_STATUS_CODE].
Proof. reflexivity. Qed.

Lemma adminOrOwner_passes requestContext r :
  adminOrOwner requestContext r ->
  negb (isAdmin requestContext)
  && negb (bool_decide (Some (EgressStoreInfo.createdBy r) = principalUid requestContext))
  = false.
Proof.
  intros [H|H].
  - by rewrite H.
  - rewrite bool_decide_eq_true_2 by done. apply andb_false_r.
Qed.

Lemma clearPath_ok bucketName path w :
  s3WriteError w = None ->
  clearPath bucketName path w =
    (Returned tt,
     set_s3 (alter (List.filter (fun o => negb (underPrefix path o))) bucketName (s3 w)) w).
Proof.
  intros H. unfold clearPath.
  rewrite (bind_ok _ _ _ _ _ (failWith_ok _ _ H)). reflexivity.
Qed.

Lemma tryCatch_ok {A : Type} (m : Async A) h w a w' :
  m w = (Returned a, w') -> tryCatch m h w = (Returned a, w').
Proof. intros H. unfold tryCatch. by rewrite H. Qed.

(** The entry of a terminate, up to the test of the status. *)
Lemma terminateEgressStore_entry requestContext environmentId w r :
  featureEnabled w ->
  hasRecord w environmentId r ->
  adminOrOwner requestContext r ->
  forall k : EgressStoreInfo.t -> Async (option EgressStoreInfo.t),
    (w0 <- get ;;
     throwIf (featureDisabled (enableEgressStore (settings w0)))
       (Boom forbidden "Unable to terminate Egress store since this feature is disabled") ;;;
     found <- getEgressStoreInfo environmentId ;;
     match found with
     | None =>
         audit requestContext
           {| action := "terminated-egress-store";
              body := AuditText "No egress store found to be terminated" |} ;;;
         ret None
     | Some egressStoreInfo =>
         throwIf (negb (isAdmin requestContext)
                  && negb (bool_decide (Some (EgressStoreInfo.createdBy egressStoreInfo)
                                        = principalUid requestContext)))
           (Boom forbidden
              "You are not authorized to terminate the egress store. Please contact your administrator.") ;;;
         k egressStoreInfo
     end) w = k r w.
Proof.
  intros Hen Hrec Hauth k. red in Hen.
  rewrite (bind_ok get _ w w w eq_refl). rewrite Hen.
  rewrite (bind_ok _ _ _ _ _ (throwIf_false _ _)).
  rewrite (bind_ok _ _ _ _ _ (getEgressStoreInfo_found _ _ _ Hrec)).
  rewrite (adminOrOwner_passes _ _ Hauth).
  rewrite (bind_ok _ _ _ _ _ (throwIf_false _ _)). reflexivity.
Qed.

(** A terminate that finds the export running. *)
Lemma terminateEgressStore_processing requestContext environmentId w r :
  featureEnabled w ->
  hasRecord w environmentId r ->
  adminOrOwner requestContext r ->
  toUpperCase (EgressStoreInfo.status r) = PROCESSING_STATUS_CODE ->
  terminateEgressStore requestContext environmentId w = (Thrown (stillProcessing r), w).
Proof.
  intros Hen Hrec Hauth Hst. unfold terminateEgressStore. cbv zeta.
  rewrite (terminateEgressStore_entry _ _ _ _ Hen Hrec Hauth
             (fun egressStoreInfo => _)).
  rewrite bool_decide_eq_true_2 by assumption. reflexivity.
Qed.

(** A terminate that finds a status it has no case for. *)
Lemma terminateEgressStore_passes requestContext environmentId w r :
  featureEnabled w ->
  hasRecord w environmentId r ->
  adminOrOwner requestContext r ->
  toUpperCase (EgressStoreInfo.status r) <> PROCESSING_STATUS_CODE ->
  ~ (toUpperCase (EgressStoreInfo.status r) = PROCESSED_STATUS_CODE
     \/ (toUpperCase (EgressStoreInfo.status r) = CREATED_STATUS_CODE
         /\ EgressStoreInfo.isAbleToSubmitEgressRequest r = false)) ->
  terminateEgressStore requestContext environmentId w = (Returned (Some r), w).
Proof.
  intros Hen Hrec Hauth Hst Hother. unfold terminateEgressStore. cbv zeta.
  rewrite (terminateEgressStore_entry _ _ _ _ Hen Hrec Hauth
             (fun egressStoreInfo => _)).
  rewrite bool_decide_eq_false_2 by assumption.
  destruct (bool_decide (toUpperCase (EgressStoreInfo.status r) = PROCESSED_STATUS_CODE)) eqn:H1.
  { apply bool_decide_eq_true_1 in H1. tauto. }
  destruct (bool_decide (toUpperCase (EgressStoreInfo.status r) = CREATED_STATUS_CODE)) eqn:H2;
    [|reflexivity].
  destruct (bool_decide (EgressStoreInfo.isAbleToSubmitEgressRequest r = false)) eqn:H3;
    [|reflexivity].
  apply bool_decide_eq_true_1 in H2, H3. tauto.
Qed.

(** A terminate that goes through: the world it leaves. *)
Lemma terminateEgressStore_terminated requestContext environmentId w r account :
  featureEnabled w ->
  hasRecord w environmentId r ->
  adminOrOwner requestContext r ->
  toUpperCase (EgressStoreInfo.status r) = PROCESSED_STATUS_CODE
  \/ (toUpperCase (EgressStoreInfo.status r) = CREATED_STATUS_CODE
      /\ EgressStoreInfo.isAbleToSubmitEgressRequest r = false) ->
  s3WriteError w = None ->
  dbWriteError w = None ->
  ddbLockId (EgressStoreInfo.id r) ∉ heldLocks w ->
  memberAccount w environmentId = inr account ->
  bucketPolicyLockId (EgressStoreInfo.s3BucketName r) ∉ heldLocks w ->
  getPolicyError w = None ->
  putPolicyError w = None ->
  let r' := terminatedInfo r (principalUid requestContext) (now w) in
  exists w',
    terminateEgressStore requestContext environmentId w = (Returned (Some r'), w')
    /\ s3 w' = alter (List.filter (fun o => negb (underPrefix (EgressStoreInfo.s3BucketPath r) o)))
                     (EgressStoreInfo.s3BucketName r) (s3 w)
    /\ dbEgressStore w' = replaced r r' (dbEgressStore w)
    /\ bucketPolicy w' =
         revokedPolicy (bucketPolicy w) (terminatedStore environmentId r)
           (egressStoreBucketName (settings w)) account
    /\ published w' = published w.
Proof.
  intros Hen Hrec Hauth Hst Hs3 Hdb Hlock1 Hacct Hlock2 Hget Hput r'.
  unfold ddbLockId, bucketPolicyLockId in *.
  eexists. split.
  - unfold terminateEgressStore. cbv zeta.
    rewrite (terminateEgressStore_entry _ _ _ _ Hen Hrec Hauth
               (fun egressStoreInfo => _)).
    assert (Hnp : toUpperCase (EgressStoreInfo.status r) <> PROCESSING_STATUS_CODE).
    { destruct Hst as [-> | [-> _]]; discriminate. }
    rewrite (bool_decide_eq_false_2 _ Hnp).
    assert (Hbranch : bool_decide (toUpperCase (EgressStoreInfo.status r) = PROCESSED_STATUS_CODE)
              || bool_decide (toUpperCase (EgressStoreInfo.status r) = CREATED_STATUS_CODE)
                 && bool_decide (EgressStoreInfo.isAbleToSubmitEgressRequest r = false) = true).
    { destruct Hst as [H | [H1 H2]].
      - by rewrite (bool_decide_eq_true_2 _ H).
      - rewrite (bool_decide_eq_true_2 _ H1), (bool_decide_eq_true_2 _ H2).
        apply orb_true_r. }
    rewrite Hbranch.
    rewrite (bind_ok _ _ _ _ _ (tryCatch_ok _ _ _ _ _ (clearPath_ok _ _ _ Hs3))).
    rewrite (bind_ok newDate _ _ _ _ eq_refl).
    cbn [EgressStoreInfo.id EgressStoreInfo.s3BucketName EgressStoreInfo.s3BucketPath
         EgressStoreInfo.createdBy EgressStoreInfo.projectId now set_s3].
    destruct (recordsOf_elem _ _ _ (proj2 Hrec)) as [Hin _].
    rewrite (bind_ok _ _ _ _ _
               (lockAndUpdate_ok _ r (set_s3 _ w) Hlock1 Hdb Hin _)).
    rewrite (bind_ok _ _ _ _ _
               (getMemberAccountId_ok _ _ (set_dbEgressStore _ (set_s3 _ w)) _ Hacct)).
    rewrite (bind_ok _ _ _ _ _
               (tryWriteLockAndRun_ok _ _ (set_dbEgressStore _ (set_s3 _ w)) _ _ Hlock2
                  (removeEgressStoreBucketPolicy_ok _ _ _
                     (set_dbEgressStore _ (set_s3 _ w)) Hget Hput))).
    unfold audit. unfold bind, modify, ret. reflexivity.
  - cbn. repeat split; reflexivity.
Qed.

Lemma cleared_prefix w w' bucketName path :
  s3 w' = alter (List.filter (fun o => negb (underPrefix path o))) bucketName (s3 w) ->
  List.filter (underPrefix path) (objectsOf w' bucketName) = [].
Proof.
  intros H. unfold objectsOf. rewrite H, lookup_alter_eq.
  destruct (s3 w !! bucketName) as [objs|]; cbn; [|reflexivity].
  apply filter_nothing. intros o Ho. apply filter_In in Ho as [_ Ho].
  by apply negb_true_iff in Ho.
Qed.

(** C1: the transitions of a terminate on a workspace that has a record, for
    a caller who is an admin or the owner, with the feature enabled.  The
    status is read without regard to case.  On PROCESSING the call fails with
    the forbidden error "is still in processing" (the conflict error of the
    service) and leaves the world as it found it.  On PROCESSED, and on
    CREATED with [isAbleToSubmitEgressRequest] false, when the collaborators
    answer, the objects under the store's prefix are removed, the record is
    replaced by one with status TERMINATED and
    [isAbleToSubmitEgressRequest] false, and the policy document is the
    revoked one, in which no statement of the store lists the account.  On
    any other status the call returns the record and leaves the world as it
    found it. *)
Theorem terminateEgressStore_transitions requestContext environmentId w r :
  featureEnabled w ->
  hasRecord w environmentId r ->
  adminOrOwner requestContext r ->
  let status := toUpperCase (EgressStoreInfo.status r) in
  let untouched := status = CREATED_STATUS_CODE
                   /\ EgressStoreInfo.isAbleToSubmitEgressRequest r = false in
  (status = PROCESSING_STATUS_CODE ->
   terminateEgressStore requestContext environmentId w = (Thrown (stillProcessing r), w))
  /\
  (status = PROCESSED_STATUS_CODE \/ untouched ->
   forall account,
     s3WriteError w = None ->
     dbWriteError w = None ->
     ddbLockId (EgressStoreInfo.id r) ∉ heldLocks w ->
     memberAccount w environmentId = inr account ->
     bucketPolicyLockId (EgressStoreInfo.s3BucketName r) ∉ heldLocks w ->
     getPolicyError w = None ->
     putPolicyError w = None ->
     exists r' w',
       terminateEgressStore requestContext environmentId w = (Returned (Some r'), w')
       /\ EgressStoreInfo.status r' = TERMINATED_STATUS_CODE
       /\ EgressStoreInfo.isAbleToSubmitEgressRequest r' = false
       /\ EgressStoreInfo.id r' = EgressStoreInfo.id r
       /\ dbEgressStore w' = replaced r r' (dbEgressStore w)
       /\ List.filter (underPrefix (EgressStoreInfo.s3BucketPath r))
                      (objectsOf w' (EgressStoreInfo.s3BucketName r)) = []
       /\ bucketPolicy w' =
            revokedPolicy (bucketPolicy w) (terminatedStore environmentId r)
              (egressStoreBucketName (settings w)) account
       /\ (forall st, st ∈ bucketPolicy w' ->
             ofStore (terminatedStore environmentId r) st = true ->
             account ∉ Principal st))
  /\
  (status <> PROCESSING_STATUS_CODE ->
   ~ (status = PROCESSED_STATUS_CODE \/ untouched) ->
   terminateEgressStore requestContext environmentId w = (Returned (Some r), w)).
Proof.
  intros Hen Hrec Hauth status untouched. split; [|split].
  - by apply terminateEgressStore_processing.
  - intros Hst account Hs3 Hdb Hlock1 Hacct Hlock2 Hget Hput.
    destruct (terminateEgressStore_terminated requestContext environmentId w r account)
      as (w' & Hrun & Hs3' & Hdb' & Hpol & _); try assumption.
    eexists; exists w'. split; [exact Hrun|].
    repeat split; try assumption.
    + by apply (cleared_prefix w).
    + intros st Hin Hof. rewrite Hpol in Hin.
      by destruct (revokedPolicy_store _ _ _ _ _ Hin Hof).
  - by apply terminateEgressStore_passes.
Qed.

Lemma terminateEgressStore_transitions_witness :
  exists r' w',
    terminateEgressStore alice "ws1" (worldWith (sampleInfo "PROCESSED" false 3)) =
      (Returned (Some r'), w')
    /\ EgressStoreInfo.status r' = "TERMINATED"
    /\ EgressStoreInfo.isAbleToSubmitEgressRequest r' = false
    /\ dbEgressStore w' = [r'].
Proof.
  destruct (terminateEgressStore_transitions alice "ws1"
              (worldWith (sampleInfo "PROCESSED" false 3)) (sampleInfo "PROCESSED" false 3))
    as (_ & Hterminates & _).
  - reflexivity.
  - split; reflexivity.
  - right. reflexivity.
  - destruct (Hterminates (or_introl eq_refl) "111122223333")
      as (r' & w' & Hrun & Hstatus & Hable & _ & Hdb & _).
    + reflexivity.
    + reflexivity.
    + apply not_elem_of_empty.
    + reflexivity.
    + apply not_elem_of_empty.
    + reflexivity.
    + reflexivity.
    + exists r', w'. repeat split; assumption.
Defined.

(** ** Submitting for egress *)

Lemma mapM_reads {A B : Type} (f : A -> Async B) l w :
  (forall a, a ∈ l -> exists b, f a w = (Returned b, w)) ->
  exists bs, mapM f l w = (Returned bs, w)
             /\ Forall2 (fun a b => f a w = (Returned b, w)) l bs.
Proof.
  induction l as [|x l IH]; intros H.
  - exists []. split; [reflexivity | constructor].
  - destruct (H x) as [y Hy]; [by left|].
    destruct IH as (ys & Hys & Hall); [intros a Ha; apply H; by right|].
    exists (y :: ys). split; [|by constructor].
    cbn [mapM]. rewrite (bind_ok _ _ _ _ _ Hy), (bind_ok _ _ _ _ _ Hys). reflexivity.
Qed.

Lemma listAllObjects_ok w r :
  s3ListError w = None ->
  listAllObjects (EgressStoreInfo.s3BucketName r) (EgressStoreInfo.s3BucketPath r) w =
    (Returned (listing w r), w).
Proof.
  intros H. unfold listAllObjects.
  rewrite (bind_ok _ _ _ _ _ (failWith_ok _ _ H)). reflexivity.
Qed.

(** The snapshot: one manifest is put, which lists the objects of the store. *)
Lemma prepareEgressStoreSnapshot_ok w r :
  s3ListError w = None -> versionsKnown w r -> s3WriteError w = None ->
  exists objects,
    prepareEgressStoreSnapshot r w =
      (Returned (egressNotificationBucketName (settings w), snapshotKey r),
       set_putObjects
         (putObjects w ++
          [ {| putBucket := egressNotificationBucketName (settings w);
               putKey := snapshotKey r;
               putBody := objects;
               putContentType := "application/json" |} ]) w)
    /\ map ManifestObject.Key objects = map S3Object.Key (listing w r).
Proof.
  intros Hlist Hver Hput.
  destruct (mapM_reads
              (fun obj =>
                 latestVersion <- getLatestObjectVersion (EgressStoreInfo.s3BucketName r)
                                    (S3Object.Key obj) ;;
                 ret {| ManifestObject.Key := S3Object.Key obj;
                        ManifestObject.Size := S3Object.Size obj;
                        ManifestObject.LastModified := S3Object.LastModified obj;
                        ManifestObject.VersionId := fst latestVersion;
                        ManifestObject.Owner := snd latestVersion |})
              (listing w r) w) as (objects & Hobjects & Hall).
  { intros o Ho. destruct (Hver o Ho) as [v Hv]. eexists.
    unfold getLatestObjectVersion. async_unfold. rewrite Hv. reflexivity. }
  exists objects. split.
  - unfold prepareEgressStoreSnapshot.
    rewrite (bind_ok get _ w w w eq_refl). cbv zeta.
    erewrite bind_ok; [reflexivity|].
    apply tryCatch_ok.
    rewrite (bind_ok _ _ _ _ _ (listAllObjects_ok _ _ Hlist)).
    rewrite (bind_ok _ _ _ _ _ Hobjects).
    unfold putObject. rewrite (bind_ok _ _ _ _ _ (failWith_ok _ _ Hput)). reflexivity.
  - clear Hobjects. induction Hall as [|o m l ms Hom _ IH]; [reflexivity|].
    cbn [map]. rewrite IH. f_equal.
    unfold getLatestObjectVersion in Hom. revert Hom. async_unfold.
    destruct (latestVersion w (EgressStoreInfo.s3BucketName r) (S3Object.Key o));
      intros Hom; inversion Hom. reflexivity.
Qed.

Lemma publishMessage_ok message w :
  publishError w = None ->
  publishMessage message w =
    (Returned tt,
     set_published (published w ++ [(egressNotificationSnsTopicArn (settings w), message)]) w).
Proof.
  intros H. unfold publishMessage. rewrite (bind_ok get _ w w w eq_refl). cbv zeta.
  rewrite (bind_ok _ _ _ _ _ (failWith_ok _ _ H)). reflexivity.
Qed.

Lemma publishMessage_fails message w err :
  publishError w = Some err -> publishMessage message w = (Thrown err, w).
Proof.
  intros H. unfold publishMessage. rewrite (bind_ok get _ w w w eq_refl). cbv zeta.
  apply bind_err. unfold failWith. by rewrite H.
Qed.

(** A submit that passes its checks, snapshots and persists: what it has
    written when the message is published, and when it cannot be. *)
Lemma notifySNS_submitted requestContext environmentId w r :
  featureEnabled w ->
  hasRecord w environmentId r ->
  EgressStoreInfo.isAbleToSubmitEgressRequest r = true ->
  adminOrOwner requestContext r ->
  s3ListError w = None ->
  versionsKnown w r ->
  s3WriteError w = None ->
  ddbLockId (EgressStoreInfo.id r) ∉ heldLocks w ->
  dbWriteError w = None ->
  let r' := submittedInfo r (principalUid requestContext) (now w) (snapshotLocation w r) in
  let message := messageOf r' (snapshotLocation w r) (nextUuid w) in
  exists objects,
    map ManifestObject.Key objects = map S3Object.Key (listing w r)
    /\ let manifest := {| putBucket := egressNotificationBucketName (settings w);
                          putKey := snapshotKey r;
                          putBody := objects;
                          putContentType := "application/json" |} in
       (publishError w = None ->
        exists w',
          notifySNS requestContext environmentId w = (Returned message, w')
          /\ dbEgressStore w' = replaced r r' (dbEgressStore w)
          /\ putObjects w' = putObjects w ++ [manifest]
          /\ published w' =
               published w ++ [(egressNotificationSnsTopicArn (settings w), message)])
       /\ (forall err, publishError w = Some err ->
           exists w',
             notifySNS requestContext environmentId w = (Thrown (publishFailed r), w')
             /\ dbEgressStore w' = replaced r r' (dbEgressStore w)
             /\ putObjects w' = putObjects w ++ [manifest]
             /\ published w' = published w).
Proof.
  intros Hen Hrec Hable Hauth Hlist Hver Hput Hlock Hdb r' message.
  destruct (prepareEgressStoreSnapshot_ok w r Hlist Hver Hput) as (objects & Hsnap & Hkeys).
  destruct (recordsOf_elem _ _ _ (proj2 Hrec)) as [Hin _].
  unfold ddbLockId in Hlock. red in Hen.
  exists objects. split; [exact Hkeys|]. cbv zeta.
  split; [intros Hpub | intros err Hpub]; eexists; (split; [
    unfold notifySNS;
    rewrite (bind_ok get _ w w w eq_refl); cbv zeta; rewrite Hen;
    rewrite (bind_ok _ _ _ _ _ (throwIf_false _ _));
    rewrite (bind_ok _ _ _ _ _ (getEgressStoreInfo_found _ _ _ Hrec));
    rewrite Hable; cbn [negb];
    rewrite (bind_ok _ _ _ _ _ (throwIf_false _ _));
    rewrite (adminOrOwner_passes _ _ Hauth);
    rewrite (bind_ok _ _ _ _ _ (throwIf_false _ _));
    rewrite (bind_ok _ _ _ _ _ Hsnap);
    rewrite (bind_ok newDate _ _ _ _ eq_refl);
    cbn [fst snd EgressStoreInfo.id now set_putObjects];
    rewrite (bind_ok _ _ _ _ _ (lockAndUpdate_ok _ r (set_putObjects _ w) Hlock Hdb Hin _));
    rewrite (bind_ok uuid_v4 _ _ _ _ eq_refl) | ]).
  - rewrite (bind_ok _ _ _ _ _
               (tryCatch_ok _ _ _ _ _
                  (publishMessage_ok _
                     (set_nextUuid _ (set_dbEgressStore _ (set_putObjects _ w))) Hpub))).
    unfold audit, bind, modify, ret. reflexivity.
  - cbn. repeat split; reflexivity.
  - apply bind_err. unfold tryCatch.
    rewrite (publishMessage_fails _
               (set_nextUuid _ (set_dbEgressStore _ (set_putObjects _ w))) err Hpub).
    reflexivity.
  - cbn. repeat split; reflexivity.
Qed.

(** C5: a submit that passes the feature, eligibility and authorization
    checks, when the snapshot can be taken and the record written, puts one
    manifest of the objects of the store, and replaces the record by one
    whose status is PENDING (the status it had, when that was PENDING
    already), whose [ver] is one more, which carries the location of the
    manifest and has [isAbleToSubmitEgressRequest] false; then it publishes
    the message.  When the message cannot be published the call fails with
    the bad-request error "Unable to publish message" (the publish-failed
    error of the service); the record and the manifest stay written. *)
Theorem notifySNS_submits requestContext environmentId w r :
  featureEnabled w ->
  hasRecord w environmentId r ->
  EgressStoreInfo.isAbleToSubmitEgressRequest r = true ->
  adminOrOwner requestContext r ->
  s3ListError w = None ->
  versionsKnown w r ->
  s3WriteError w = None ->
  ddbLockId (EgressStoreInfo.id r) ∉ heldLocks w ->
  dbWriteError w = None ->
  exists r' objects message,
    let manifest := {| putBucket := egressNotificationBucketName (settings w);
                       putKey := snapshotKey r;
                       putBody := objects;
                       putContentType := "application/json" |} in
    map ManifestObject.Key objects = map S3Object.Key (listing w r)
    /\ EgressStoreInfo.id r' = EgressStoreInfo.id r
    /\ toUpperCase (EgressStoreInfo.status r') = PENDING_STATUS_CODE
    /\ (toUpperCase (EgressStoreInfo.status r) = PENDING_STATUS_CODE ->
        EgressStoreInfo.status r' = EgressStoreInfo.status r)
    /\ (toUpperCase (EgressStoreInfo.status r) <> PENDING_STATUS_CODE ->
        EgressStoreInfo.status r' = PENDING_STATUS_CODE)
    /\ EgressStoreInfo.ver r' = EgressStoreInfo.ver r + 1
    /\ EgressStoreInfo.egressStoreObjectListLocation r' = Some (snapshotLocation w r)
    /\ EgressStoreInfo.isAbleToSubmitEgressRequest r' = false
    /\ message = messageOf r' (snapshotLocation w r) (nextUuid w)
    /\ (publishError w = None ->
        exists w',
          notifySNS requestContext environmentId w = (Returned message, w')
          /\ dbEgressStore w' = replaced r r' (dbEgressStore w)
          /\ putObjects w' = putObjects w ++ [manifest]
          /\ published w' =
               published w ++ [(egressNotificationSnsTopicArn (settings w), message)])
    /\ (forall err, publishError w = Some err ->
        exists w',
          notifySNS requestContext environmentId w = (Thrown (publishFailed r), w')
          /\ dbEgressStore w' = replaced r r' (dbEgressStore w)
          /\ putObjects w' = putObjects w ++ [manifest]
          /\ published w' = published w).
Proof.
  intros Hen Hrec Hable Hauth Hlist Hver Hput Hlock Hdb.
  destruct (notifySNS_submitted requestContext environmentId w r)
    as (objects & Hkeys & Hok & Hfail); try assumption.
  exists (submittedInfo r (principalUid requestContext) (now w) (snapshotLocation w r)),
    objects,
    (messageOf (submittedInfo r (principalUid requestContext) (now w) (snapshotLocation w r))
       (snapshotLocation w r) (nextUuid w)).
  cbv zeta.
  split; [exact Hkeys|]. split; [reflexivity|].
  split; [|split; [|split; [|repeat split; [exact Hok | exact Hfail]]]].
  - cbn. case_bool_decide; cbn; [assumption | reflexivity].
  - intros H. cbn. by rewrite (bool_decide_eq_true_2 _ H).
  - intros H. cbn. by rewrite (bool_decide_eq_false_2 _ H).
Qed.

Lemma notifySNS_submits_witness :
  exists message w',
    notifySNS alice "ws1" (worldWith (sampleInfo "CREATED" true 3)) = (Returned message, w')
    /\ Message.status message = "PENDING"
    /\ Message.ver message = 4
    /\ published w' = [("arn:aws:sns:egress-topic", message)].
Proof.
  destruct (notifySNS_submits alice "ws1" (worldWith (sampleInfo "CREATED" true 3))
              (sampleInfo "CREATED" true 3))
    as (r' & objects & message & _ & _ & _ & _ & Hst & Hver & _ & _ & Hmsg & Hok & _).
  - reflexivity.
  - split; reflexivity.
  - reflexivity.
  - right. reflexivity.
  - reflexivity.
  - intros o Ho. vm_compute in Ho. by apply elem_of_nil in Ho.
  - reflexivity.
  - apply not_elem_of_empty.
  - reflexivity.
  - destruct (Hok eq_refl) as (w' & Hrun & _ & _ & Hpub).
    exists message, w'. split; [exact Hrun|].
    rewrite Hmsg at 1 2. cbn [Message.status Message.ver messageOf].
    rewrite Hver. repeat split; [by apply Hst | exact Hpub].
Defined.

(** ** The version of a record *)

Lemma enableEgressStoreSubmission_ok w r :
  r ∈ dbEgressStore w ->
  ddbLockId (EgressStoreInfo.id r) ∉ heldLocks w ->
  dbWriteError w = None ->
  enableEgressStoreSubmission r w =
    (Returned tt, set_dbEgressStore (replaced r (enabledInfo r) (dbEgressStore w)) w).
Proof.
  intros Hin Hlock Hdb. unfold enableEgressStoreSubmission. cbv zeta.
  cbn [EgressStoreInfo.id]. unfold ddbLockId in Hlock.
  apply (lockAndUpdate_ok _ r w Hlock Hdb Hin).
Qed.

(** C4, as stated, fails on a terminate and on [enableEgressStoreSubmission]:
    both are accepted, both write the record, and the [ver] they write is the
    [ver] they found. *)
Lemma ver_is_not_incremented :
  let r := sampleInfo "PROCESSED" false 3 in
  let terminated := terminateEgressStore alice "ws1" (worldWith r) in
  let enabled := enableEgressStoreSubmission r (worldWith r) in
  EgressStoreInfo.ver r = 3
  /\ fst terminated = Returned (Some (terminatedInfo r (Some "alice") 1600000000000))
  /\ map EgressStoreInfo.status (dbEgressStore (snd terminated)) = ["TERMINATED"]
  /\ map EgressStoreInfo.ver (dbEgressStore (snd terminated)) = [3]
  /\ fst enabled = Returned tt
  /\ map EgressStoreInfo.isAbleToSubmitEgressRequest (dbEgressStore (snd enabled)) = [true]
  /\ map EgressStoreInfo.ver (dbEgressStore (snd enabled)) = [3].
Proof. cbv zeta. repeat split; vm_compute; reflexivity. Qed.

(** ** Listing the objects of a store *)

Lemma insertByLastModified_In x o l :
  In x (insertByLastModified o l) <-> x = o \/ In x l.
Proof.
  induction l as [|y l IH]; cbn.
  - intuition.
  - destruct (S3Object.LastModified o <=? S3Object.LastModified y); cbn; [intuition|].
    rewrite IH. intuition.
Qed.

Lemma sortByLastModified_In x l : In x (sortByLastModified l) <-> In x l.
Proof.
  unfold sortByLastModified. induction l as [|y l IH]; cbn; [reflexivity|].
  rewrite insertByLastModified_In, IH. intuition.
Qed.

Lemma insertByLastModified_sorted o l :
  StronglySorted Z.le (map S3Object.LastModified l) ->
  StronglySorted Z.le (map S3Object.LastModified (insertByLastModified o l)).
Proof.
  induction l as [|y l IH]; cbn; intros Hs.
  - repeat constructor.
  - destruct (Z.leb_spec (S3Object.LastModified o) (S3Object.LastModified y)) as [Hle|Hgt]; cbn.
    + constructor; [exact Hs|].
      inversion Hs as [|? ? _ Hall]; subst. constructor; [exact Hle|].
      eapply Forall_impl; [exact Hall|]. cbn. intros d Hd. lia.
    + inversion Hs as [|? ? Hs' Hall]; subst. constructor; [by apply IH|].
      apply List.Forall_forall. intros d Hd. apply in_map_iff in Hd as (x & <- & Hx).
      apply insertByLastModified_In in Hx as [->|Hx]; [lia|].
      rewrite List.Forall_forall in Hall. apply Hall. by apply in_map.
Qed.

Lemma sortByLastModified_sorted l :
  StronglySorted Z.le (map S3Object.LastModified (sortByLastModified l)).
Proof.
  unfold sortByLastModified. induction l as [|y l IH]; cbn; [constructor|].
  by apply insertByLastModified_sorted.
Qed.

Section Rows.
Variable floorLog1024 : N -> Z.
Variable r : EgressStoreInfo.t.

Lemma listedRow_LastModified o row :
  listedRow floorLog1024 r o = Some row ->
  ListedObject.LastModified row = S3Object.LastModified o
  /\ ListedObject.Size row = bytesToSize floorLog1024 (S3Object.Size o).
Proof.
  unfold listedRow. destruct (split "/" (S3Object.Key o) !! 1%nat) as [key|]; [|discriminate].
  destruct (truthy key); [|discriminate]. intros H. by inversion H.
Qed.

Lemma omap_listedRow_In row l :
  In row (omap (listedRow floorLog1024 r) l) ->
  exists o, In o l /\ listedRow floorLog1024 r o = Some row.
Proof.
  induction l as [|o l IH]; cbn; [tauto|].
  destruct (listedRow floorLog1024 r o) as [row'|] eqn:Ho; cbn.
  - intros [<-|H]; [eauto|]. destruct (IH H) as (o' & Hin & Hrow). eauto.
  - intros H. destruct (IH H) as (o' & Hin & Hrow). eauto.
Qed.

Lemma omap_listedRow_sorted l :
  StronglySorted Z.le (map S3Object.LastModified l) ->
  StronglySorted Z.le
    (map ListedObject.LastModified (omap (listedRow floorLog1024 r) l)).
Proof.
  induction l as [|o l IH]; cbn; intros Hs; [constructor|].
  inversion Hs as [|? ? Hs' Hall]; subst.
  destruct (listedRow floorLog1024 r o) as [row|] eqn:Ho; cbn; [|by apply IH].
  constructor; [by apply IH|].
  apply List.Forall_forall. intros d Hd. apply in_map_iff in Hd as (row' & <- & Hrow').
  apply omap_listedRow_In in Hrow' as (o' & Hin & Ho').
  destruct (listedRow_LastModified _ _ Ho) as [-> _].
  destruct (listedRow_LastModified _ _ Ho') as [-> _].
  rewrite List.Forall_forall in Hall. apply Hall. by apply in_map.
Qed.

End Rows.

Lemma StronglySorted_take {A : Type} (R : A -> A -> Prop) n l :
  StronglySorted R l -> StronglySorted R (take n l).
Proof.
  revert l. induction n as [|n IH]; intros l Hs; [constructor|].
  destruct l as [|x l]; [constructor|]. cbn.
  inversion Hs as [|? ? Hs' Hall]; subst. constructor; [by apply IH|].
  apply List.Forall_forall. intros y Hy. rewrite List.Forall_forall in Hall.
  apply Hall. apply list_elem_of_In. apply list_elem_of_In in Hy.
  by apply (subseteq_take n l).
Qed.

(** The unit of a size: the index into [sizes] is between 0 and 5 as soon as
    the runtime's logarithm is not negative. *)
Lemma bytesToSize_unit floorLog1024 bytes :
  (bytes <> 0)%N ->
  0 <= floorLog1024 bytes ->
  exists i,
    0 <= i <= 5
    /\ i = Z.min (floorLog1024 bytes) 5
    /\ bytesToSize floorLog1024 bytes =
         pretty (roundedQuotient bytes i) +:+ " " +:+ sizeName i
    /\ sizes !! Z.to_nat i = Some (sizeName i).
Proof.
  intros Hpos Hlog. exists (Z.min (floorLog1024 bytes) 5).
  split; [lia|]. split; [reflexivity|]. split.
  - unfold bytesToSize, parseInt. rewrite bool_decide_eq_false_2 by assumption.
    cbv zeta. destruct (Z.leb_spec (floorLog1024 bytes) 5).
    + by rewrite Z.min_l.
    + by rewrite Z.min_r by lia.
  - assert (Hi : 0 <= Z.min (floorLog1024 bytes) 5 <= 5) by lia.
    revert Hi. generalize (Z.min (floorLog1024 bytes) 5). intros i Hi.
    assert (Hcases : i = 0 \/ i = 1 \/ i = 2 \/ i = 3 \/ i = 4 \/ i = 5) by lia.
    destruct Hcases as [->|[->|[->|[->|[->| ->]]]]]; reflexivity.
Qed.

Lemma exactFloorLog1024_nonneg bytes : 0 <= exactFloorLog1024 bytes.
Proof.
  unfold exactFloorLog1024. apply Z.div_pos; [apply Z.log2_nonneg | lia].
Qed.

Lemma exactFloorLog1024_PB bytes : (1024 ^ 5 <= bytes)%N -> 5 <= exactFloorLog1024 bytes.
Proof.
  intros H. unfold exactFloorLog1024.
  assert (Hz : 2 ^ 50 <= Z.of_N bytes).
  { change (2 ^ 50) with (Z.of_N (1024 ^ 5)). lia. }
  apply Z.log2_le_mono in Hz. rewrite Z.log2_pow2 in Hz by lia.
  change 5 with (50 / 10). apply Z.div_le_mono; lia.
Qed.

Example bytesToSize_examples :
  map (bytesToSize exactFloorLog1024) [0; 1024; 1048576; 1536; 1024 ^ 5; 1024 ^ 6]%N
  = ["0 Byte"; "1 KB"; "1 MB"; "2 KB"; "1 PB"; "1024 PB"].
Proof. vm_compute. reflexivity. Qed.

(** C8: a listing, for a caller who is an admin or the owner, with the
    feature enabled, returns the first 100 rows of the objects of the store
    taken in ascending order of last modification: at most 100 rows, in
    ascending order, however many objects the store holds.  The size of a
    row is "0 Byte" for 0 bytes and otherwise the number of bytes divided by
    a power of 1024 and rounded, followed by the unit of that power, one of
    Bytes, KB, MB, GB, TB and PB; the power is never more than the fifth, so
    from 1024^5 bytes on the unit is PB.  The logarithm that selects the
    power is computed by the runtime in floating point: it is taken not to
    be negative on a positive size and to be at least 5 from 1024^5 on. *)
Theorem getEgressStore_lists floorLog1024 requestContext environmentId w r :
  featureEnabled w ->
  hasRecord w environmentId r ->
  adminOrOwner requestContext r ->
  s3ListError w = None ->
  (forall bytes, (bytes <> 0)%N -> 0 <= floorLog1024 bytes) ->
  (forall bytes, (1024 ^ 5 <= bytes)%N -> 5 <= floorLog1024 bytes) ->
  exists rows,
    getEgressStore floorLog1024 requestContext environmentId w =
      (Returned {| objectList := rows;
                   listingIsAbleToSubmitEgressRequest :=
                     EgressStoreInfo.isAbleToSubmitEgressRequest r |}, w)
    /\ rows = take 100 (omap (listedRow floorLog1024 r) (sortByLastModified (listing w r)))
    /\ (length rows <= 100)%nat
    /\ StronglySorted Z.le (map ListedObject.LastModified rows)
    /\ forall row, row ∈ rows ->
         exists o,
           o ∈ listing w r
           /\ ListedObject.LastModified row = S3Object.LastModified o
           /\ ListedObject.Size row = bytesToSize floorLog1024 (S3Object.Size o)
           /\ (S3Object.Size o = 0%N -> ListedObject.Size row = "0 Byte")
           /\ (S3Object.Size o <> 0%N ->
               exists i,
                 0 <= i <= 5
                 /\ sizes !! Z.to_nat i = Some (sizeName i)
                 /\ ListedObject.Size row =
                      pretty (roundedQuotient (S3Object.Size o) i) +:+ " " +:+ sizeName i
                 /\ ((1024 ^ 5 <= S3Object.Size o)%N -> sizeName i = "PB")).
Proof.
  intros Hen Hrec Hauth Hlist Hlog0 Hlog5. red in Hen.
  exists (take 100 (omap (listedRow floorLog1024 r) (sortByLastModified (listing w r)))).
  split; [|split; [reflexivity|split; [|split]]].
  - unfold getEgressStore.
    rewrite (bind_ok get _ w w w eq_refl). cbv zeta. rewrite Hen.
    rewrite (bind_ok _ _ _ _ _ (throwIf_false _ _)).
    rewrite (bind_ok _ _ _ _ _ (getEgressStoreInfo_found _ _ _ Hrec)).
    rewrite (adminOrOwner_passes _ _ Hauth).
    rewrite (bind_ok _ _ _ _ _ (throwIf_false _ _)).
    rewrite (bind_ok _ _ _ _ _ (listAllObjects_ok _ _ Hlist)).
    unfold ret.
    destruct (Nat.ltb_spec 100
                (length (omap (listedRow floorLog1024 r) (sortByLastModified (listing w r)))));
      [reflexivity | by rewrite take_ge].
  - rewrite length_take. lia.
  - rewrite <- firstn_map. apply StronglySorted_take, omap_listedRow_sorted,
      sortByLastModified_sorted.
  - intros row Hrow. apply subseteq_take, list_elem_of_In, omap_listedRow_In in Hrow
      as (o & Ho & Hmade).
    apply (proj1 (sortByLastModified_In _ _)) in Ho.
    destruct (listedRow_LastModified _ _ _ _ Hmade) as [Hdate Hsize].
    exists o. split; [apply list_elem_of_In; exact Ho|]. split; [exact Hdate|].
    split; [exact Hsize|]. split.
    + intros H0. rewrite Hsize, H0. reflexivity.
    + intros Hpos.
      destruct (bytesToSize_unit floorLog1024 (S3Object.Size o) Hpos (Hlog0 _ Hpos))
        as (i & Hi & Hmin & Hrender & Hunit).
      exists i. split; [exact Hi|]. split; [exact Hunit|].
      split; [by rewrite Hsize|].
      intros Hbig. apply Hlog5 in Hbig.
      assert (i = 5) as -> by lia. reflexivity.
Qed.

Lemma getEgressStore_lists_witness :
  getEgressStore exactFloorLog1024 alice "ws1" (listingWorld (sampleInfo "CREATED" true 0)) =
    (Returned
       {| objectList :=
            [ {| ListedObject.Key := "a.csv"; ListedObject.Size := "0 Byte";
                 ListedObject.LastModified := 10; ListedObject.projectId := "p1";
                 ListedObject.workspaceId := "ws1" |};
              {| ListedObject.Key := "b.csv"; ListedObject.Size := "2 KB";
                 ListedObject.LastModified := 20; ListedObject.projectId := "p1";
                 ListedObject.workspaceId := "ws1" |} ];
          listingIsAbleToSubmitEgressRequest := true |},
     listingWorld (sampleInfo "CREATED" true 0)).
Proof.
  destruct (getEgressStore_lists exactFloorLog1024 alice "ws1"
              (listingWorld (sampleInfo "CREATED" true 0)) (sampleInfo "CREATED" true 0))
    as (rows & Hrun & Hrows & _).
  - reflexivity.
  - split; reflexivity.
  - right. reflexivity.
  - reflexivity.
  - intros bytes _. apply exactFloorLog1024_nonneg.
  - apply exactFloorLog1024_PB.
  - rewrite Hrun, Hrows. vm_compute. reflexivity.
Defined.

(** * Further properties of the service *)

(** ** The lookup *)

(** X1: a lookup fails in two ways and writes nothing in either.  When the
    scan fails, whatever its error, the lookup fails with a not-found error.
    The message of that error ends with the JSON of the error of the scan:
    for the error of a collaborator, the JSON of its properties; for a
    [TypeError] of the runtime, the empty object, since the message of an
    [Error] is not enumerable and is not quoted.  When the scan holds two
    records or more for the workspace, the lookup fails with the internal
    error "multiple results". *)
Theorem getEgressStoreInfo_errors environmentId w :
  (forall err, scanError w = Some err ->
     exists message,
       getEgressStoreInfo environmentId w = (Thrown (Boom notFound message), w))
  /\ (forall code json, scanError w = Some (Upstream code json) ->
        getEgressStoreInfo environmentId w =
          (Thrown (Boom notFound ("Error in fetch egress store info: " +:+ json)), w))
  /\ (forall message, scanError w = Some (TypeError message) ->
        getEgressStoreInfo environmentId w =
          (Thrown (Boom notFound "Error in fetch egress store info: {}"), w))
  /\ (scanError w = None -> (2 <= length (recordsOf w environmentId))%nat ->
      getEgressStoreInfo environmentId w = (Thrown multipleResults, w)).
Proof.
  assert (Hfails : forall err, scanError w = Some err ->
            getEgressStoreInfo environmentId w =
              (Thrown (Boom notFound
                         ("Error in fetch egress store info: " +:+ jsonStringify err)), w)).
  { intros err Herr. unfold getEgressStoreInfo, scan; async_unfold.
    rewrite Herr. reflexivity. }
  split; [|split; [|split]].
  - intros err Herr. eexists. by apply Hfails.
  - intros code json Herr. by rewrite (Hfails _ Herr).
  - intros message Herr. by rewrite (Hfails _ Herr).
  - intros Hscan Hlen. unfold recordsOf in Hlen.
    unfold getEgressStoreInfo, scan; async_unfold. rewrite Hscan. cbv beta iota.
    destruct (List.filter _ _) as [|x [|y l]]; cbn in Hlen; [lia | lia | reflexivity].
Qed.

Lemma getEgressStoreInfo_errors_witness :
  getEgressStoreInfo "ws1" (withScanError outage emptyWorld) =
    (Thrown (Boom notFound "Error in fetch egress store info: {}"),
     withScanError outage emptyWorld)
  /\ getEgressStoreInfo "ws1" (withScanError (TypeError "boom") emptyWorld) =
       (Thrown (Boom notFound "Error in fetch egress store info: {}"),
        withScanError (TypeError "boom") emptyWorld)
  /\ getEgressStoreInfo "ws1" twoRecordsWorld = (Thrown multipleResults, twoRecordsWorld).
Proof.
  split; [|split].
  - apply (proj1 (proj2 (getEgressStoreInfo_errors "ws1" (withScanError outage emptyWorld)))
             "ServiceUnavailable" "{}").
    reflexivity.
  - apply (proj1 (proj2 (proj2 (getEgressStoreInfo_errors "ws1"
                                  (withScanError (TypeError "boom") emptyWorld))))
             "boom").
    reflexivity.
  - apply (proj2 (proj2 (proj2 (getEgressStoreInfo_errors "ws1" twoRecordsWorld)))).
    + reflexivity.
    + vm_compute. lia.
Defined.

(** ** The feature switch and the authorization *)

Lemma featureDisabled_iff enable :
  featureDisabled enable = false <-> toUpperCase enable = "TRUE".
Proof.
  unfold featureDisabled, truthy. split.
  - intros H. apply orb_false_iff in H as [_ H].
    by apply negb_false_iff, bool_decide_eq_true_1 in H.
  - intros H. rewrite (bool_decide_eq_true_2 _ H).
    rewrite bool_decide_eq_false_2; [reflexivity|].
    intros ->. discriminate H.
Qed.

(** X2: the feature is on exactly when the setting reads "true" in some
    mix of cases.  When it does not, a create, a terminate, a listing and a
    submit each fail with a forbidden error before they do anything: the
    world is as it was.  The message of the submit is the message of the
    create. *)
Theorem feature_switch floorLog1024 requestContext environment environmentId w :
  toUpperCase (enableEgressStore (settings w)) <> "TRUE" ->
  createEgressStore requestContext environment w =
    (Thrown (Boom forbidden "Unable to create Egress store since this feature is disabled"), w)
  /\ terminateEgressStore requestContext environmentId w =
       (Thrown (Boom forbidden
          "Unable to terminate Egress store since this feature is disabled"), w)
  /\ getEgressStore floorLog1024 requestContext environmentId w =
       (Thrown (Boom forbidden
          "Unable to list objects in egress store since this feature is disabled"), w)
  /\ notifySNS requestContext environmentId w =
       (Thrown (Boom forbidden "Unable to create Egress store since this feature is disabled"), w).
Proof.
  intros Hoff.
  assert (Hdis : featureDisabled (enableEgressStore (settings w)) = true).
  { destruct (featureDisabled _) eqn:H; [reflexivity|].
    by apply featureDisabled_iff in H. }
  repeat split.
  - unfold createEgressStore. rewrite (bind_ok get _ w w w eq_refl). cbv zeta.
    rewrite Hdis. reflexivity.
  - unfold terminateEgressStore. rewrite (bind_ok get _ w w w eq_refl). cbv zeta.
    rewrite Hdis. reflexivity.
  - unfold getEgressStore. rewrite (bind_ok get _ w w w eq_refl). cbv zeta.
    rewrite Hdis. reflexivity.
  - unfold notifySNS. rewrite (bind_ok get _ w w w eq_refl). cbv zeta.
    rewrite Hdis. reflexivity.
Qed.

Lemma feature_switch_witness :
  createEgressStore alice ws1 (withSettings disabledSettings emptyWorld) =
    (Thrown (Boom forbidden "Unable to create Egress store since this feature is disabled"),
     withSettings disabledSettings emptyWorld)
  /\ notifySNS alice "ws1" (withSettings disabledSettings emptyWorld) =
       (Thrown (Boom forbidden "Unable to create Egress store since this feature is disabled"),
        withSettings disabledSettings emptyWorld).
Proof.
  destruct (feature_switch exactFloorLog1024 alice ws1 "ws1"
              (withSettings disabledSettings emptyWorld)) as (H1 & _ & _ & H4).
  - vm_compute. discriminate.
  - split; assumption.
Defined.

Lemma stranger_refused requestContext r :
  stranger requestContext r ->
  negb (isAdmin requestContext)
  && negb (bool_decide (Some (EgressStoreInfo.createdBy r) = principalUid requestContext))
  = true.
Proof.
  intros [Hadmin Huid]. rewrite Hadmin.
  rewrite bool_decide_eq_false_2; [reflexivity | congruence].
Qed.

(** X3: a caller who is neither an admin nor the creator of the store is
    refused with a forbidden error by a terminate and by a listing, and by a
    submit on a store that is ready; the world is as it was: nothing is
    cleared, listed, snapshot or published.  On a store that is not ready the
    submit answers with the not-ready error instead: it tests the store
    before it tests the caller. *)
Theorem strangers_are_refused floorLog1024 requestContext environmentId w r :
  featureEnabled w ->
  hasRecord w environmentId r ->
  stranger requestContext r ->
  terminateEgressStore requestContext environmentId w =
    (Thrown (Boom forbidden
       "You are not authorized to terminate the egress store. Please contact your administrator."),
     w)
  /\ getEgressStore floorLog1024 requestContext environmentId w =
       (Thrown (Boom forbidden
          "You are not authorized to perform egress store list. Please contact your administrator for more information."),
        w)
  /\ (EgressStoreInfo.isAbleToSubmitEgressRequest r = true ->
      notifySNS requestContext environmentId w =
        (Thrown (Boom forbidden
           "You are not authorized to submit egress request. Please contact your administrator for more information."),
         w))
  /\ (EgressStoreInfo.isAbleToSubmitEgressRequest r = false ->
      notifySNS requestContext environmentId w = (Thrown (notReady r), w)).
Proof.
  intros Hen Hrec Hstr. red in Hen. repeat split.
  - unfold terminateEgressStore. rewrite (bind_ok get _ w w w eq_refl). cbv zeta.
    rewrite Hen. rewrite (bind_ok _ _ _ _ _ (throwIf_false _ _)).
    rewrite (bind_ok _ _ _ _ _ (getEgressStoreInfo_found _ _ _ Hrec)).
    rewrite (stranger_refused _ _ Hstr). reflexivity.
  - unfold getEgressStore. rewrite (bind_ok get _ w w w eq_refl). cbv zeta.
    rewrite Hen. rewrite (bind_ok _ _ _ _ _ (throwIf_false _ _)).
    rewrite (bind_ok _ _ _ _ _ (getEgressStoreInfo_found _ _ _ Hrec)).
    rewrite (stranger_refused _ _ Hstr). reflexivity.
  - intros Hable. unfold notifySNS. rewrite (bind_ok get _ w w w eq_refl). cbv zeta.
    rewrite Hen. rewrite (bind_ok _ _ _ _ _ (throwIf_false _ _)).
    rewrite (bind_ok _ _ _ _ _ (getEgressStoreInfo_found _ _ _ Hrec)).
    rewrite Hable. cbn [negb]. rewrite (bind_ok _ _ _ _ _ (throwIf_false _ _)).
    rewrite (stranger_refused _ _ Hstr). reflexivity.
  - intros Hable. unfold notifySNS. rewrite (bind_ok get _ w w w eq_refl). cbv zeta.
    rewrite Hen. rewrite (bind_ok _ _ _ _ _ (throwIf_false _ _)).
    rewrite (bind_ok _ _ _ _ _ (getEgressStoreInfo_found _ _ _ Hrec)).
    rewrite Hable. reflexivity.
Qed.

Lemma strangers_are_refused_witness :
  terminateEgressStore bob "ws1" (worldWith (sampleInfo "PROCESSED" true 1)) =
    (Thrown (Boom forbidden
       "You are not authorized to terminate the egress store. Please contact your administrator."),
     worldWith (sampleInfo "PROCESSED" true 1)).
Proof.
  apply (strangers_are_refused exactFloorLog1024 bob "ws1"
           (worldWith (sampleInfo "PROCESSED" true 1)) (sampleInfo "PROCESSED" true 1)).
  - reflexivity.
  - split; reflexivity.
  - split; [reflexivity | discriminate].
Defined.

(** ** Failures of a terminate *)

Lemma clearPath_fails bucketName path w err :
  s3WriteError w = Some err -> clearPath bucketName path w = (Thrown err, w).
Proof.
  intros H. unfold clearPath. apply bind_err. unfold failWith. by rewrite H.
Qed.

Lemma update_fails c key item w err :
  dbWriteError w = Some err -> update c key item w = (Thrown err, w).
Proof.
  intros H. unfold update. apply bind_err. unfold failWith. by rewrite H.
Qed.

Lemma update_exists_missing key item w :
  dbWriteError w = None -> hasKey key (dbEgressStore w) = false ->
  update attribute_exists_id key item w = (Thrown conditionalCheckFailed, w).
Proof.
  intros Hdb Hkey. unfold update.
  rewrite (bind_ok _ _ _ _ _ (failWith_ok _ _ Hdb)).
  unfold bind, get. cbv zeta. rewrite Hkey. reflexivity.
Qed.

(** X4: a terminate that finds no record for the workspace returns [null],
    logs one audit event that says so, and changes nothing else. *)
Theorem terminateEgressStore_nothing_to_do requestContext environmentId w :
  featureEnabled w ->
  hasNoRecord w environmentId ->
  terminateEgressStore requestContext environmentId w =
    (Returned None, set_auditLog (auditLog w ++ [nothingToTerminate]) w).
Proof.
  intros Hen Hnone. red in Hen. unfold terminateEgressStore.
  rewrite (bind_ok get _ w w w eq_refl). cbv zeta. rewrite Hen.
  rewrite (bind_ok _ _ _ _ _ (throwIf_false _ _)).
  rewrite (bind_ok _ _ _ _ _ (getEgressStoreInfo_absent _ _ Hnone)).
  reflexivity.
Qed.

Lemma terminateEgressStore_nothing_to_do_witness :
  terminateEgressStore alice "ws1" emptyWorld =
    (Returned None, set_auditLog [nothingToTerminate] emptyWorld).
Proof.
  apply (terminateEgressStore_nothing_to_do alice "ws1" emptyWorld).
  - reflexivity.
  - split; reflexivity.
Defined.

(** The status lets a terminate go through. *)
Lemma terminating_branch r :
  toUpperCase (EgressStoreInfo.status r) = PROCESSED_STATUS_CODE
  \/ (toUpperCase (EgressStoreInfo.status r) = CREATED_STATUS_CODE
      /\ EgressStoreInfo.isAbleToSubmitEgressRequest r = false) ->
  bool_decide (toUpperCase (EgressStoreInfo.status r) = PROCESSING_STATUS_CODE) = false
  /\ bool_decide (toUpperCase (EgressStoreInfo.status r) = PROCESSED_STATUS_CODE)
     || bool_decide (toUpperCase (EgressStoreInfo.status r) = CREATED_STATUS_CODE)
        && bool_decide (EgressStoreInfo.isAbleToSubmitEgressRequest r = false) = true.
Proof.
  intros Hst. split.
  - apply bool_decide_eq_false_2. destruct Hst as [-> | [-> _]]; discriminate.
  - destruct Hst as [H | [H1 H2]].
    + by rewrite (bool_decide_eq_true_2 _ H).
    + rewrite (bool_decide_eq_true_2 _ H1), (bool_decide_eq_true_2 _ H2).
      apply orb_true_r.
Qed.

(** X5: a terminate does its three writes in order and takes none back.
    When the store cannot be cleared it fails with the bad-request error
    "Error in deleting egress store" (which names the bucket where it says
    store, and the path where it says bucket) and has written nothing.  When
    the store is cleared and the table then refuses the write, the error of
    the table goes through: the objects are gone and the record has the
    status it had.  When the record is written and the account of the
    workspace is then not found, that error goes through: the record is
    TERMINATED and the policy document still grants what it granted. *)
Theorem terminateEgressStore_partial requestContext environmentId w r :
  featureEnabled w ->
  hasRecord w environmentId r ->
  adminOrOwner requestContext r ->
  toUpperCase (EgressStoreInfo.status r) = PROCESSED_STATUS_CODE
  \/ (toUpperCase (EgressStoreInfo.status r) = CREATED_STATUS_CODE
      /\ EgressStoreInfo.isAbleToSubmitEgressRequest r = false) ->
  (forall err, s3WriteError w = Some err ->
     terminateEgressStore requestContext environmentId w = (Thrown (deleteFailed r), w))
  /\
  (forall err,
     s3WriteError w = None ->
     ddbLockId (EgressStoreInfo.id r) ∉ heldLocks w ->
     dbWriteError w = Some err ->
     errorCode err <> Some "ConditionalCheckFailedException" ->
     exists w',
       terminateEgressStore requestContext environmentId w = (Thrown err, w')
       /\ List.filter (underPrefix (EgressStoreInfo.s3BucketPath r))
                      (objectsOf w' (EgressStoreInfo.s3BucketName r)) = []
       /\ dbEgressStore w' = dbEgressStore w
       /\ bucketPolicy w' = bucketPolicy w)
  /\
  (forall err,
     s3WriteError w = None ->
     ddbLockId (EgressStoreInfo.id r) ∉ heldLocks w ->
     dbWriteError w = None ->
     memberAccount w environmentId = inl err ->
     exists w',
       terminateEgressStore requestContext environmentId w = (Thrown err, w')
       /\ dbEgressStore w' =
            replaced r (terminatedInfo r (principalUid requestContext) (now w))
                     (dbEgressStore w)
       /\ bucketPolicy w' = bucketPolicy w).
Proof.
  intros Hen Hrec Hauth Hst.
  destruct (terminating_branch r Hst) as [Hnp Hbranch].
  destruct (recordsOf_elem _ _ _ (proj2 Hrec)) as [Hin _].
  unfold ddbLockId. split; [|split].
  - intros err Hs3. unfold terminateEgressStore. cbv zeta.
    rewrite (terminateEgressStore_entry _ _ _ _ Hen Hrec Hauth (fun egressStoreInfo => _)).
    rewrite Hnp, Hbranch. apply bind_err. unfold tryCatch.
    rewrite (clearPath_fails _ _ _ _ Hs3). reflexivity.
  - intros err Hs3 Hlock Hdb Hcode. eexists. split; [|split; [|split]].
    + unfold terminateEgressStore. cbv zeta.
      rewrite (terminateEgressStore_entry _ _ _ _ Hen Hrec Hauth (fun egressStoreInfo => _)).
      rewrite Hnp, Hbranch.
      rewrite (bind_ok _ _ _ _ _ (tryCatch_ok _ _ _ _ _ (clearPath_ok _ _ _ Hs3))).
      rewrite (bind_ok newDate _ _ _ _ eq_refl).
      apply bind_err. unfold lockAndUpdate.
      rewrite tryWriteLockAndRun_free by exact Hlock.
      unfold runAndCatch, tryCatch.
      rewrite (update_fails _ _ _ (set_s3 _ w) err Hdb).
      rewrite bool_decide_eq_false_2 by exact Hcode. reflexivity.
    + by apply (cleared_prefix w).
    + reflexivity.
    + reflexivity.
  - intros err Hs3 Hlock Hdb Hacct. eexists. split; [|split].
    + unfold terminateEgressStore. cbv zeta.
      rewrite (terminateEgressStore_entry _ _ _ _ Hen Hrec Hauth (fun egressStoreInfo => _)).
      rewrite Hnp, Hbranch.
      rewrite (bind_ok _ _ _ _ _ (tryCatch_ok _ _ _ _ _ (clearPath_ok _ _ _ Hs3))).
      rewrite (bind_ok newDate _ _ _ _ eq_refl).
      cbn [EgressStoreInfo.id EgressStoreInfo.s3BucketName EgressStoreInfo.s3BucketPath
           EgressStoreInfo.createdBy EgressStoreInfo.projectId now set_s3].
      rewrite (bind_ok _ _ _ _ _ (lockAndUpdate_ok _ r (set_s3 _ w) Hlock Hdb Hin _)).
      apply bind_err. unfold getMemberAccountId, bind, get.
      cbn [memberAccount set_dbEgressStore set_s3]. rewrite Hacct. reflexivity.
    + reflexivity.
    + reflexivity.
Qed.

Lemma terminateEgressStore_partial_witness :
  terminateEgressStore alice "ws1"
    (withS3WriteError outage (worldWith (sampleInfo "PROCESSED" false 2))) =
    (Thrown (Boom badRequest "Error in deleting egress store:egress-store in bucket: ws1/"),
     withS3WriteError outage (worldWith (sampleInfo "PROCESSED" false 2)))
  /\ exists w',
       terminateEgressStore alice "ws1"
         (withMemberAccount (fun _ => inl outage) (worldWith (sampleInfo "PROCESSED" false 2)))
       = (Thrown outage, w')
       /\ map EgressStoreInfo.status (dbEgressStore w') = ["TERMINATED"]
       /\ bucketPolicy w' = [].
Proof.
  split.
  - destruct (terminateEgressStore_partial alice "ws1"
                (withS3WriteError outage (worldWith (sampleInfo "PROCESSED" false 2)))
                (sampleInfo "PROCESSED" false 2)) as (H & _ & _).
    + reflexivity.
    + split; reflexivity.
    + right. reflexivity.
    + left. reflexivity.
    + apply (H outage). reflexivity.
  - destruct (terminateEgressStore_partial alice "ws1"
                (withMemberAccount (fun _ => inl outage)
                   (worldWith (sampleInfo "PROCESSED" false 2)))
                (sampleInfo "PROCESSED" false 2)) as (_ & _ & H).
    + reflexivity.
    + split; reflexivity.
    + right. reflexivity.
    + left. reflexivity.
    + destruct (H outage) as (w' & Hrun & Hdb & Hpol).
      * reflexivity.
      * apply not_elem_of_empty.
      * reflexivity.
      * reflexivity.
      * exists w'. split; [exact Hrun|]. split; [by rewrite Hdb | exact Hpol].
Defined.

(** ** Writing over a record *)

(** X6: [lockAndUpdate] writes only over an item that is in the table.  When
    there is none under the key, the call fails with the bad-request error
    "got updating error" and the table is as it was: no item is created; so
    for [enableEgressStoreSubmission] on a record that is not in the table.
    An error of the table other than the failed condition goes through as it
    is. *)
Theorem lockAndUpdate_failures lockId dbKey dbObject w :
  lockId ∉ heldLocks w ->
  (dbWriteError w = None -> hasKey dbKey (dbEgressStore w) = false ->
   lockAndUpdate lockId dbKey dbObject w = (Thrown (updateFailed dbKey), w))
  /\ (forall err, dbWriteError w = Some err ->
        errorCode err <> Some "ConditionalCheckFailedException" ->
        lockAndUpdate lockId dbKey dbObject w = (Thrown err, w))
  /\ (forall r, lockId = ddbLockId (EgressStoreInfo.id r) ->
        dbWriteError w = None -> hasKey (EgressStoreInfo.id r) (dbEgressStore w) = false ->
        enableEgressStoreSubmission r w = (Thrown (updateFailed (EgressStoreInfo.id r)), w)).
Proof.
  intros Hlock. split; [|split].
  - intros Hdb Hkey. unfold lockAndUpdate.
    rewrite tryWriteLockAndRun_free by exact Hlock.
    unfold runAndCatch, tryCatch. rewrite (update_exists_missing _ _ _ Hdb Hkey).
    reflexivity.
  - intros err Hdb Hcode. unfold lockAndUpdate.
    rewrite tryWriteLockAndRun_free by exact Hlock.
    unfold runAndCatch, tryCatch. rewrite (update_fails _ _ _ _ _ Hdb).
    rewrite bool_decide_eq_false_2 by exact Hcode. reflexivity.
  - intros r -> Hdb Hkey. unfold enableEgressStoreSubmission. cbv zeta.
    cbn [EgressStoreInfo.id]. unfold lockAndUpdate. unfold ddbLockId in Hlock.
    rewrite tryWriteLockAndRun_free by exact Hlock.
    unfold runAndCatch, tryCatch. rewrite (update_exists_missing _ _ _ Hdb Hkey).
    reflexivity.
Qed.

Lemma lockAndUpdate_failures_witness :
  enableEgressStoreSubmission (sampleInfo "PROCESSED" false 2) emptyWorld =
    (Thrown (updateFailed "ws1"), emptyWorld)
  /\ dbEgressStore emptyWorld = [].
Proof.
  split; [|reflexivity].
  destruct (lockAndUpdate_failures (ddbLockId "ws1") "ws1" (sampleInfo "PROCESSED" false 2)
              emptyWorld) as (_ & _ & H).
  - apply not_elem_of_empty.
  - apply (H (sampleInfo "PROCESSED" false 2)); reflexivity.
Defined.

(** ** A snapshot that cannot be taken *)

Lemma mapM_fails {A B : Type} (f : A -> Async B) l w :
  (forall a, snd (f a w) = w) ->
  (exists a e, a ∈ l /\ fst (f a w) = Thrown e) ->
  exists e, mapM f l w = (Thrown e, w).
Proof.
  intros Hread. induction l as [|x l IH]; intros (a & e & Hin & Hfail).
  - by apply elem_of_nil in Hin.
  - cbn [mapM]. specialize (Hread x) as Hx.
    destruct (f x w) as [[y|e'] w1] eqn:Hfx; cbn in Hx; subst w1.
    + rewrite (bind_ok _ _ _ _ _ Hfx).
      apply elem_of_cons in Hin as [->|Hin].
      * rewrite Hfx in Hfail. discriminate Hfail.
      * destruct IH as [e'' He'']; [eauto|]. exists e''. by apply bind_err.
    + exists e'. by apply bind_err.
Qed.

Lemma listAllObjects_fails bucketName path w err :
  s3ListError w = Some err -> listAllObjects bucketName path w = (Thrown err, w).
Proof.
  intros H. unfold listAllObjects. apply bind_err. unfold failWith. by rewrite H.
Qed.

(** The snapshot fails, with one error and without a write, when the objects
    cannot be listed, when the version of one of them is not known, and when
    the manifest cannot be put. *)
Lemma prepareEgressStoreSnapshot_fails w r :
  (exists err, s3ListError w = Some err)
  \/ (s3ListError w = None /\
      exists o err, o ∈ listing w r /\
        latestVersion w (EgressStoreInfo.s3BucketName r) (S3Object.Key o) = inl err)
  \/ (s3ListError w = None /\ versionsKnown w r /\ exists err, s3WriteError w = Some err) ->
  prepareEgressStoreSnapshot r w = (Thrown (snapshotFailed w r), w).
Proof.
  intros Hcases. unfold prepareEgressStoreSnapshot.
  rewrite (bind_ok get _ w w w eq_refl). cbv zeta.
  apply bind_err. unfold tryCatch.
  destruct Hcases as [[err Hlist] | [[Hlist (o & err & Ho & Hver)] | [Hlist [Hknown [err Hput]]]]].
  - rewrite (bind_err _ _ _ _ _ (listAllObjects_fails _ _ _ _ Hlist)). reflexivity.
  - rewrite (bind_ok _ _ _ _ _ (listAllObjects_ok _ _ Hlist)).
    match goal with
    | |- context [mapM ?f (listing w r)] =>
        destruct (mapM_fails f (listing w r) w) as [e He]
    end.
    + intros a. unfold getLatestObjectVersion. async_unfold.
      destruct (latestVersion w (EgressStoreInfo.s3BucketName r) (S3Object.Key a));
        reflexivity.
    + exists o, err. split; [exact Ho|].
      unfold getLatestObjectVersion. async_unfold. by rewrite Hver.
    + rewrite (bind_err _ _ _ _ _ He). reflexivity.
  - rewrite (bind_ok _ _ _ _ _ (listAllObjects_ok _ _ Hlist)).
    match goal with
    | |- context [mapM ?f (listing w r)] =>
        destruct (mapM_reads f (listing w r) w) as (objects & Hobjects & _)
    end.
    + intros o Ho. destruct (Hknown o Ho) as [v Hv]. eexists.
      unfold getLatestObjectVersion. async_unfold. rewrite Hv. reflexivity.
    + rewrite (bind_ok _ _ _ _ _ Hobjects). unfold putObject.
      rewrite (bind_err _ _ w err w); [reflexivity|].
      unfold failWith. by rewrite Hput.
Qed.

(** X7: a submit whose snapshot cannot be taken (the objects cannot be
    listed, or the version of one of them is not known, or the manifest
    cannot be put) fails with the bad-request error "Error in preparing
    EgressStoreSnapshot", whatever the error underneath, and the world is as
    it was: the record keeps its status, its version and its readiness, and
    nothing is published. *)
Theorem notifySNS_snapshot_fails requestContext environmentId w r :
  featureEnabled w ->
  hasRecord w environmentId r ->
  EgressStoreInfo.isAbleToSubmitEgressRequest r = true ->
  adminOrOwner requestContext r ->
  (exists err, s3ListError w = Some err)
  \/ (s3ListError w = None /\
      exists o err, o ∈ listing w r /\
        latestVersion w (EgressStoreInfo.s3BucketName r) (S3Object.Key o) = inl err)
  \/ (s3ListError w = None /\ versionsKnown w r /\ exists err, s3WriteError w = Some err) ->
  notifySNS requestContext environmentId w = (Thrown (snapshotFailed w r), w).
Proof.
  intros Hen Hrec Hable Hauth Hcases. red in Hen. unfold notifySNS.
  rewrite (bind_ok get _ w w w eq_refl). cbv zeta. rewrite Hen.
  rewrite (bind_ok _ _ _ _ _ (throwIf_false _ _)).
  rewrite (bind_ok _ _ _ _ _ (getEgressStoreInfo_found _ _ _ Hrec)).
  rewrite Hable. cbn [negb].
  rewrite (bind_ok _ _ _ _ _ (throwIf_false _ _)).
  rewrite (adminOrOwner_passes _ _ Hauth).
  rewrite (bind_ok _ _ _ _ _ (throwIf_false _ _)).
  apply bind_err. by apply prepareEgressStoreSnapshot_fails.
Qed.

Lemma notifySNS_snapshot_fails_witness :
  notifySNS alice "ws1" (unknownVersionWorld (sampleInfo "CREATED" true 0)) =
    (Thrown (Boom badRequest
       "Error in preparing EgressStoreSnapshot, bucket:egress-notification, key: ws1/study-egress-store-ver1.json"),
     unknownVersionWorld (sampleInfo "CREATED" true 0)).
Proof.
  apply (notifySNS_snapshot_fails alice "ws1" (unknownVersionWorld (sampleInfo "CREATED" true 0))
           (sampleInfo "CREATED" true 0)).
  - reflexivity.
  - split; reflexivity.
  - reflexivity.
  - right. reflexivity.
  - right. left. split; [reflexivity|].
    exists {| S3Object.Key := "ws1/b.csv"; S3Object.Size := 1536%N;
              S3Object.LastModified := 20 |}, outage.
    split; [|reflexivity].
    apply list_elem_of_In. vm_compute. right. left. reflexivity.
Defined.

(** ** What the operations leave alone *)

Ltac service_unfold :=
  unfold createEgressStore, terminateEgressStore, getEgressStore, notifySNS,
    enableEgressStoreSubmission, prepareEgressStoreSnapshot, lockAndUpdate,
    addEgressStoreBucketPolicy, removeEgressStoreBucketPolicy, getS3BucketAndPolicy,
    getEgressStoreInfo, getKmsKeyIdArn, getMemberAccountId, publishMessage, audit,
    updateS3BucketPolicy, getBucketPolicy, putBucketPolicy, scan, clearPath,
    listAllObjects, getLatestObjectVersion, putObject, uuid_v4, newDate.

Lemma update_preserves {F : Type} (proj : World -> F) c key item :
  (forall v w, proj (set_dbEgressStore v w) = proj w) ->
  preserves proj (update c key item).
Proof.
  intros H. unfold update. preserves_tac. apply preserves_modify. intros w. apply H.
Qed.

(** A write over an item creates none. *)
Lemma update_exists_length key item :
  preserves (fun w => length (dbEgressStore w)) (update attribute_exists_id key item).
Proof.
  intros w. unfold update, bind, failWith, get, modify, throw.
  destruct (dbWriteError w); [reflexivity|]. cbv zeta. unfold putItem.
  destruct (hasKey key (dbEgressStore w)); cbn; [|reflexivity].
  apply length_map.
Qed.

Ltac service_preserves :=
  service_unfold; preserves_tac;
  try (apply createPath_preserves; intros; reflexivity);
  try (apply update_preserves; intros; reflexivity);
  try apply update_exists_length.

(** X8: a listing and a lookup write nothing: whatever they return or throw,
    the world after the call is the world before it. *)
Theorem reads_write_nothing floorLog1024 requestContext environmentId w :
  snd (getEgressStore floorLog1024 requestContext environmentId w) = w
  /\ snd (getEgressStoreInfo environmentId w) = w.
Proof.
  split.
  - revert w.
    change (preserves (fun w => w)
              (getEgressStore floorLog1024 requestContext environmentId)).
    service_preserves.
  - apply getEgressStoreInfo_reads.
Qed.

(** X9: what the writing operations never touch, whether they return or
    throw.  A submit leaves the policy document as it is.  A create and a
    terminate publish no message and make no [putObject] request.  A
    terminate, a submit and [enableEgressStoreSubmission] create no item:
    the table keeps its length. *)
Theorem writes_stay_in_their_lane requestContext environment environmentId r w :
  bucketPolicy (snd (notifySNS requestContext environmentId w)) = bucketPolicy w
  /\ published (snd (createEgressStore requestContext environment w)) = published w
  /\ putObjects (snd (createEgressStore requestContext environment w)) = putObjects w
  /\ published (snd (terminateEgressStore requestContext environmentId w)) = published w
  /\ putObjects (snd (terminateEgressStore requestContext environmentId w)) = putObjects w
  /\ length (dbEgressStore (snd (terminateEgressStore requestContext environmentId w)))
     = length (dbEgressStore w)
  /\ length (dbEgressStore (snd (notifySNS requestContext environmentId w)))
     = length (dbEgressStore w)
  /\ length (dbEgressStore (snd (enableEgressStoreSubmission r w)))
     = length (dbEgressStore w).
Proof.
  repeat split.
  - revert w. change (preserves bucketPolicy (notifySNS requestContext environmentId)).
    service_preserves.
  - revert w. change (preserves published (createEgressStore requestContext environment)).
    service_preserves.
  - revert w. change (preserves putObjects (createEgressStore requestContext environment)).
    service_preserves.
  - revert w. change (preserves published (terminateEgressStore requestContext environmentId)).
    service_preserves.
  - revert w. change (preserves putObjects (terminateEgressStore requestContext environmentId)).
    service_preserves.
  - revert w.
    change (preserves (fun w => length (dbEgressStore w))
              (terminateEgressStore requestContext environmentId)).
    service_preserves.
  - revert w.
    change (preserves (fun w => length (dbEgressStore w))
              (notifySNS requestContext environmentId)).
    service_preserves.
  - revert w.
    change (preserves (fun w => length (dbEgressStore w)) (enableEgressStoreSubmission r)).
    service_preserves.
Qed.

(** ** A create that goes through *)

Lemma set_s3_same w : set_s3 (s3 w) w = w.
Proof. by destruct w. Qed.

(** The unawaited [createPath] returns, and changes the objects at most. *)
Lemma unawaited_createPath bucketName folderName w :
  exists v, unawaited (createPath bucketName folderName) w = (Returned tt, set_s3 v w).
Proof.
  unfold unawaited, tryCatch, createPath, ret.
  destruct (s3WriteError w).
  - exists (s3 w). by rewrite set_s3_same.
  - destruct (existsb _ _).
    + exists (s3 w). by rewrite set_s3_same.
    + eexists. reflexivity.
Qed.

(** The statement found under the id of a description, once the document is
    revised for that description. *)
Lemma findStatement_revised doc params upd p :
  (forall st, Sid (upd st) = Sid st) ->
  (forall st, hasPrincipals (upd st) = true) ->
  List.NoDup (map statementId params) ->
  p ∈ params ->
  findStatement (statementId p) (reviseS3Policy doc (revisedFor doc params upd)) =
    Some (upd (oldStatementFor doc p)).
Proof.
  intros Hupd Hhas Hnd Hin. unfold reviseS3Policy.
  rewrite findStatement_app, findStatement_absent.
  - rewrite forallb_filter_id.
    + by apply findStatement_revisedFor.
    + apply forallb_forall. intros st Hst. unfold revisedFor in Hst.
      apply in_map_iff in Hst as (q & <- & _). apply Hhas.
  - intros Hsid. apply list_elem_of_In, in_map_iff in Hsid as (st & Hst & Hmem).
    apply filter_In in Hmem as [_ Hrev].
    rewrite isRevised_revisedFor in Hrev by assumption.
    rewrite bool_decide_eq_true_2 in Hrev; [discriminate|].
    rewrite Hst. apply list_elem_of_In, in_map. by apply list_elem_of_In.
Qed.

(** After a grant for a store that reads and writes, each of the three
    statements of the store is in the document and lists the account. *)
Lemma grantedPolicy_lists doc egressStore s3BucketName account sid :
  EgressStore.envPermissionRead egressStore = true ->
  EgressStore.envPermissionWrite egressStore = true ->
  sid ∈ storeSids egressStore ->
  exists st,
    findStatement sid (grantedPolicy doc egressStore s3BucketName account) = Some st
    /\ Sid st = sid /\ account ∈ Principal st.
Proof.
  intros Hr Hw Hsid.
  assert (Hparams : grantParams egressStore s3BucketName =
                    revokeParams egressStore s3BucketName).
  { unfold grantParams, revokeParams. by rewrite Hr, Hw. }
  rewrite <- (revokeParams_Sids egressStore s3BucketName) in Hsid.
  apply list_elem_of_In, in_map_iff in Hsid as (p & <- & Hp).
  eexists. split; [|split].
  - unfold grantedPolicy. rewrite Hparams. apply findStatement_revised.
    + done.
    + intros st. apply hasPrincipals_addAccountToStatement.
    + apply revokeParams_NoDup.
    + by apply list_elem_of_In.
  - cbn. apply Sid_oldStatementFor.
  - cbn. apply elem_of_union. right. by apply elem_of_singleton.
Qed.

(** A grant leaves the statements of other stores as they are, in their
    order. *)
Lemma grantedPolicy_others doc egressStore s3BucketName account :
  List.filter (fun st => negb (ofStore egressStore st))
              (grantedPolicy doc egressStore s3BucketName account)
  = List.filter (fun st => negb (ofStore egressStore st)) doc.
Proof.
  unfold grantedPolicy, reviseS3Policy. rewrite List.filter_app.
  rewrite (filter_nothing _ (List.filter hasPrincipals _)).
  - rewrite app_nil_r. apply filter_filter_weaker. intros st Hst.
    rewrite isRevised_revisedFor by done.
    apply negb_true_iff, bool_decide_eq_false_2. intros Hin.
    apply grantParams_Sids in Hin. rewrite revokeParams_Sids in Hin.
    apply negb_true_iff, bool_decide_eq_false_1 in Hst. by apply Hst.
  - intros st Hst. apply filter_In in Hst as [Hst _].
    unfold revisedFor in Hst. apply in_map_iff in Hst as (q & <- & Hq).
    apply negb_false_iff, bool_decide_eq_true_2.
    rewrite Sid_addAccountToStatement, Sid_oldStatementFor.
    rewrite <- (revokeParams_Sids egressStore s3BucketName).
    apply grantParams_Sids, list_elem_of_In, in_map, Hq.
Qed.

(** A create that goes through: what it returns and what it has written. *)
Lemma createEgressStore_created requestContext environment w kmsArn account :
  canCreate w environment kmsArn account ->
  let bucketName := egressStoreBucketName (settings w) in
  let store := createdStore environment bucketName kmsArn in
  exists v,
    createEgressStore requestContext environment w =
      (Returned store,
       set_auditLog
         (auditLog w ++
          [ {| action := "add-egress-store-to-bucket-policy";
               body := AuditPolicy (grantedPolicy (bucketPolicy w) store bucketName account) |} ])
         (set_bucketPolicy (grantedPolicy (bucketPolicy w) store bucketName account)
            (set_dbEgressStore
               (dbEgressStore w ++ [createdInfo requestContext environment bucketName])
               (set_s3 v w)))).
Proof.
  intros (Hen & Hval & Hlock1 & Hdb & Hkey & Hkms & Hacct & Hlock2 & Hget & Hput).
  intros bucketName store. red in Hen. unfold ddbLockId, bucketPolicyLockId in *.
  destruct (unawaited_createPath bucketName (Environment.id environment +:+ "/") w)
    as [v Hpath].
  exists v. unfold createEgressStore.
  rewrite (bind_ok get _ w w w eq_refl). cbv zeta. rewrite Hen.
  rewrite (bind_ok _ _ _ _ _ (throwIf_false _ _)).
  rewrite (bind_ok _ _ _ _ _ (failWith_ok _ _ Hval)).
  rewrite (bind_ok _ _ _ _ _ Hpath).
  erewrite (bind_ok (tryWriteLockAndRun _ _) _ (set_s3 v w)).
  2:{ apply tryWriteLockAndRun_ok; [exact Hlock1|]. apply runAndCatch_ok.
      unfold update. rewrite (bind_ok _ _ _ _ _ (failWith_ok _ (set_s3 v w) Hdb)).
      unfold bind, get. cbv zeta. cbn [dbEgressStore set_s3]. rewrite Hkey. cbn [negb].
      unfold putItem. rewrite Hkey. reflexivity. }
  erewrite (bind_ok getKmsKeyIdArn).
  2:{ unfold getKmsKeyIdArn, bind, get. cbn [kmsKeyArn settings set_dbEgressStore set_s3].
      rewrite Hkms. reflexivity. }
  rewrite (bind_ok _ _ _ _ _
             (getMemberAccountId_ok _ _ (set_dbEgressStore _ (set_s3 v w)) _ Hacct)).
  rewrite (bind_ok _ _ _ _ _
             (tryWriteLockAndRun_ok _ _ (set_dbEgressStore _ (set_s3 v w)) _ _ Hlock2
                (addEgressStoreBucketPolicy_ok _ _ _
                   (set_dbEgressStore _ (set_s3 v w)) Hget Hput))).
  reflexivity.
Qed.

(** X10: a create, when its collaborators answer and the table holds no item
    under the id of the environment, returns the descriptor of the store and
    has appended one record to the table: status CREATED, version 0, not
    ready, under the id of the environment as its id and as its workspace.
    The policy document is the granted one: each of the three statements of
    the store is in it, once under its id, and lists the account of the
    workspace; the statements of other stores are as they were. *)
Theorem createEgressStore_creates requestContext environment w kmsArn account :
  canCreate w environment kmsArn account ->
  let bucketName := egressStoreBucketName (settings w) in
  let store := createdStore environment bucketName kmsArn in
  let item := createdInfo requestContext environment bucketName in
  exists w',
    createEgressStore requestContext environment w = (Returned store, w')
    /\ dbEgressStore w' = dbEgressStore w ++ [item]
    /\ bucketPolicy w' = grantedPolicy (bucketPolicy w) store bucketName account
    /\ (forall sid, sid ∈ storeSids store ->
          exists st, findStatement sid (bucketPolicy w') = Some st
                     /\ Sid st = sid /\ account ∈ Principal st)
    /\ List.filter (fun st => negb (ofStore store st)) (bucketPolicy w')
       = List.filter (fun st => negb (ofStore store st)) (bucketPolicy w)
    /\ published w' = published w.
Proof.
  intros Hcan bucketName store item.
  destruct (createEgressStore_created requestContext environment w kmsArn account Hcan)
    as [v Hrun].
  eexists. split; [exact Hrun|].
  cbn [dbEgressStore bucketPolicy published set_auditLog set_bucketPolicy set_dbEgressStore
       set_s3].
  repeat split.
  - intros sid Hsid. by apply grantedPolicy_lists.
  - apply grantedPolicy_others.
Qed.

Lemma createEgressStore_creates_witness :
  exists w',
    createEgressStore alice ws1 emptyWorld = (Returned sampleStore, w')
    /\ dbEgressStore w' = [sampleInfo "CREATED" false 0]
    /\ map Sid (bucketPolicy w') = ["Get:ws1/"; "Put:ws1/"; "List:ws1/"].
Proof.
  destruct (createEgressStore_creates alice ws1 emptyWorld "arn:aws:kms:key/1" "111122223333")
    as (w' & Hrun & Hdb & Hpol & _).
  - repeat split; try reflexivity; apply not_elem_of_empty.
  - exists w'. split; [exact Hrun|]. split; [exact Hdb|]. rewrite Hpol. reflexivity.
Defined.

(** X11: a create and a lookup compose: after a create that went through,
    on a table of fewer than 1000 items that held no record for the
    workspace, the lookup of the workspace returns the record the create
    wrote, and the lookup of any other workspace keeps the records it had. *)
Theorem createEgressStore_then_lookup requestContext environment w kmsArn account :
  canCreate w environment kmsArn account ->
  scanError w = None ->
  recordsOf w (Environment.id environment) = [] ->
  (length (dbEgressStore w) < 1000)%nat ->
  exists store w',
    createEgressStore requestContext environment w = (Returned store, w')
    /\ getEgressStoreInfo (Environment.id environment) w' =
         (Returned (Some (createdInfo requestContext environment
                            (egressStoreBucketName (settings w)))), w')
    /\ forall other, other <> Environment.id environment ->
         recordsOf w' other = recordsOf w other.
Proof.
  intros Hcan Hscan Hnone Hlen.
  destruct (createEgressStore_created requestContext environment w kmsArn account Hcan)
    as [v Hrun].
  eexists; eexists. split; [exact Hrun|].
  assert (Hrecords : forall e,
            recordsOf
              (set_auditLog
                 (auditLog w ++
                  [ {| action := "add-egress-store-to-bucket-policy";
                       body := AuditPolicy
                                 (grantedPolicy (bucketPolicy w)
                                    (createdStore environment
                                       (egressStoreBucketName (settings w)) kmsArn)
                                    (egressStoreBucketName (settings w)) account) |} ])
                 (set_bucketPolicy
                    (grantedPolicy (bucketPolicy w)
                       (createdStore environment (egressStoreBucketName (settings w)) kmsArn)
                       (egressStoreBucketName (settings w)) account)
                    (set_dbEgressStore
                       (dbEgressStore w ++
                        [createdInfo requestContext environment
                           (egressStoreBucketName (settings w))])
                       (set_s3 v w)))) e
            = recordsOf w e ++
              (if bool_decide (Environment.id environment = e)
               then [createdInfo requestContext environment
                       (egressStoreBucketName (settings w))]
               else [])).
  { intros e. unfold recordsOf.
    cbn [dbEgressStore set_auditLog set_bucketPolicy set_dbEgressStore set_s3].
    rewrite take_ge by (rewrite length_app; cbn; lia).
    rewrite (take_ge (dbEgressStore w)) by lia.
    rewrite List.filter_app. reflexivity. }
  split.
  - apply getEgressStoreInfo_found. split; [exact Hscan|].
    rewrite Hrecords, Hnone. by rewrite bool_decide_eq_true_2.
  - intros other Hother. rewrite Hrecords.
    rewrite bool_decide_eq_false_2 by congruence. apply app_nil_r.
Qed.

Lemma createEgressStore_then_lookup_witness :
  exists store w',
    createEgressStore alice ws1 emptyWorld = (Returned store, w')
    /\ getEgressStoreInfo "ws1" w' = (Returned (Some (sampleInfo "CREATED" false 0)), w').
Proof.
  destruct (createEgressStore_then_lookup alice ws1 emptyWorld
              "arn:aws:kms:key/1" "111122223333")
    as (store & w' & Hrun & Hlookup & _).
  - repeat split; try reflexivity; apply not_elem_of_empty.
  - reflexivity.
  - reflexivity.
  - cbn. lia.
  - exists store, w'. split; [exact Hrun | exact Hlookup].
Defined.

(** X12: a create writes the record before it asks for the account of the
    workspace and takes nothing back.  When the account is not found, the
    error goes through: the record is in the table and the policy document
    grants nothing more than before; a create for the same environment then
    fails with "already exists", so that no create makes the grant that was
    missed. *)
Theorem createEgressStore_grant_missed requestContext environment w kmsArn err :
  featureEnabled w ->
  validationError w environment = None ->
  ddbLockId (Environment.id environment) ∉ heldLocks w ->
  dbWriteError w = None ->
  hasKey (Environment.id environment) (dbEgressStore w) = false ->
  kmsKeyArn w (egressStoreKmsKeyAliasArn (settings w)) = inr kmsArn ->
  memberAccount w (Environment.id environment) = inl err ->
  exists w',
    createEgressStore requestContext environment w = (Thrown err, w')
    /\ dbEgressStore w' =
         dbEgressStore w ++
         [createdInfo requestContext environment (egressStoreBucketName (settings w))]
    /\ bucketPolicy w' = bucketPolicy w
    /\ exists w'',
         createEgressStore requestContext environment w' =
           (Thrown (alreadyExists environment), w'')
         /\ dbEgressStore w'' = dbEgressStore w'.
Proof.
  intros Hen Hval Hlock1 Hdb Hkey Hkms Hacct.
  destruct (unawaited_createPath (egressStoreBucketName (settings w))
              (Environment.id environment +:+ "/") w) as [v Hpath].
  exists (set_dbEgressStore
            (dbEgressStore w ++
             [createdInfo requestContext environment (egressStoreBucketName (settings w))])
            (set_s3 v w)).
  split; [|split; [reflexivity | split; [reflexivity|]]].
  - red in Hen. unfold ddbLockId in Hlock1. unfold createEgressStore.
    rewrite (bind_ok get _ w w w eq_refl). cbv zeta. rewrite Hen.
    rewrite (bind_ok _ _ _ _ _ (throwIf_false _ _)).
    rewrite (bind_ok _ _ _ _ _ (failWith_ok _ _ Hval)).
    rewrite (bind_ok _ _ _ _ _ Hpath).
    erewrite (bind_ok (tryWriteLockAndRun _ _) _ (set_s3 v w)).
    2:{ apply tryWriteLockAndRun_ok; [exact Hlock1|]. apply runAndCatch_ok.
        unfold update. rewrite (bind_ok _ _ _ _ _ (failWith_ok _ (set_s3 v w) Hdb)).
        unfold bind, get. cbv zeta. cbn [dbEgressStore set_s3]. rewrite Hkey. cbn [negb].
        unfold putItem. rewrite Hkey. reflexivity. }
    erewrite (bind_ok getKmsKeyIdArn).
    2:{ unfold getKmsKeyIdArn, bind, get. cbn [kmsKeyArn settings set_dbEgressStore set_s3].
        rewrite Hkms. reflexivity. }
    apply bind_err. unfold getMemberAccountId, bind, get.
    cbn [memberAccount set_dbEgressStore set_s3]. rewrite Hacct. reflexivity.
  - apply createEgressStore_clash; try assumption.
    cbn [dbEgressStore set_dbEgressStore].
    apply (hasKey_elem _ _
             (createdInfo requestContext environment (egressStoreBucketName (settings w))));
      [|reflexivity].
    apply elem_of_app. right. by apply list_elem_of_singleton.
Qed.

Lemma createEgressStore_grant_missed_witness :
  exists w',
    createEgressStore alice ws1 (withMemberAccount (fun _ => inl outage) emptyWorld) =
      (Thrown outage, w')
    /\ dbEgressStore w' = [sampleInfo "CREATED" false 0]
    /\ bucketPolicy w' = []
    /\ exists w'',
         createEgressStore alice ws1 w' = (Thrown (alreadyExists ws1), w'')
         /\ dbEgressStore w'' = dbEgressStore w'.
Proof.
  apply (createEgressStore_grant_missed alice ws1
           (withMemberAccount (fun _ => inl outage) emptyWorld) "arn:aws:kms:key/1" outage).
  - reflexivity.
  - reflexivity.
  - apply not_elem_of_empty.
  - reflexivity.
  - reflexivity.
  - reflexivity.
  - reflexivity.
Defined.

(** ** The table stays well keyed *)

Lemma NoDup_id_unique (table : list EgressStoreInfo.t) a b :
  List.NoDup (map EgressStoreInfo.id table) ->
  a ∈ table -> b ∈ table -> EgressStoreInfo.id a = EgressStoreInfo.id b -> a = b.
Proof.
  induction table as [|x l IH]; intros Hnd Ha Hb Hid; [by apply elem_of_nil in Ha|].
  cbn in Hnd. inversion Hnd as [|? ? Hx Hnd']; subst.
  apply elem_of_cons in Ha as [->|Ha]; apply elem_of_cons in Hb as [->|Hb].
  - reflexivity.
  - exfalso. apply Hx. rewrite Hid. apply in_map. by apply list_elem_of_In.
  - exfalso. apply Hx. rewrite <- Hid. apply in_map. by apply list_elem_of_In.
  - by apply IH.
Qed.

Lemma map_id_replaced r r' table :
  EgressStoreInfo.id r' = EgressStoreInfo.id r ->
  map EgressStoreInfo.id (replaced r r' table) = map EgressStoreInfo.id table.
Proof.
  intros Hid. unfold replaced. rewrite map_map. apply map_ext.
  intros i. case_bool_decide; congruence.
Qed.

Lemma wellKeyed_replaced r r' table :
  wellKeyed table -> r ∈ table ->
  EgressStoreInfo.id r' = EgressStoreInfo.id r ->
  EgressStoreInfo.workspaceId r' = EgressStoreInfo.workspaceId r ->
  wellKeyed (replaced r r' table).
Proof.
  intros [Hnd Hws] Hin Hid Hwsid. split.
  - by rewrite map_id_replaced.
  - unfold replaced. apply List.Forall_forall. intros i Hi.
    apply in_map_iff in Hi as (j & <- & Hj).
    rewrite List.Forall_forall in Hws.
    case_bool_decide; [|by apply Hws].
    rewrite Hwsid, Hid. apply Hws. by apply list_elem_of_In.
Qed.

Lemma hasKey_false key table :
  hasKey key table = false -> ~ In key (map EgressStoreInfo.id table).
Proof.
  intros Hkey Hin. apply in_map_iff in Hin as (i & Hi & Hmem).
  assert (hasKey key table = true); [|congruence].
  apply (hasKey_elem _ _ i); [by apply list_elem_of_In | exact Hi].
Qed.

Lemma wellKeyed_appended item table :
  wellKeyed table ->
  hasKey (EgressStoreInfo.id item) table = false ->
  EgressStoreInfo.workspaceId item = EgressStoreInfo.id item ->
  wellKeyed (table ++ [item]).
Proof.
  intros [Hnd Hws] Hkey Hwsid. split.
  - rewrite map_app. cbn. apply NoDup_ListNoDup, NoDup_app. repeat split.
    + by apply NoDup_ListNoDup.
    + intros x Hx Hx'. apply list_elem_of_singleton in Hx'. subst x.
      apply (hasKey_false _ _ Hkey). by apply list_elem_of_In.
    + apply NoDup_singleton.
  - apply Forall_app. split; [exact Hws|]. by constructor.
Qed.

(** What a lookup that returns a record says of the table. *)
Lemma getEgressStoreInfo_Some_inv environmentId w r w' :
  getEgressStoreInfo environmentId w = (Returned (Some r), w') ->
  w' = w /\ r ∈ dbEgressStore w /\ EgressStoreInfo.workspaceId r = environmentId.
Proof.
  intros H. pose proof (getEgressStoreInfo_reads environmentId w) as Hw.
  rewrite H in Hw. cbn in Hw. subst w'. split; [reflexivity|].
  revert H. unfold getEgressStoreInfo, scan; async_unfold.
  destruct (scanError w); [discriminate|]. cbv beta iota.
  destruct (List.filter _ _) as [|x [|y l]] eqn:Hf; intros H; inversion H; subst.
  apply (recordsOf_elem w). unfold recordsOf. exact Hf.
Qed.

(** The two ways of a write over an item: it throws and the world is as it
    was, or the item is there and is replaced. *)
Lemma lockAndUpdate_cases lockId r item w :
  (exists err, lockAndUpdate lockId (EgressStoreInfo.id r) item w = (Thrown err, w))
  \/ lockAndUpdate lockId (EgressStoreInfo.id r) item w =
       (Returned tt, set_dbEgressStore (replaced r item (dbEgressStore w)) w).
Proof.
  unfold lockAndUpdate, tryWriteLockAndRun, bind, get.
  case_bool_decide; [left; eexists; reflexivity|].
  unfold runAndCatch, tryCatch, update, bind, failWith, get.
  destruct (dbWriteError w) as [err|].
  - left. case_bool_decide; eexists; reflexivity.
  - cbv zeta. unfold putItem.
    destruct (hasKey (EgressStoreInfo.id r) (dbEgressStore w)).
    + right. reflexivity.
    + left. cbn. eexists. reflexivity.
Qed.

(** The table after a terminate: as it was, or with the record of the
    workspace replaced by a record of the same id and workspace. *)
Lemma terminateEgressStore_table requestContext environmentId w :
  let w' := snd (terminateEgressStore requestContext environmentId w) in
  dbEgressStore w' = dbEgressStore w
  \/ exists r r',
       r ∈ dbEgressStore w
       /\ EgressStoreInfo.id r' = EgressStoreInfo.id r
       /\ EgressStoreInfo.workspaceId r' = EgressStoreInfo.workspaceId r
       /\ dbEgressStore w' = replaced r r' (dbEgressStore w).
Proof.
  cbv zeta. unfold terminateEgressStore.
  rewrite (bind_ok get _ w w w eq_refl). cbv zeta.
  destruct (featureDisabled (enableEgressStore (settings w))); [by left|].
  rewrite (bind_ok _ _ _ _ _ (throwIf_false _ _)).
  destruct (getEgressStoreInfo environmentId w) as [[[r|]|err] w1] eqn:Hlook.
  - destruct (getEgressStoreInfo_Some_inv _ _ _ _ Hlook) as (-> & Hin & _).
    rewrite (bind_ok _ _ _ _ _ Hlook).
    destruct (negb (isAdmin requestContext) && _); [left; reflexivity|].
    rewrite (bind_ok _ _ _ _ _ (throwIf_false _ _)).
    destruct (bool_decide (toUpperCase (EgressStoreInfo.status r) = PROCESSING_STATUS_CODE));
      [left; reflexivity|].
    destruct (bool_decide (toUpperCase (EgressStoreInfo.status r) = PROCESSED_STATUS_CODE) || _);
      [|left; reflexivity].
    destruct (s3WriteError w) as [err|] eqn:Hs3.
    { rewrite (bind_err _ _ _ (deleteFailed r) w); [left; reflexivity|].
      unfold tryCatch. rewrite (clearPath_fails _ _ _ _ Hs3). reflexivity. }
    rewrite (bind_ok _ _ _ _ _ (tryCatch_ok _ _ _ _ _ (clearPath_ok _ _ _ Hs3))).
    rewrite (bind_ok newDate _ _ _ _ eq_refl).
    cbn [EgressStoreInfo.id EgressStoreInfo.s3BucketName EgressStoreInfo.s3BucketPath
         EgressStoreInfo.createdBy EgressStoreInfo.projectId now set_s3].
    match goal with
    | |- context [bind (lockAndUpdate ?l _ ?i) _ ?W] =>
        destruct (lockAndUpdate_cases l r i W) as [[err Herr]|Hok]
    end.
    + rewrite (bind_err _ _ _ _ _ Herr). left. reflexivity.
    + rewrite (bind_ok _ _ _ _ _ Hok). right.
      match type of Hok with
      | lockAndUpdate _ _ ?i _ = _ => exists r, i
      end.
      split; [exact Hin|]. split; [reflexivity|]. split; [reflexivity|].
      match goal with
      | |- dbEgressStore (snd (?m ?W)) = _ =>
          assert (Hp : preserves dbEgressStore m) by service_preserves;
          rewrite (Hp W)
      end.
      reflexivity.
  - pose proof (getEgressStoreInfo_reads environmentId w) as Hw.
    rewrite Hlook in Hw. cbn in Hw. subst w1.
    rewrite (bind_ok _ _ _ _ _ Hlook). by left.
  - rewrite (bind_err _ _ _ _ _ Hlook).
    pose proof (getEgressStoreInfo_reads environmentId w) as Hw.
    rewrite Hlook in Hw. cbn in Hw. subst w1. by left.
Qed.

(** The table after a submit: as it was, or with the record of the workspace
    replaced by a record of the same id and workspace. *)
Lemma notifySNS_table requestContext environmentId w :
  let w' := snd (notifySNS requestContext environmentId w) in
  dbEgressStore w' = dbEgressStore w
  \/ exists r r',
       r ∈ dbEgressStore w
       /\ EgressStoreInfo.id r' = EgressStoreInfo.id r
       /\ EgressStoreInfo.workspaceId r' = EgressStoreInfo.workspaceId r
       /\ dbEgressStore w' = replaced r r' (dbEgressStore w).
Proof.
  cbv zeta. unfold notifySNS.
  rewrite (bind_ok get _ w w w eq_refl). cbv zeta.
  destruct (featureDisabled (enableEgressStore (settings w))); [by left|].
  rewrite (bind_ok _ _ _ _ _ (throwIf_false _ _)).
  destruct (getEgressStoreInfo environmentId w) as [[[r|]|err] w1] eqn:Hlook.
  - destruct (getEgressStoreInfo_Some_inv _ _ _ _ Hlook) as (-> & Hin & _).
    rewrite (bind_ok _ _ _ _ _ Hlook).
    destruct (negb (EgressStoreInfo.isAbleToSubmitEgressRequest r)); [left; reflexivity|].
    rewrite (bind_ok _ _ _ _ _ (throwIf_false _ _)).
    destruct (negb (isAdmin requestContext) && _); [left; reflexivity|].
    rewrite (bind_ok _ _ _ _ _ (throwIf_false _ _)).
    assert (Hsnap : preserves dbEgressStore (prepareEgressStoreSnapshot r))
      by service_preserves.
    specialize (Hsnap w).
    destruct (prepareEgressStoreSnapshot r w) as [[location|err] w1] eqn:Hprep;
      cbn [snd] in Hsnap.
    2:{ rewrite (bind_err _ _ _ _ _ Hprep). left. exact Hsnap. }
    rewrite (bind_ok _ _ _ _ _ Hprep).
    rewrite (bind_ok newDate _ _ _ _ eq_refl).
    cbn [EgressStoreInfo.id].
    match goal with
    | |- context [bind (lockAndUpdate ?l _ ?i) _ ?W] =>
        destruct (lockAndUpdate_cases l r i W) as [[err Herr]|Hok]
    end.
    + rewrite (bind_err _ _ _ _ _ Herr). left. exact Hsnap.
    + rewrite (bind_ok _ _ _ _ _ Hok). right.
      match type of Hok with
      | lockAndUpdate _ _ ?i _ = _ => exists r, i
      end.
      split; [exact Hin|]. split; [reflexivity|]. split; [reflexivity|].
      match goal with
      | |- dbEgressStore (snd (?m ?W)) = _ =>
          assert (Hp : preserves dbEgressStore m) by service_preserves;
          rewrite (Hp W)
      end.
      cbn [dbEgressStore set_dbEgressStore]. by rewrite Hsnap.
  - pose proof (getEgressStoreInfo_reads environmentId w) as Hw.
    rewrite Hlook in Hw. cbn in Hw. subst w1.
    rewrite (bind_ok _ _ _ _ _ Hlook). by left.
  - rewrite (bind_err _ _ _ _ _ Hlook).
    pose proof (getEgressStoreInfo_reads environmentId w) as Hw.
    rewrite Hlook in Hw. cbn in Hw. subst w1. by left.
Qed.

(** A write under a lock that throws has written nothing. *)
Lemma conditional_write_thrown lockId c key item e0 w err w1 :
  tryWriteLockAndRun lockId
    (runAndCatch (update c key item) (fun _ => throw e0)) w = (Thrown err, w1) ->
  w1 = w.
Proof.
  unfold tryWriteLockAndRun, bind, get. case_bool_decide.
  { intros Hw. by inversion Hw. }
  unfold runAndCatch, tryCatch, update, bind, failWith, get, modify, throw.
  destruct (dbWriteError w).
  { case_bool_decide; intros Hw; by inversion Hw. }
  cbv zeta. destruct c; destruct (hasKey key (dbEgressStore w)); cbn;
    intros Hw; by inversion Hw.
Qed.

(** The table after a create: as it was, or with one record more, under an
    id that no item had, which is the id of its workspace. *)
Lemma createEgressStore_table requestContext environment w :
  let w' := snd (createEgressStore requestContext environment w) in
  dbEgressStore w' = dbEgressStore w
  \/ exists item,
       hasKey (EgressStoreInfo.id item) (dbEgressStore w) = false
       /\ EgressStoreInfo.workspaceId item = EgressStoreInfo.id item
       /\ dbEgressStore w' = dbEgressStore w ++ [item].
Proof.
  cbv zeta. unfold createEgressStore.
  rewrite (bind_ok get _ w w w eq_refl). cbv zeta.
  destruct (featureDisabled (enableEgressStore (settings w))); [by left|].
  rewrite (bind_ok _ _ _ _ _ (throwIf_false _ _)).
  destruct (validationError w environment) as [err|] eqn:Hval.
  { rewrite (bind_err _ _ _ err w); [by left|]. unfold failWith. by rewrite Hval. }
  rewrite (bind_ok _ _ _ _ _ (failWith_ok _ _ Hval)).
  destruct (unawaited_createPath (egressStoreBucketName (settings w))
              (Environment.id environment +:+ "/") w) as [v Hpath].
  rewrite (bind_ok _ _ _ _ _ Hpath).
  match goal with
  | |- context [bind (tryWriteLockAndRun ?l ?m) _ ?W] =>
      destruct (tryWriteLockAndRun l m W) as [[[]|err] w1] eqn:Hwrite
  end.
  - rewrite (bind_ok _ _ _ _ _ Hwrite).
    apply tryWriteLockAndRun_inv in Hwrite as [_ Hwrite].
    apply runAndCatch_inv, update_absent_inv in Hwrite as (_ & Hkey & ->).
    right.
    exists (createdInfo requestContext environment (egressStoreBucketName (settings w))).
    split; [exact Hkey|]. split; [reflexivity|].
    match goal with
    | |- dbEgressStore (snd (?m ?W)) = _ =>
        assert (Hp : preserves dbEgressStore m) by service_preserves;
        rewrite (Hp W)
    end.
    reflexivity.
  - rewrite (bind_err _ _ _ _ _ Hwrite).
    left. cbn [snd]. by apply conditional_write_thrown in Hwrite as ->.
Qed.

Lemma serve_static q w :
  scanError (serve q w) = scanError w /\ settings (serve q w) = settings w.
Proof.
  split; destruct q as [c env|c e|c e|c e]; cbn [serve];
    revert w;
    match goal with
    | |- forall w, ?proj (snd (?m w)) = ?proj w => change (preserves proj m)
    end; service_preserves.
Qed.

Lemma serve_wellKeyed q w :
  wellKeyed (dbEgressStore w) -> wellKeyed (dbEgressStore (serve q w)).
Proof.
  destruct q as [c env|c e|c e|c e]; intros Hwk; cbn [serve].
  - destruct (createEgressStore_table c env w) as [-> | (item & Hkey & Hws & ->)];
      [exact Hwk | by apply wellKeyed_appended].
  - destruct (terminateEgressStore_table c e w)
      as [-> | (r & r' & Hin & Hid & Hws & ->)];
      [exact Hwk | by apply wellKeyed_replaced].
  - destruct (notifySNS_table c e w) as [-> | (r & r' & Hin & Hid & Hws & ->)];
      [exact Hwk | by apply wellKeyed_replaced].
  - assert (Hp : preserves dbEgressStore (getEgressStore exactFloorLog1024 c e))
      by service_preserves.
    by rewrite Hp.
Qed.

Lemma serveAll_wellKeyed qs w :
  wellKeyed (dbEgressStore w) -> wellKeyed (dbEgressStore (serveAll qs w)).
Proof.
  unfold serveAll. revert w. induction qs as [|q qs IH]; intros w Hwk; [exact Hwk|].
  cbn [foldl]. apply IH, serve_wellKeyed, Hwk.
Qed.

Lemma serveAll_static qs w :
  scanError (serveAll qs w) = scanError w /\ settings (serveAll qs w) = settings w.
Proof.
  unfold serveAll. revert w. induction qs as [|q qs IH]; intros w; [by split|].
  cbn [foldl]. destruct (IH (serve q w)) as [-> ->]. apply serve_static.
Qed.

(** X13: every call keeps the table well keyed, whether it returns or
    throws: one item per id, and every item filed under the id of its
    workspace.  A create adds an item only under an id that is free and is
    the id of the workspace; a terminate and a submit write only over the
    record they looked up, and keep its id and its workspace.  So after any
    sequence of calls; and so after [enableEgressStoreSubmission] for a
    record whose id is the id of its workspace. *)
Theorem table_stays_well_keyed :
  (forall q w, wellKeyed (dbEgressStore w) -> wellKeyed (dbEgressStore (serve q w)))
  /\ (forall qs w, wellKeyed (dbEgressStore w) -> wellKeyed (dbEgressStore (serveAll qs w)))
  /\ (forall r w,
        EgressStoreInfo.workspaceId r = EgressStoreInfo.id r ->
        wellKeyed (dbEgressStore w) ->
        wellKeyed (dbEgressStore (snd (enableEgressStoreSubmission r w)))).
Proof.
  split; [exact serve_wellKeyed|]. split; [exact serveAll_wellKeyed|].
  intros r w Hws Hwk.
  - unfold enableEgressStoreSubmission. cbv zeta.
    cbn [EgressStoreInfo.id].
    match goal with
    | |- context [lockAndUpdate ?l _ ?i ?W] =>
        destruct (lockAndUpdate_cases l r i W) as [[err ->]| ->]
    end; [exact Hwk|].
    cbn [snd dbEgressStore set_dbEgressStore].
    destruct Hwk as [Hnd Hall]. split.
    + by rewrite map_id_replaced.
    + unfold replaced. apply List.Forall_forall. intros i Hi.
      apply in_map_iff in Hi as (j & <- & Hj). rewrite List.Forall_forall in Hall.
      case_bool_decide; [exact Hws | by apply Hall].
Qed.

Lemma table_stays_well_keyed_witness :
  wellKeyed (dbEgressStore (serveAll sampleCalls emptyWorld))
  /\ map EgressStoreInfo.status (dbEgressStore (serveAll sampleCalls emptyWorld))
     = ["TERMINATED"].
Proof.
  split; [|vm_compute; reflexivity].
  apply (proj1 (proj2 table_stays_well_keyed) sampleCalls emptyWorld).
  split; constructor.
Defined.

Lemma ListNoDup_take {A : Type} n (l : list A) : List.NoDup l -> List.NoDup (take n l).
Proof.
  intros H. apply NoDup_ListNoDup. apply NoDup_ListNoDup in H.
  apply (sublist_NoDup (take n l) l); [exact H | apply sublist_take].
Qed.

Lemma filter_key_unique (table : list EgressStoreInfo.t) environmentId :
  List.NoDup (map EgressStoreInfo.workspaceId table) ->
  (length (List.filter
             (fun store => bool_decide (EgressStoreInfo.workspaceId store = environmentId))
             table) <= 1)%nat.
Proof.
  induction table as [|x l IH]; cbn; intros Hnd; [lia|].
  inversion Hnd as [|? ? Hx Hnd']; subst.
  case_bool_decide as Hk; [|by apply IH].
  rewrite filter_nothing; [cbn; lia|].
  intros y Hy. apply bool_decide_eq_false_2. intros Hy'. apply Hx.
  rewrite Hk, <- Hy'. by apply in_map.
Qed.

(** In a well keyed table a workspace has one record at most. *)
Lemma wellKeyed_records w environmentId :
  wellKeyed (dbEgressStore w) -> (length (recordsOf w environmentId) <= 1)%nat.
Proof.
  intros [Hnd Hall]. unfold recordsOf. apply filter_key_unique.
  replace (map EgressStoreInfo.workspaceId (take 1000 (dbEgressStore w)))
    with (take 1000 (map EgressStoreInfo.id (dbEgressStore w))).
  - by apply ListNoDup_take.
  - rewrite firstn_map. apply map_ext_in. intros i Hi.
    rewrite List.Forall_forall in Hall. symmetry. apply Hall.
    apply list_elem_of_In. apply (subseteq_take 1000). by apply list_elem_of_In.
Qed.

(** X14: on a well keyed table that can be scanned, and so after any
    sequence of calls from one, a lookup never fails: it returns [null] when
    the scan holds no record for the workspace and the one record when it
    holds one; the error "multiple results" does not arise. *)
Theorem lookup_is_unambiguous qs w environmentId :
  wellKeyed (dbEgressStore w) ->
  scanError w = None ->
  let w' := serveAll qs w in
  (hasNoRecord w' environmentId /\ getEgressStoreInfo environmentId w' = (Returned None, w'))
  \/ (exists r, hasRecord w' environmentId r
                /\ getEgressStoreInfo environmentId w' = (Returned (Some r), w')).
Proof.
  intros Hwk Hscan w'.
  assert (Hwk' : wellKeyed (dbEgressStore w')) by (by apply serveAll_wellKeyed).
  assert (Hscan' : scanError w' = None).
  { unfold w'. by rewrite (proj1 (serveAll_static qs w)). }
  pose proof (wellKeyed_records w' environmentId Hwk') as Hlen.
  destruct (recordsOf w' environmentId) as [|r [|r2 l]] eqn:Hrec; cbn in Hlen; [| |lia].
  - left. split; [by split|]. by apply getEgressStoreInfo_absent.
  - right. exists r. split; [by split|]. by apply getEgressStoreInfo_found.
Qed.

Lemma lookup_is_unambiguous_witness :
  exists r,
    getEgressStoreInfo "ws1" (serveAll sampleCalls emptyWorld) =
      (Returned (Some r), serveAll sampleCalls emptyWorld)
    /\ EgressStoreInfo.status r = "TERMINATED".
Proof.
  destruct (lookup_is_unambiguous sampleCalls emptyWorld "ws1") as [[Hnone _] | (r & Hrec & Hrun)].
  - split; constructor.
  - reflexivity.
  - destruct Hnone as [_ Hnone]. vm_compute in Hnone. discriminate Hnone.
  - exists r. split; [exact Hrun|].
    destruct Hrec as [_ Hrec]. vm_compute in Hrec. by inversion Hrec.
Defined.

(** ** One call after another *)

Lemma filter_map_same {A : Type} (p : A -> bool) (f : A -> A) l :
  (forall x, In x l -> p (f x) = p x) ->
  List.filter p (map f l) = map f (List.filter p l).
Proof.
  induction l as [|x l IH]; cbn; intros H; [reflexivity|].
  rewrite (H x) by (by left). rewrite IH by (intros y Hy; apply H; by right).
  by destruct (p x).
Qed.

(** The record of a workspace, once it is written over. *)
Lemma hasRecord_replaced w w' environmentId r r' :
  hasRecord w environmentId r ->
  List.NoDup (map EgressStoreInfo.id (dbEgressStore w)) ->
  EgressStoreInfo.id r' = EgressStoreInfo.id r ->
  EgressStoreInfo.workspaceId r' = EgressStoreInfo.workspaceId r ->
  scanError w' = scanError w ->
  dbEgressStore w' = replaced r r' (dbEgressStore w) ->
  hasRecord w' environmentId r'.
Proof.
  intros [Hscan Hrec] Hnd Hid Hws Hscan' Hdb.
  destruct (recordsOf_elem _ _ _ Hrec) as [Hin He].
  split; [congruence|]. unfold recordsOf in *. rewrite Hdb. unfold replaced.
  rewrite firstn_map, filter_map_same.
  - rewrite Hrec. cbn. by rewrite bool_decide_eq_true_2.
  - intros i Hi.
    destruct (bool_decide (EgressStoreInfo.id i = EgressStoreInfo.id r)) eqn:Hk;
      [apply bool_decide_eq_true_1 in Hk | reflexivity].
    assert (i = r) as ->.
    { apply (NoDup_id_unique (dbEgressStore w)); try assumption.
      apply (subseteq_take 1000). by apply list_elem_of_In. }
    by rewrite Hws.
Qed.

(** A submit on a record that is not ready. *)
Lemma notifySNS_refuses requestContext environmentId w r :
  featureEnabled w ->
  hasRecord w environmentId r ->
  EgressStoreInfo.isAbleToSubmitEgressRequest r = false ->
  notifySNS requestContext environmentId w = (Thrown (notReady r), w).
Proof.
  intros Hen Hrec Hable. red in Hen. unfold notifySNS.
  rewrite (bind_ok get _ w w w eq_refl). cbv zeta. rewrite Hen.
  rewrite (bind_ok _ _ _ _ _ (throwIf_false _ _)).
  rewrite (bind_ok _ _ _ _ _ (getEgressStoreInfo_found _ _ _ Hrec)).
  rewrite Hable. reflexivity.
Qed.

(** X15: TERMINATED is final for a terminate and for a submit.  After a
    terminate that went through, on a table with one item per id, a second
    terminate returns the terminated record and changes nothing, and a
    submit, by anyone, is refused as not ready and changes nothing. *)
Theorem terminated_is_final requestContext anyone environmentId w r account :
  featureEnabled w ->
  hasRecord w environmentId r ->
  List.NoDup (map EgressStoreInfo.id (dbEgressStore w)) ->
  adminOrOwner requestContext r ->
  toUpperCase (EgressStoreInfo.status r) = PROCESSED_STATUS_CODE
  \/ (toUpperCase (EgressStoreInfo.status r) = CREATED_STATUS_CODE
      /\ EgressStoreInfo.isAbleToSubmitEgressRequest r = false) ->
  s3WriteError w = None ->
  dbWriteError w = None ->
  ddbLockId (EgressStoreInfo.id r) ∉ heldLocks w ->
  memberAccount w environmentId = inr account ->
  bucketPolicyLockId (EgressStoreInfo.s3BucketName r) ∉ heldLocks w ->
  getPolicyError w = None ->
  putPolicyError w = None ->
  exists r' w',
    terminateEgressStore requestContext environmentId w = (Returned (Some r'), w')
    /\ EgressStoreInfo.status r' = TERMINATED_STATUS_CODE
    /\ terminateEgressStore requestContext environmentId w' = (Returned (Some r'), w')
    /\ notifySNS anyone environmentId w' = (Thrown (notReady r'), w').
Proof.
  intros Hen Hrec Hnd Hauth Hst Hs3 Hdb Hlock1 Hacct Hlock2 Hget Hput.
  destruct (terminateEgressStore_terminated requestContext environmentId w r account)
    as (w' & Hrun & _ & Htable & _); try assumption.
  destruct (serve_static (Terminate requestContext environmentId) w) as [Hscan Hset].
  cbn [serve] in Hscan, Hset. rewrite Hrun in Hscan, Hset. cbn [snd] in Hscan, Hset.
  assert (Hen' : featureEnabled w') by (unfold featureEnabled; by rewrite Hset).
  assert (Hrec' : hasRecord w' environmentId
                    (terminatedInfo r (principalUid requestContext) (now w))).
  { by apply (hasRecord_replaced w w' environmentId r). }
  eexists; exists w'. split; [exact Hrun|]. split; [reflexivity|]. split.
  - apply terminateEgressStore_passes; try assumption.
    + discriminate.
    + cbn. intros [H | [H _]]; discriminate H.
  - by apply notifySNS_refuses.
Qed.

Lemma terminated_is_final_witness :
  exists r' w',
    terminateEgressStore alice "ws1" (worldWith (sampleInfo "PROCESSED" false 3)) =
      (Returned (Some r'), w')
    /\ terminateEgressStore alice "ws1" w' = (Returned (Some r'), w')
    /\ notifySNS bob "ws1" w' = (Thrown (notReady r'), w').
Proof.
  destruct (terminated_is_final alice bob "ws1" (worldWith (sampleInfo "PROCESSED" false 3))
              (sampleInfo "PROCESSED" false 3) "111122223333")
    as (r' & w' & H1 & _ & H2 & H3).
  - reflexivity.
  - split; reflexivity.
  - constructor; [intros [] | constructor].
  - right. reflexivity.
  - left. reflexivity.
  - reflexivity.
  - reflexivity.
  - apply not_elem_of_empty.
  - reflexivity.
  - apply not_elem_of_empty.
  - reflexivity.
  - reflexivity.
  - exists r', w'. auto.
Defined.

(** X16: a submit closes the store behind it, whether or not its message is
    published.  After a submit that has written the record, on a table with
    one item per id, a second submit, by anyone, is refused as not ready and
    publishes nothing, also when the first could not publish its message:
    a submit does not retry a failed publish.  And a terminate by the same
    caller returns the record as it is, PENDING, and changes nothing. *)
Theorem submitted_is_closed requestContext anyone environmentId w r :
  featureEnabled w ->
  hasRecord w environmentId r ->
  List.NoDup (map EgressStoreInfo.id (dbEgressStore w)) ->
  EgressStoreInfo.isAbleToSubmitEgressRequest r = true ->
  adminOrOwner requestContext r ->
  s3ListError w = None ->
  versionsKnown w r ->
  s3WriteError w = None ->
  ddbLockId (EgressStoreInfo.id r) ∉ heldLocks w ->
  dbWriteError w = None ->
  exists outcome r' w',
    notifySNS requestContext environmentId w = (outcome, w')
    /\ (publishError w = None -> exists message, outcome = Returned message)
    /\ (publishError w <> None -> outcome = Thrown (publishFailed r))
    /\ hasRecord w' environmentId r'
    /\ toUpperCase (EgressStoreInfo.status r') = PENDING_STATUS_CODE
    /\ notifySNS anyone environmentId w' = (Thrown (notReady r'), w')
    /\ terminateEgressStore requestContext environmentId w' = (Returned (Some r'), w').
Proof.
  intros Hen Hrec Hnd Hable Hauth Hlist Hver Hput Hlock Hdb.
  destruct (notifySNS_submitted requestContext environmentId w r)
    as (objects & _ & Hok & Hfail); try assumption.
  destruct (serve_static (Submit requestContext environmentId) w) as [Hscan Hset].
  cbn [serve] in Hscan, Hset.
  set (r' := submittedInfo r (principalUid requestContext) (now w) (snapshotLocation w r)) in *.
  assert (Hpending : toUpperCase (EgressStoreInfo.status r') = PENDING_STATUS_CODE).
  { unfold r'. cbn. case_bool_decide; cbn; [assumption | reflexivity]. }
  assert (Hafter : forall outcome w',
            notifySNS requestContext environmentId w = (outcome, w') ->
            dbEgressStore w' = replaced r r' (dbEgressStore w) ->
            hasRecord w' environmentId r'
            /\ toUpperCase (EgressStoreInfo.status r') = PENDING_STATUS_CODE
            /\ notifySNS anyone environmentId w' = (Thrown (notReady r'), w')
            /\ terminateEgressStore requestContext environmentId w' =
                 (Returned (Some r'), w')).
  { intros outcome w' Hrun Htable.
    rewrite Hrun in Hscan, Hset. cbn [snd] in Hscan, Hset.
    assert (Hen' : featureEnabled w') by (unfold featureEnabled; by rewrite Hset).
    assert (Hrec' : hasRecord w' environmentId r')
      by (by apply (hasRecord_replaced w w' environmentId r)).
    split; [exact Hrec'|]. split; [exact Hpending|]. split.
    - by apply notifySNS_refuses.
    - apply terminateEgressStore_passes; try assumption.
      + rewrite Hpending. discriminate.
      + rewrite Hpending. intros [H | [H _]]; discriminate H. }
  destruct (publishError w) as [err|] eqn:Hpub.
  - destruct (Hfail err eq_refl) as (w' & Hrun & Htable & _).
    exists (Thrown (publishFailed r)), r', w'. split; [exact Hrun|].
    split; [discriminate|]. split; [reflexivity|]. by apply (Hafter _ _ Hrun).
  - destruct (Hok eq_refl) as (w' & Hrun & Htable & _).
    eexists; exists r', w'. split; [exact Hrun|].
    split; [eauto|]. split; [congruence|]. by apply (Hafter _ _ Hrun).
Qed.

Lemma submitted_is_closed_witness :
  exists r' w',
    notifySNS alice "ws1"
      (withPublishError outage (worldWith (sampleInfo "CREATED" true 3)))
    = (Thrown (publishFailed (sampleInfo "CREATED" true 3)), w')
    /\ hasRecord w' "ws1" r'
    /\ notifySNS alice "ws1" w' = (Thrown (notReady r'), w').
Proof.
  destruct (submitted_is_closed alice alice "ws1"
              (withPublishError outage (worldWith (sampleInfo "CREATED" true 3)))
              (sampleInfo "CREATED" true 3))
    as (outcome & r' & w' & Hrun & _ & Hfail & Hrec & _ & Hagain & _).
  - reflexivity.
  - split; reflexivity.
  - constructor; [intros [] | constructor].
  - reflexivity.
  - right. reflexivity.
  - reflexivity.
  - intros o Ho. vm_compute in Ho. by apply elem_of_nil in Ho.
  - reflexivity.
  - apply not_elem_of_empty.
  - reflexivity.
  - exists r', w'. rewrite Hrun. rewrite Hfail by discriminate. auto.
Defined.

(** X17: [enableEgressStoreSubmission] makes the record of a workspace ready
    and changes nothing else of it: on a table with one item per id that
    holds the record, with the lock free and the table writable, the lookup
    of the workspace afterwards returns the record with
    [isAbleToSubmitEgressRequest] true and the status and version it had.
    The status is not looked at: a TERMINATED record is made ready as well. *)
Theorem enableEgressStoreSubmission_makes_ready environmentId w r :
  hasRecord w environmentId r ->
  List.NoDup (map EgressStoreInfo.id (dbEgressStore w)) ->
  ddbLockId (EgressStoreInfo.id r) ∉ heldLocks w ->
  dbWriteError w = None ->
  exists r' w',
    enableEgressStoreSubmission r w = (Returned tt, w')
    /\ getEgressStoreInfo environmentId w' = (Returned (Some r'), w')
    /\ EgressStoreInfo.isAbleToSubmitEgressRequest r' = true
    /\ EgressStoreInfo.status r' = EgressStoreInfo.status r
    /\ EgressStoreInfo.ver r' = EgressStoreInfo.ver r
    /\ length (dbEgressStore w') = length (dbEgressStore w).
Proof.
  intros Hrec Hnd Hlock Hdb.
  destruct (recordsOf_elem _ _ _ (proj2 Hrec)) as [Hin _].
  exists (enabledInfo r). eexists.
  split; [by apply enableEgressStoreSubmission_ok|].
  split; [|repeat split].
  - apply getEgressStoreInfo_found.
    by apply (hasRecord_replaced w _ environmentId r).
  - cbn [dbEgressStore set_dbEgressStore]. unfold replaced. apply length_map.
Qed.

Lemma enableEgressStoreSubmission_makes_ready_witness :
  exists r' w',
    enableEgressStoreSubmission (sampleInfo "TERMINATED" false 3)
      (worldWith (sampleInfo "TERMINATED" false 3)) = (Returned tt, w')
    /\ getEgressStoreInfo "ws1" w' = (Returned (Some r'), w')
    /\ EgressStoreInfo.isAbleToSubmitEgressRequest r' = true
    /\ EgressStoreInfo.status r' = "TERMINATED".
Proof.
  destruct (enableEgressStoreSubmission_makes_ready "ws1"
              (worldWith (sampleInfo "TERMINATED" false 3)) (sampleInfo "TERMINATED" false 3))
    as (r' & w' & H1 & H2 & H3 & H4 & _).
  - split; reflexivity.
  - constructor; [intros [] | constructor].
  - apply not_elem_of_empty.
  - reflexivity.
  - exists r', w'. auto.
Defined.

(** The records of a workspace, once an item is appended to a table that
    the scan covers. *)
Lemma recordsOf_appended w w' item environmentId :
  dbEgressStore w' = dbEgressStore w ++ [item] ->
  (length (dbEgressStore w) < 1000)%nat ->
  recordsOf w' environmentId =
    recordsOf w environmentId ++
    (if bool_decide (EgressStoreInfo.workspaceId item = environmentId) then [item] else []).
Proof.
  intros Hdb Hlen. unfold recordsOf. rewrite Hdb.
  rewrite take_ge by (rewrite length_app; cbn; lia).
  rewrite (take_ge (dbEgressStore w)) by lia.
  by rewrite List.filter_app.
Qed.

(** X18: a create and a terminate by the creator or an admin undo each other
    on the policy document and on the objects, not on the table.  From a
    table the scan covers, with no record for the workspace, and a policy
    document with no statement of the store, when the collaborators answer:
    the create goes through, the terminate that follows goes through, the
    policy document is again the one before the create, no object is left
    under the prefix of the store, and the record stays in the table, as
    TERMINATED. *)
Theorem create_then_terminate requestContext environment w kmsArn account :
  canCreate w environment kmsArn account ->
  scanError w = None ->
  recordsOf w (Environment.id environment) = [] ->
  (length (dbEgressStore w) < 1000)%nat ->
  s3WriteError w = None ->
  isAdmin requestContext = true
  \/ principalUid requestContext = Some (Environment.createdBy environment) ->
  (forall st, st ∈ bucketPolicy w ->
     ofStore (createdStore environment (egressStoreBucketName (settings w)) kmsArn) st
     = false) ->
  exists store w1 r' w2,
    createEgressStore requestContext environment w = (Returned store, w1)
    /\ terminateEgressStore requestContext (Environment.id environment) w1 =
         (Returned (Some r'), w2)
    /\ EgressStoreInfo.status r' = TERMINATED_STATUS_CODE
    /\ r' ∈ dbEgressStore w2
    /\ length (dbEgressStore w2) = S (length (dbEgressStore w))
    /\ bucketPolicy w2 = bucketPolicy w
    /\ List.filter (underPrefix (Environment.id environment +:+ "/"))
                   (objectsOf w2 (egressStoreBucketName (settings w))) = [].
Proof.
  intros Hcan Hscan Hnone Hlen Hs3 Hauth Hfresh.
  destruct (createEgressStore_created requestContext environment w kmsArn account Hcan)
    as [v Hrun].
  destruct Hcan as (Hen & Hval & Hlock1 & Hdb & Hkey & Hkms & Hacct & Hlock2 & Hget & Hput).
  set (bucketName := egressStoreBucketName (settings w)) in *.
  set (item := createdInfo requestContext environment bucketName) in *.
  set (store := createdStore environment bucketName kmsArn) in *.
  match type of Hrun with _ = (_, ?W) => set (w1 := W) in * end.
  assert (Hrec : hasRecord w1 (Environment.id environment) item).
  { split; [exact Hscan|].
    rewrite (recordsOf_appended w w1 item) by (reflexivity || exact Hlen).
    rewrite Hnone. cbn [EgressStoreInfo.workspaceId item createdInfo].
    by rewrite bool_decide_eq_true_2. }
  destruct (terminateEgressStore_terminated requestContext (Environment.id environment)
              w1 item account) as (w2 & Hterm & Hobjects & Htable & Hpolicy & _).
  - exact Hen.
  - exact Hrec.
  - exact Hauth.
  - right. split; reflexivity.
  - exact Hs3.
  - exact Hdb.
  - exact Hlock1.
  - exact Hacct.
  - exact Hlock2.
  - exact Hget.
  - exact Hput.
  - exists store, w1. eexists; exists w2.
    split; [exact Hrun|]. split; [exact Hterm|]. split; [reflexivity|].
    split; [|split; [|split]].
    + rewrite Htable. unfold replaced. apply list_elem_of_In, in_map_iff.
      exists item. split.
      * by rewrite bool_decide_eq_true_2.
      * apply list_elem_of_In. destruct (recordsOf_elem _ _ _ (proj2 Hrec)) as [Hin _].
        exact Hin.
    + rewrite Htable. unfold replaced. rewrite length_map.
      unfold w1. cbn [dbEgressStore set_auditLog set_bucketPolicy set_dbEgressStore].
      rewrite length_app. cbn. lia.
    + rewrite Hpolicy.
      change (revokedPolicy (bucketPolicy w1)
                (terminatedStore (Environment.id environment) item)
                (egressStoreBucketName (settings w1)) account)
        with (revokedPolicy (grantedPolicy (bucketPolicy w) store bucketName account)
                store bucketName account).
      rewrite revokedPolicy_granted. by apply revokedPolicy_fresh.
    + by apply (cleared_prefix w1 w2).
Qed.

Lemma create_then_terminate_witness :
  exists store w1 r' w2,
    createEgressStore alice ws1 emptyWorld = (Returned store, w1)
    /\ terminateEgressStore alice (Environment.id ws1) w1 = (Returned (Some r'), w2)
    /\ EgressStoreInfo.status r' = TERMINATED_STATUS_CODE
    /\ r' ∈ dbEgressStore w2
    /\ length (dbEgressStore w2) = S (length (dbEgressStore emptyWorld))
    /\ bucketPolicy w2 = bucketPolicy emptyWorld
    /\ List.filter (underPrefix (Environment.id ws1 +:+ "/"))
                   (objectsOf w2 (egressStoreBucketName (settings emptyWorld))) = [].
Proof.
  apply (create_then_terminate alice ws1 emptyWorld "arn:aws:kms:key/1" "111122223333").
  - repeat split; try reflexivity; apply not_elem_of_empty.
  - reflexivity.
  - reflexivity.
  - cbn. lia.
  - reflexivity.
  - right. reflexivity.
  - intros st Hst. by apply elem_of_nil in Hst.
Defined.

(** ** The names of a listing *)

(** The first segment of a split holds no separator; the other segments are
    the split of what follows the first separator. *)
Lemma split_shape s :
  exists h t,
    split "/" s = h :: t
    /\ slashFree h = true
    /\ (t = [] -> s = h)
    /\ (t <> [] -> exists s', s = h +:+ "/" +:+ s' /\ split "/" s' = t).
Proof.
  induction s as [|c s IH]; cbn [split].
  - exists EmptyString, []. split; [reflexivity|]. split; [reflexivity|].
    split; [reflexivity|]. intros H. by destruct H.
  - destruct IH as (h & t & Hs & Hh & Hlast & Hmore). case_bool_decide as Hc.
    + subst c. exists EmptyString, (split "/" s).
      split; [reflexivity|]. split; [reflexivity|]. split.
      * rewrite Hs. discriminate.
      * intros _. exists s. split; reflexivity.
    + rewrite Hs. exists (String c h), t. split; [reflexivity|]. split.
      * cbn [slashFree]. rewrite bool_decide_eq_false_2 by assumption. exact Hh.
      * split.
        -- intros Ht. by rewrite <- (Hlast Ht).
        -- intros Ht. destruct (Hmore Ht) as (s' & Hs' & Hsplit).
           exists s'. split; [|exact Hsplit]. rewrite Hs'. reflexivity.
Qed.

Lemma split_second s key :
  split "/" s !! 1%nat = Some key ->
  slashFree key = true
  /\ exists folder,
       slashFree folder = true
       /\ (s = folder +:+ "/" +:+ key
           \/ exists rest, s = folder +:+ "/" +:+ key +:+ "/" +:+ rest).
Proof.
  intros Hkey.
  destruct (split_shape s) as (folder & t & Hs & Hfolder & _ & Hmore).
  rewrite Hs in Hkey. cbn in Hkey.
  destruct t as [|k t]; [discriminate|]. cbn in Hkey. injection Hkey as ->.
  destruct (Hmore ltac:(discriminate)) as (s' & -> & Hs').
  destruct (split_shape s') as (h' & t' & Hs'' & Hh' & Hlast' & Hmore').
  rewrite Hs' in Hs''. injection Hs'' as <- <-.
  split; [exact Hh'|]. exists folder. split; [exact Hfolder|].
  destruct t as [|k' t].
  - left. by rewrite (Hlast' eq_refl).
  - right. destruct (Hmore' ltac:(discriminate)) as (rest & -> & _). by exists rest.
Qed.

Lemma split_slashFree s : slashFree s = true -> split "/" s = [s].
Proof.
  induction s as [|c s IH]; cbn [split slashFree]; [reflexivity|].
  intros [Hc Hs]%andb_prop. apply negb_true_iff in Hc. rewrite Hc.
  by rewrite (IH Hs).
Qed.

Lemma split_folder folder s :
  slashFree folder = true ->
  split "/" (folder +:+ "/" +:+ s) = folder :: split "/" s.
Proof.
  induction folder as [|c folder IH]; cbn [slashFree].
  - intros _. reflexivity.
  - intros [Hc Hs]%andb_prop. apply negb_true_iff in Hc.
    change (String c folder +:+ "/" +:+ s) with (String c (folder +:+ "/" +:+ s)).
    cbn [split]. rewrite Hc. by rewrite (IH Hs).
Qed.

Lemma split_folder_name folder name rest :
  slashFree folder = true ->
  slashFree name = true ->
  split "/" (folder +:+ "/" +:+ name) !! 1%nat = Some name
  /\ split "/" (folder +:+ "/" +:+ name +:+ "/" +:+ rest) !! 1%nat = Some name.
Proof.
  intros Hfolder Hname. split.
  - rewrite (split_folder _ _ Hfolder), (split_slashFree _ Hname). reflexivity.
  - rewrite (split_folder _ _ Hfolder), (split_folder _ _ Hname). reflexivity.
Qed.

Lemma getEgressStore_rows floorLog1024 requestContext environmentId w r :
  featureEnabled w ->
  hasRecord w environmentId r ->
  adminOrOwner requestContext r ->
  s3ListError w = None ->
  getEgressStore floorLog1024 requestContext environmentId w =
    (Returned
       {| objectList :=
            take 100 (omap (listedRow floorLog1024 r) (sortByLastModified (listing w r)));
          listingIsAbleToSubmitEgressRequest :=
            EgressStoreInfo.isAbleToSubmitEgressRequest r |}, w).
Proof.
  intros Hen Hrec Hauth Hlist. red in Hen. unfold getEgressStore.
  rewrite (bind_ok get _ w w w eq_refl). cbv zeta. rewrite Hen.
  rewrite (bind_ok _ _ _ _ _ (throwIf_false _ _)).
  rewrite (bind_ok _ _ _ _ _ (getEgressStoreInfo_found _ _ _ Hrec)).
  rewrite (adminOrOwner_passes _ _ Hauth).
  rewrite (bind_ok _ _ _ _ _ (throwIf_false _ _)).
  rewrite (bind_ok _ _ _ _ _ (listAllObjects_ok _ _ Hlist)).
  unfold ret.
  destruct (Nat.ltb_spec 100
              (length (omap (listedRow floorLog1024 r) (sortByLastModified (listing w r)))));
    [reflexivity | by rewrite take_ge].
Qed.

Lemma sortByLastModified_length l : length (sortByLastModified l) = length l.
Proof.
  unfold sortByLastModified. induction l as [|o l IH]; cbn [foldr]; [reflexivity|].
  cbn [length]. rewrite <- IH. generalize (foldr insertByLastModified [] l).
  intros l'. induction l' as [|x l' IH']; cbn; [reflexivity|].
  destruct (S3Object.LastModified o <=? S3Object.LastModified x); cbn; [reflexivity|].
  by rewrite IH'.
Qed.

Lemma omap_length_le {A B : Type} (f : A -> option B) l :
  (length (omap f l) <= length l)%nat.
Proof.
  induction l as [|x l IH]; cbn; [lia|]. destruct (f x); cbn; lia.
Qed.

(** X19: the name of a row of a listing is the second segment of the key of
    its object, the segments being what the [/] separate.  So every row has
    a name that is not empty and holds no [/], and its object is
    folder/name or folder/name/rest.  An object with no [/] in its key, and
    the folder marker folder/ of a store, make no row: a store that holds
    nothing else lists no rows.  A file below a subfolder is listed under
    the name of the subfolder, not under its own: when the store holds at
    most 100 objects, every object folder/name or folder/name/rest has a
    row named name. *)
Theorem getEgressStore_names floorLog1024 requestContext environmentId w r :
  featureEnabled w ->
  hasRecord w environmentId r ->
  adminOrOwner requestContext r ->
  s3ListError w = None ->
  exists rows,
    getEgressStore floorLog1024 requestContext environmentId w =
      (Returned {| objectList := rows;
                   listingIsAbleToSubmitEgressRequest :=
                     EgressStoreInfo.isAbleToSubmitEgressRequest r |}, w)
    /\ (forall row, row ∈ rows ->
          ListedObject.Key row <> EmptyString
          /\ slashFree (ListedObject.Key row) = true
          /\ exists o folder,
               o ∈ listing w r
               /\ slashFree folder = true
               /\ (S3Object.Key o = folder +:+ "/" +:+ ListedObject.Key row
                   \/ exists rest,
                        S3Object.Key o =
                          folder +:+ "/" +:+ ListedObject.Key row +:+ "/" +:+ rest))
    /\ ((forall o, o ∈ listing w r ->
           exists folder,
             slashFree folder = true
             /\ (S3Object.Key o = folder \/ S3Object.Key o = folder +:+ "/")) ->
        rows = [])
    /\ ((length (listing w r) <= 100)%nat ->
        forall o folder name,
          o ∈ listing w r ->
          slashFree folder = true ->
          slashFree name = true ->
          name <> EmptyString ->
          (S3Object.Key o = folder +:+ "/" +:+ name
           \/ exists rest, S3Object.Key o = folder +:+ "/" +:+ name +:+ "/" +:+ rest) ->
          exists row,
            row ∈ rows
            /\ ListedObject.Key row = name
            /\ ListedObject.LastModified row = S3Object.LastModified o).
Proof.
  intros Hen Hrec Hauth Hlist.
  exists (take 100 (omap (listedRow floorLog1024 r) (sortByLastModified (listing w r)))).
  split; [by apply getEgressStore_rows|]. split; [|split].
  - intros row Hrow.
    apply subseteq_take, list_elem_of_In, omap_listedRow_In in Hrow as (o & Ho & Hmade).
    apply (proj1 (sortByLastModified_In _ _)) in Ho.
    unfold listedRow in Hmade.
    destruct (split "/" (S3Object.Key o) !! 1%nat) as [key|] eqn:Hkey; [|discriminate].
    destruct (truthy key) eqn:Htruthy; [|discriminate].
    injection Hmade as <-. cbn [ListedObject.Key].
    destruct (split_second _ _ Hkey) as (Hfree & folder & Hfolder & Hshape).
    split.
    + intros ->. discriminate Htruthy.
    + split; [exact Hfree|]. exists o, folder.
      split; [by apply list_elem_of_In|]. split; [exact Hfolder | exact Hshape].
  - intros Hmarkers.
    assert (Hnone : omap (listedRow floorLog1024 r) (sortByLastModified (listing w r)) = []).
    { destruct (omap _ _) as [|row rows] eqn:Hrows; [reflexivity|]. exfalso.
      assert (Hin : In row (omap (listedRow floorLog1024 r)
                              (sortByLastModified (listing w r))))
        by (rewrite Hrows; by left).
      apply omap_listedRow_In in Hin as (o & Ho & Hmade).
      apply (proj1 (sortByLastModified_In _ _)), list_elem_of_In in Ho.
      destruct (Hmarkers o Ho) as (folder & Hfolder & [Hk | Hk]);
        unfold listedRow in Hmade; rewrite Hk in Hmade.
      - by rewrite (split_slashFree _ Hfolder) in Hmade.
      - change (folder +:+ "/") with (folder +:+ "/" +:+ EmptyString) in Hmade.
        by rewrite (split_folder _ _ Hfolder) in Hmade. }
    by rewrite Hnone.
  - intros Hfew o folder name Ho Hfolder Hname Hne Hshape.
    rewrite take_ge.
    2:{ etrans; [apply omap_length_le|].
        rewrite sortByLastModified_length. exact Hfew. }
    assert (Hkey : split "/" (S3Object.Key o) !! 1%nat = Some name).
    { destruct (split_folder_name folder name EmptyString Hfolder Hname) as [H1 _].
      destruct Hshape as [-> | [rest ->]]; [exact H1|].
      by destruct (split_folder_name folder name rest Hfolder Hname) as [_ H2]. }
    assert (Htruthy : truthy name = true).
    { unfold truthy. by rewrite bool_decide_eq_false_2. }
    eexists. split; [|split].
    + apply list_elem_of_omap. exists o. split.
      * apply list_elem_of_In, sortByLastModified_In, list_elem_of_In, Ho.
      * unfold listedRow. rewrite Hkey, Htruthy. reflexivity.
    + reflexivity.
    + reflexivity.
Qed.

Lemma getEgressStore_names_witness :
  exists rows,
    getEgressStore exactFloorLog1024 alice "ws1" (listingWorld (sampleInfo "CREATED" true 0)) =
      (Returned {| objectList := rows; listingIsAbleToSubmitEgressRequest := true |},
       listingWorld (sampleInfo "CREATED" true 0))
    /\ map ListedObject.Key rows = ["a.csv"; "b.csv"].
Proof.
  destruct (getEgressStore_names exactFloorLog1024 alice "ws1"
              (listingWorld (sampleInfo "CREATED" true 0)) (sampleInfo "CREATED" true 0))
    as (rows & Hrun & _).
  - reflexivity.
  - split; reflexivity.
  - right. reflexivity.
  - reflexivity.
  - exists rows. split; [exact Hrun|].
    assert (Hrows : rows = objectList
              (match fst (getEgressStore exactFloorLog1024 alice "ws1"
                            (listingWorld (sampleInfo "CREATED" true 0))) with
               | Returned l => l
               | Thrown _ => {| objectList := []; listingIsAbleToSubmitEgressRequest := true |}
               end)) by (by rewrite Hrun).
    rewrite Hrows. vm_compute. reflexivity.
Defined.

(** ** The number of a size *)

(** The exact logarithm brackets the number of bytes between two powers of
    1024. *)
Lemma exactFloorLog1024_spec bytes :
  bytes <> 0%N ->
  1024 ^ exactFloorLog1024 bytes <= Z.of_N bytes < 1024 ^ (exactFloorLog1024 bytes + 1).
Proof.
  intros Hpos. unfold exactFloorLog1024.
  assert (Hb : 0 < Z.of_N bytes) by lia.
  destruct (Z.log2_spec _ Hb) as [Hlow Hhigh].
  pose proof (Z.log2_nonneg (Z.of_N bytes)) as Hlog.
  set (l := Z.log2 (Z.of_N bytes)) in *.
  assert (Hk : 0 <= l / 10) by (apply Z.div_pos; lia).
  pose proof (Z.mul_div_le l 10 ltac:(lia)) as Hle.
  pose proof (Z.mul_succ_div_gt l 10 ltac:(lia)) as Hgt.
  change 1024 with (2 ^ 10). rewrite <- !Z.pow_mul_r by lia. split.
  - etrans; [|exact Hlow]. apply Z.pow_le_mono_r; lia.
  - eapply Z.lt_le_trans; [exact Hhigh|]. apply Z.pow_le_mono_r; lia.
Qed.

(** The quotient by a positive unit, rounded to the nearest integer. *)
Lemma rounded_quotient_bounds b P :
  0 < P ->
  P <= b ->
  let q := (2 * b + P) / (2 * P) in
  1 <= q
  /\ 2 * Z.abs (b - q * P) <= P
  /\ (b < 1024 * P -> q <= 1024)
  /\ (1024 * P <= b -> 1024 <= q).
Proof.
  intros HP Hb q.
  assert (Hd : 0 < 2 * P) by lia.
  pose proof (Z.mul_div_le (2 * b + P) (2 * P) Hd) as Hle.
  pose proof (Z.mul_succ_div_gt (2 * b + P) (2 * P) Hd) as Hgt.
  fold q in Hle, Hgt.
  assert (Hq : 2 * P * Z.succ q = 2 * (q * P) + 2 * P) by ring.
  assert (Hq' : 2 * P * q = 2 * (q * P)) by ring.
  rewrite Hq in Hgt. rewrite Hq' in Hle. clear Hq Hq'.
  split; [|split; [|split]].
  - apply Z.div_le_lower_bound; lia.
  - generalize dependent (q * P). intros t Hle Hgt. lia.
  - intros Hlt. apply Z.lt_succ_r. apply Z.div_lt_upper_bound; lia.
  - intros Hge. apply Z.div_le_lower_bound; lia.
Qed.

(** X20: the number a size is shown with, when the logarithm of the runtime
    is the exact one for the number of bytes.  The number is at least 1 and
    is the number of bytes in the unit shown, to the nearest integer: it
    differs from the exact quotient by half a unit at most.  Below 1024^6
    bytes it is at most 1024.  From 1024^6 bytes on the unit stays PB and
    the number is 1024 or more. *)
Theorem bytesToSize_number floorLog1024 bytes :
  bytes <> 0%N ->
  floorLog1024 bytes = exactFloorLog1024 bytes ->
  exists n i,
    bytesToSize floorLog1024 bytes = pretty n +:+ " " +:+ sizeName i
    /\ sizes !! Z.to_nat i = Some (sizeName i)
    /\ 1 <= n
    /\ 2 * Z.abs (Z.of_N bytes - n * 1024 ^ i) <= 1024 ^ i
    /\ (Z.of_N bytes < 1024 ^ 6 -> n <= 1024)
    /\ (1024 ^ 6 <= Z.of_N bytes -> i = 5 /\ 1024 <= n).
Proof.
  intros Hpos Hexact.
  pose proof (exactFloorLog1024_nonneg bytes) as Hk.
  destruct (bytesToSize_unit floorLog1024 bytes Hpos ltac:(by rewrite Hexact))
    as (i & Hi & Hmin & Hrender & Hunit).
  exists (roundedQuotient bytes i), i.
  split; [exact Hrender|]. split; [exact Hunit|].
  destruct (exactFloorLog1024_spec bytes Hpos) as [Hlow Hhigh].
  rewrite Hexact in Hmin. unfold roundedQuotient.
  rewrite (proj2 (Z.leb_le 0 i)) by lia.
  assert (HP : 0 < 1024 ^ i) by (apply Z.pow_pos_nonneg; lia).
  assert (Hle : 1024 ^ i <= 1024 ^ exactFloorLog1024 bytes)
    by (apply Z.pow_le_mono_r; lia).
  destruct (rounded_quotient_bounds (Z.of_N bytes) (1024 ^ i) HP ltac:(lia))
    as (H1 & Habs & Hsmall & Hbig).
  split; [exact H1|]. split; [exact Habs|].
  assert (H6 : 1024 ^ 6 = 1024 * 1024 ^ 5) by reflexivity.
  split.
  - intros Hlt. apply Hsmall.
    destruct (Z_le_gt_dec 6 (exactFloorLog1024 bytes)) as [Hsix | Hsix].
    + assert (1024 ^ 6 <= 1024 ^ exactFloorLog1024 bytes)
        by (apply Z.pow_le_mono_r; lia).
      lia.
    + assert (Heq : exactFloorLog1024 bytes = i) by lia.
      rewrite Heq in Hhigh. rewrite Z.pow_add_r in Hhigh by lia.
      change (1024 ^ 1) with 1024 in Hhigh. lia.
  - intros Hge.
    assert (Hi5 : i = 5).
    { destruct (Z_le_gt_dec (exactFloorLog1024 bytes) 4) as [Hfour | Hfour]; [|lia].
      assert (1024 ^ (exactFloorLog1024 bytes + 1) <= 1024 ^ 5)
        by (apply Z.pow_le_mono_r; lia).
      assert (1024 ^ 5 <= 1024 ^ 6) by (apply Z.pow_le_mono_r; lia).
      lia. }
    split; [exact Hi5|]. apply Hbig. rewrite Hi5. rewrite <- H6. exact Hge.
Qed.

Lemma bytesToSize_number_witness :
  exists n i,
    bytesToSize exactFloorLog1024 1048575 = pretty n +:+ " " +:+ sizeName i
    /\ sizes !! Z.to_nat i = Some (sizeName i)
    /\ 1 <= n
    /\ 2 * Z.abs (Z.of_N 1048575 - n * 1024 ^ i) <= 1024 ^ i
    /\ (Z.of_N 1048575 < 1024 ^ 6 -> n <= 1024)
    /\ (1024 ^ 6 <= Z.of_N 1048575 -> i = 5 /\ 1024 <= n).
Proof.
  apply (bytesToSize_number exactFloorLog1024 1048575).
  - discriminate.
  - reflexivity.
Defined.

(** ** A second submission *)

Lemma notifySNS_sameCollaborators requestContext environmentId w :
  sameCollaborators w (snd (notifySNS requestContext environmentId w)).
Proof.
  unfold sameCollaborators. repeat split; revert w;
    match goal with
    | |- forall w, ?proj (snd (?m w)) = ?proj w => change (preserves proj m)
    end; service_preserves.
Qed.

Lemma enableEgressStoreSubmission_sameCollaborators r w :
  sameCollaborators w (snd (enableEgressStoreSubmission r w)).
Proof.
  unfold sameCollaborators. repeat split; revert w;
    match goal with
    | |- forall w, ?proj (snd (?m w)) = ?proj w => change (preserves proj m)
    end; service_preserves.
Qed.

Lemma string_length_append s t :
  String.length (s +:+ t) = (String.length s + String.length t)%nat.
Proof.
  induction s as [|c s IH]; [reflexivity|].
  change (S (String.length (s +:+ t)) = S (String.length s + String.length t)).
  by rewrite IH.
Qed.

Lemma append_inj_r s1 s2 t : s1 +:+ t = s2 +:+ t -> s1 = s2.
Proof.
  revert s2. induction s1 as [|c s1 IH]; intros [|c' s2] H.
  - reflexivity.
  - exfalso. apply (f_equal String.length) in H.
    change (String.length t = S (String.length (s2 +:+ t))) in H.
    rewrite string_length_append in H. lia.
  - exfalso. apply (f_equal String.length) in H.
    change (S (String.length (s1 +:+ t)) = String.length t) in H.
    rewrite string_length_append in H. lia.
  - change (String c (s1 +:+ t) = String c' (s2 +:+ t)) in H.
    injection H as -> H. by rewrite (IH s2 H).
Qed.

(** The key of a manifest tells the version it was written for. *)
Lemma snapshotKey_ver r r' :
  EgressStoreInfo.id r' = EgressStoreInfo.id r ->
  EgressStoreInfo.egressStoreName r' = EgressStoreInfo.egressStoreName r ->
  snapshotKey r' = snapshotKey r ->
  EgressStoreInfo.ver r' = EgressStoreInfo.ver r.
Proof.
  unfold snapshotKey, parseInt. intros -> -> H.
  do 4 apply String.app_inj in H.
  apply append_inj_r, pretty_Z_inj in H. lia.
Qed.

(** X21: a store that is opened again and submitted again keeps the
    manifest of the first submission.  On a table with one item per id, with
    the collaborators answering: a submit, [enableEgressStoreSubmission] on
    the record it wrote, and a second submit all go through; the two
    manifests are put under different keys, since the key carries the
    version, so the second put does not replace the first; the record ends
    two versions up and not able to submit, and the two messages carry the
    two versions and the two locations. *)
Theorem resubmission_keeps_snapshots requestContext environmentId w r :
  featureEnabled w ->
  hasRecord w environmentId r ->
  List.NoDup (map EgressStoreInfo.id (dbEgressStore w)) ->
  EgressStoreInfo.isAbleToSubmitEgressRequest r = true ->
  adminOrOwner requestContext r ->
  s3ListError w = None ->
  versionsKnown w r ->
  s3WriteError w = None ->
  ddbLockId (EgressStoreInfo.id r) ∉ heldLocks w ->
  dbWriteError w = None ->
  publishError w = None ->
  exists m1 w1 r1 w2 m2 w3 r3 manifest1 manifest2,
    notifySNS requestContext environmentId w = (Returned m1, w1)
    /\ hasRecord w1 environmentId r1
    /\ enableEgressStoreSubmission r1 w1 = (Returned tt, w2)
    /\ notifySNS requestContext environmentId w2 = (Returned m2, w3)
    /\ hasRecord w3 environmentId r3
    /\ EgressStoreInfo.ver r3 = EgressStoreInfo.ver r + 2
    /\ EgressStoreInfo.isAbleToSubmitEgressRequest r3 = false
    /\ putObjects w3 = putObjects w ++ [manifest1; manifest2]
    /\ putKey manifest1 = snapshotKey r
    /\ putKey manifest2 = snapshotKey r1
    /\ putKey manifest1 <> putKey manifest2
    /\ map snd (published w3) = map snd (published w) ++ [m1; m2]
    /\ Message.ver m1 = EgressStoreInfo.ver r + 1
    /\ Message.ver m2 = EgressStoreInfo.ver r + 2
    /\ Message.egressStoreObjectListLocation m1 <> Message.egressStoreObjectListLocation m2.
Proof.
  intros Hen Hrec Hnd Hable Hauth Hlist Hver Hput Hlock Hdb Hpub.
  (* the first submit *)
  destruct (notifySNS_submitted requestContext environmentId w r)
    as (objects1 & _ & Hok1 & _); try assumption.
  destruct (Hok1 Hpub) as (w1 & Hrun1 & Htable1 & Hputs1 & Hpublished1). clear Hok1.
  pose proof (notifySNS_sameCollaborators requestContext environmentId w) as Hsame1.
  rewrite Hrun1 in Hsame1. cbn [snd] in Hsame1.
  destruct Hsame1 as (Hset1 & Hscan1 & Hs31 & Hlv1 & Hle1 & Hwe1 & Hlocks1 & Hdbe1 & Hpe1).
  set (r1 := submittedInfo r (principalUid requestContext) (now w) (snapshotLocation w r)) in *.
  assert (Hrec1 : hasRecord w1 environmentId r1)
    by (by apply (hasRecord_replaced w w1 environmentId r)).
  assert (Hnd1 : List.NoDup (map EgressStoreInfo.id (dbEgressStore w1)))
    by (rewrite Htable1, map_id_replaced; [exact Hnd | reflexivity]).
  assert (Hin1 : r1 ∈ dbEgressStore w1).
  { by destruct (recordsOf_elem _ _ _ (proj2 Hrec1)). }
  (* the store is opened again *)
  assert (Hrun2 : enableEgressStoreSubmission r1 w1 =
            (Returned tt,
             set_dbEgressStore (replaced r1 (enabledInfo r1) (dbEgressStore w1)) w1)).
  { apply enableEgressStoreSubmission_ok; [exact Hin1 | | by rewrite Hdbe1].
    by rewrite Hlocks1. }
  set (w2 := set_dbEgressStore (replaced r1 (enabledInfo r1) (dbEgressStore w1)) w1) in *.
  set (r2 := enabledInfo r1) in *.
  assert (Hrec2 : hasRecord w2 environmentId r2)
    by (by apply (hasRecord_replaced w1 w2 environmentId r1)).
  assert (Hnd2 : List.NoDup (map EgressStoreInfo.id (dbEgressStore w2))).
  { unfold w2. cbn [dbEgressStore set_dbEgressStore].
    rewrite map_id_replaced; [exact Hnd1 | reflexivity]. }
  (* the second submit *)
  assert (Hlisting : listing w2 r2 = listing w r).
  { unfold listing, objectsOf. cbn [s3 w2 set_dbEgressStore]. by rewrite Hs31. }
  destruct (notifySNS_submitted requestContext environmentId w2 r2)
    as (objects2 & _ & Hok2 & _).
  - unfold featureEnabled. cbn [settings w2 set_dbEgressStore]. by rewrite Hset1.
  - exact Hrec2.
  - reflexivity.
  - exact Hauth.
  - cbn [s3ListError w2 set_dbEgressStore]. by rewrite Hle1.
  - intros o Ho. rewrite Hlisting in Ho. destruct (Hver o Ho) as [v Hv].
    exists v. cbn [latestVersion w2 set_dbEgressStore]. by rewrite Hlv1.
  - cbn [s3WriteError w2 set_dbEgressStore]. by rewrite Hwe1.
  - cbn [heldLocks w2 set_dbEgressStore]. by rewrite Hlocks1.
  - cbn [dbWriteError w2 set_dbEgressStore]. by rewrite Hdbe1.
  - destruct Hok2 as (w3 & Hrun3 & Htable3 & Hputs3 & Hpublished3).
    { cbn [publishError w2 set_dbEgressStore]. by rewrite Hpe1. }
    pose proof (notifySNS_sameCollaborators requestContext environmentId w2) as Hsame3.
    rewrite Hrun3 in Hsame3. cbn [snd] in Hsame3.
    destruct Hsame3 as (_ & Hscan3 & _).
    set (r3 := submittedInfo r2 (principalUid requestContext) (now w2)
                 (snapshotLocation w2 r2)) in *.
    assert (Hrec3 : hasRecord w3 environmentId r3)
      by (by apply (hasRecord_replaced w2 w3 environmentId r2)).
    assert (Hkeys : snapshotKey r <> snapshotKey r1).
    { intros Hk. symmetry in Hk. apply snapshotKey_ver in Hk; [|reflexivity..].
      unfold r1 in Hk. cbn [EgressStoreInfo.ver submittedInfo] in Hk.
      unfold parseInt in Hk. lia. }
    eexists _, w1, r1, w2, _, w3, r3, _, _.
    split; [exact Hrun1|]. split; [exact Hrec1|]. split; [exact Hrun2|].
    split; [exact Hrun3|]. split; [exact Hrec3|].
    split; [unfold r3, r2, r1; cbn; unfold parseInt; lia|].
    split; [reflexivity|].
    split; [rewrite Hputs3; cbn [putObjects w2 set_dbEgressStore]; rewrite Hputs1;
            rewrite <- app_assoc; reflexivity|].
    split; [reflexivity|]. split; [reflexivity|]. split; [exact Hkeys|].
    split; [rewrite Hpublished3; cbn [published w2 set_dbEgressStore]; rewrite Hpublished1;
            rewrite !map_app, <- app_assoc; reflexivity|].
    split; [reflexivity|].
    split; [unfold r2, r1; cbn; unfold parseInt; lia|].
    cbn [Message.egressStoreObjectListLocation messageOf].
    unfold snapshotLocation. cbn [settings w2 set_dbEgressStore]. rewrite Hset1.
    intros Hloc. do 3 apply String.app_inj in Hloc. by apply Hkeys.
Qed.

Lemma resubmission_keeps_snapshots_witness :
  exists m1 w1 r1 w2 m2 w3 manifest1 manifest2,
    notifySNS alice "ws1" (worldWith (sampleInfo "CREATED" true 3)) = (Returned m1, w1)
    /\ enableEgressStoreSubmission r1 w1 = (Returned tt, w2)
    /\ notifySNS alice "ws1" w2 = (Returned m2, w3)
    /\ putObjects w3 = [manifest1; manifest2]
    /\ putKey manifest1 <> putKey manifest2.
Proof.
  destruct (resubmission_keeps_snapshots alice "ws1"
              (worldWith (sampleInfo "CREATED" true 3)) (sampleInfo "CREATED" true 3))
    as (m1 & w1 & r1 & w2 & m2 & w3 & r3 & manifest1 & manifest2 &
        H1 & _ & H2 & H3 & _ & _ & _ & Hputs & _ & _ & Hkeys & _).
  - reflexivity.
  - split; reflexivity.
  - constructor; [intros [] | constructor].
  - reflexivity.
  - right. reflexivity.
  - reflexivity.
  - intros o Ho. vm_compute in Ho. by apply elem_of_nil in Ho.
  - reflexivity.
  - apply not_elem_of_empty.
  - reflexivity.
  - reflexivity.
  - exists m1, w1, r1, w2, m2, w3, manifest1, manifest2. auto.
Defined.

(** ** Where a record comes from *)

(** What a terminate writes over a record keeps where the record comes from,
    and its [ver]. *)
Lemma terminateEgressStore_rewrites requestContext environmentId w :
  let w' := snd (terminateEgressStore requestContext environmentId w) in
  dbEgressStore w' = dbEgressStore w
  \/ exists r r',
       r ∈ dbEgressStore w
       /\ sameOrigin r r'
       /\ EgressStoreInfo.ver r <= EgressStoreInfo.ver r'
       /\ dbEgressStore w' = replaced r r' (dbEgressStore w).
Proof.
  cbv zeta. unfold terminateEgressStore.
  rewrite (bind_ok get _ w w w eq_refl). cbv zeta.
  destruct (featureDisabled (enableEgressStore (settings w))); [by left|].
  rewrite (bind_ok _ _ _ _ _ (throwIf_false _ _)).
  destruct (getEgressStoreInfo environmentId w) as [[[r|]|err] w1] eqn:Hlook.
  - destruct (getEgressStoreInfo_Some_inv _ _ _ _ Hlook) as (-> & Hin & _).
    rewrite (bind_ok _ _ _ _ _ Hlook).
    destruct (negb (isAdmin requestContext) && _); [left; reflexivity|].
    rewrite (bind_ok _ _ _ _ _ (throwIf_false _ _)).
    destruct (bool_decide (toUpperCase (EgressStoreInfo.status r) = PROCESSING_STATUS_CODE));
      [left; reflexivity|].
    destruct (bool_decide (toUpperCase (EgressStoreInfo.status r) = PROCESSED_STATUS_CODE) || _);
      [|left; reflexivity].
    destruct (s3WriteError w) as [err|] eqn:Hs3.
    { rewrite (bind_err _ _ _ (deleteFailed r) w); [left; reflexivity|].
      unfold tryCatch. rewrite (clearPath_fails _ _ _ _ Hs3). reflexivity. }
    rewrite (bind_ok _ _ _ _ _ (tryCatch_ok _ _ _ _ _ (clearPath_ok _ _ _ Hs3))).
    rewrite (bind_ok newDate _ _ _ _ eq_refl).
    cbn [EgressStoreInfo.id EgressStoreInfo.s3BucketName EgressStoreInfo.s3BucketPath
         EgressStoreInfo.createdBy EgressStoreInfo.projectId now set_s3].
    match goal with
    | |- context [bind (lockAndUpdate ?l _ ?i) _ ?W] =>
        destruct (lockAndUpdate_cases l r i W) as [[err Herr]|Hok]
    end.
    + rewrite (bind_err _ _ _ _ _ Herr). left. reflexivity.
    + rewrite (bind_ok _ _ _ _ _ Hok). right.
      match type of Hok with
      | lockAndUpdate _ _ ?i _ = _ => exists r, i
      end.
      split; [exact Hin|]. split; [repeat split|].
      split; [cbn [EgressStoreInfo.ver]; unfold parseInt; lia|].
      match goal with
      | |- dbEgressStore (snd (?m ?W)) = _ =>
          assert (Hp : preserves dbEgressStore m) by service_preserves;
          rewrite (Hp W)
      end.
      reflexivity.
  - pose proof (getEgressStoreInfo_reads environmentId w) as Hw.
    rewrite Hlook in Hw. cbn in Hw. subst w1.
    rewrite (bind_ok _ _ _ _ _ Hlook). by left.
  - rewrite (bind_err _ _ _ _ _ Hlook).
    pose proof (getEgressStoreInfo_reads environmentId w) as Hw.
    rewrite Hlook in Hw. cbn in Hw. subst w1. by left.
Qed.

(** What a submit writes over a record keeps where the record comes from,
    and does not lower its [ver]. *)
Lemma notifySNS_rewrites requestContext environmentId w :
  let w' := snd (notifySNS requestContext environmentId w) in
  dbEgressStore w' = dbEgressStore w
  \/ exists r r',
       r ∈ dbEgressStore w
       /\ sameOrigin r r'
       /\ EgressStoreInfo.ver r <= EgressStoreInfo.ver r'
       /\ dbEgressStore w' = replaced r r' (dbEgressStore w).
Proof.
  cbv zeta. unfold notifySNS.
  rewrite (bind_ok get _ w w w eq_refl). cbv zeta.
  destruct (featureDisabled (enableEgressStore (settings w))); [by left|].
  rewrite (bind_ok _ _ _ _ _ (throwIf_false _ _)).
  destruct (getEgressStoreInfo environmentId w) as [[[r|]|err] w1] eqn:Hlook.
  - destruct (getEgressStoreInfo_Some_inv _ _ _ _ Hlook) as (-> & Hin & _).
    rewrite (bind_ok _ _ _ _ _ Hlook).
    destruct (negb (EgressStoreInfo.isAbleToSubmitEgressRequest r)); [left; reflexivity|].
    rewrite (bind_ok _ _ _ _ _ (throwIf_false _ _)).
    destruct (negb (isAdmin requestContext) && _); [left; reflexivity|].
    rewrite (bind_ok _ _ _ _ _ (throwIf_false _ _)).
    assert (Hsnap : preserves dbEgressStore (prepareEgressStoreSnapshot r))
      by service_preserves.
    specialize (Hsnap w).
    destruct (prepareEgressStoreSnapshot r w) as [[location|err] w1] eqn:Hprep;
      cbn [snd] in Hsnap.
    2:{ rewrite (bind_err _ _ _ _ _ Hprep). left. exact Hsnap. }
    rewrite (bind_ok _ _ _ _ _ Hprep).
    rewrite (bind_ok newDate _ _ _ _ eq_refl).
    cbn [EgressStoreInfo.id].
    match goal with
    | |- context [bind (lockAndUpdate ?l _ ?i) _ ?W] =>
        destruct (lockAndUpdate_cases l r i W) as [[err Herr]|Hok]
    end.
    + rewrite (bind_err _ _ _ _ _ Herr). left. exact Hsnap.
    + rewrite (bind_ok _ _ _ _ _ Hok). right.
      match type of Hok with
      | lockAndUpdate _ _ ?i _ = _ => exists r, i
      end.
      split; [exact Hin|]. split; [repeat split|].
      split; [cbn [EgressStoreInfo.ver]; unfold parseInt; lia|].
      match goal with
      | |- dbEgressStore (snd (?m ?W)) = _ =>
          assert (Hp : preserves dbEgressStore m) by service_preserves;
          rewrite (Hp W)
      end.
      cbn [dbEgressStore set_dbEgressStore]. by rewrite Hsnap.
  - pose proof (getEgressStoreInfo_reads environmentId w) as Hw.
    rewrite Hlook in Hw. cbn in Hw. subst w1.
    rewrite (bind_ok _ _ _ _ _ Hlook). by left.
  - rewrite (bind_err _ _ _ _ _ Hlook).
    pose proof (getEgressStoreInfo_reads environmentId w) as Hw.
    rewrite Hlook in Hw. cbn in Hw. subst w1. by left.
Qed.
Lemma sameOrigin_refl r : sameOrigin r r.
Proof. repeat split. Qed.

Lemma sameOrigin_trans r1 r2 r3 : sameOrigin r1 r2 -> sameOrigin r2 r3 -> sameOrigin r1 r3.
Proof.
  unfold sameOrigin. intros (?&?&?&?&?&?&?&?) (?&?&?&?&?&?&?&?).
  repeat split; congruence.
Qed.

Lemma keepsRecords_refl table : keepsRecords table table.
Proof.
  exists table, []. split; [by rewrite app_nil_r|].
  apply Forall2_same_length_lookup_2; [reflexivity|].
  intros i x y Hx Hy. rewrite Hx in Hy. injection Hy as <-. apply sameOrigin_refl.
Qed.

Lemma keepsRecords_trans t1 t2 t3 :
  keepsRecords t1 t2 -> keepsRecords t2 t3 -> keepsRecords t1 t3.
Proof.
  intros (kept1 & added1 & -> & H1) (kept2 & added2 & -> & H2).
  apply Forall2_app_inv_l in H2 as (k2a & k2b & Ha & Hb & ->).
  exists k2a, (k2b ++ added2). split; [by rewrite app_assoc|].
  clear Hb. revert k2a Ha. induction H1 as [|x y l l' Hxy Hl IH]; intros k2a Ha.
  - apply Forall2_nil_inv_l in Ha as ->. constructor.
  - apply Forall2_cons_inv_l in Ha as (z & k' & Hyz & Hk & ->).
    constructor; [by apply (sameOrigin_trans x y z) | by apply IH].
Qed.

Lemma keepsRecords_appended table item : keepsRecords table (table ++ [item]).
Proof.
  exists table, [item]. split; [reflexivity|].
  apply Forall2_same_length_lookup_2; [reflexivity|].
  intros i x y Hx Hy. rewrite Hx in Hy. injection Hy as <-. apply sameOrigin_refl.
Qed.

Lemma keepsRecords_replaced table r r' :
  List.NoDup (map EgressStoreInfo.id table) ->
  r ∈ table ->
  sameOrigin r r' ->
  keepsRecords table (replaced r r' table).
Proof.
  intros Hnd Hin Horigin. exists (replaced r r' table), [].
  split; [by rewrite app_nil_r|].
  unfold replaced. apply Forall2_fmap_r, Forall_Forall2_diag, List.Forall_forall.
  intros i Hi. apply list_elem_of_In in Hi. unfold compose. case_bool_decide as Hid.
  - by rewrite (NoDup_id_unique table i r Hnd Hi Hin Hid).
  - apply sameOrigin_refl.
Qed.

Lemma serve_keepsRecords q w :
  wellKeyed (dbEgressStore w) ->
  keepsRecords (dbEgressStore w) (dbEgressStore (serve q w)).
Proof.
  destruct q as [c env|c e|c e|c e]; intros [Hnd _]; cbn [serve].
  - destruct (createEgressStore_table c env w) as [-> | (item & _ & _ & ->)];
      [apply keepsRecords_refl | apply keepsRecords_appended].
  - destruct (terminateEgressStore_rewrites c e w) as [-> | (r & r' & Hin & Ho & _ & ->)];
      [apply keepsRecords_refl | by apply keepsRecords_replaced].
  - destruct (notifySNS_rewrites c e w) as [-> | (r & r' & Hin & Ho & _ & ->)];
      [apply keepsRecords_refl | by apply keepsRecords_replaced].
  - assert (Hp : preserves dbEgressStore (getEgressStore exactFloorLog1024 c e))
      by service_preserves.
    rewrite Hp. apply keepsRecords_refl.
Qed.

Lemma serveAll_keepsRecords qs w :
  wellKeyed (dbEgressStore w) ->
  keepsRecords (dbEgressStore w) (dbEgressStore (serveAll qs w)).
Proof.
  unfold serveAll. revert w. induction qs as [|q qs IH]; intros w Hwk;
    [apply keepsRecords_refl|].
  cbn [foldl]. apply (keepsRecords_trans _ (dbEgressStore (serve q w))).
  - by apply serve_keepsRecords.
  - apply IH. by apply serve_wellKeyed.
Qed.

(** X22: no call deletes a record, moves it, or changes where it comes from.
    From a table with one item per id, filed under the ids of the workspaces,
    after any sequence of creates, terminates, submits and listings, whether
    they return or throw: the table holds the records it held, in their
    places, followed by the records that were created; and each record it
    held has kept its id and name, its creator and creation time, its
    workspace and project, its bucket and prefix.  So the creator of a store
    stays the one the owner checks compare with, and a terminated store keeps
    its record. *)
Theorem records_are_kept qs w :
  wellKeyed (dbEgressStore w) ->
  keepsRecords (dbEgressStore w) (dbEgressStore (serveAll qs w))
  /\ (length (dbEgressStore w) <= length (dbEgressStore (serveAll qs w)))%nat
  /\ forall r, r ∈ dbEgressStore w ->
       exists r', r' ∈ dbEgressStore (serveAll qs w) /\ sameOrigin r r'.
Proof.
  intros Hwk. pose proof (serveAll_keepsRecords qs w Hwk) as Hkeeps.
  split; [exact Hkeeps|].
  destruct Hkeeps as (kept & added & -> & Hall). split.
  - rewrite length_app, <- (Forall2_length _ _ _ Hall). lia.
  - intros r Hr. apply list_elem_of_lookup in Hr as [i Hi].
    destruct (Forall2_lookup_l _ _ _ _ _ Hall Hi) as (r' & Hi' & Ho).
    exists r'. split; [|exact Ho].
    apply elem_of_app. left. by apply (list_elem_of_lookup_2 _ i).
Qed.

Lemma records_are_kept_witness :
  exists r',
    r' ∈ dbEgressStore (serveAll [Submit alice "ws1"; Terminate alice "ws1"]
                          (worldWith (sampleInfo "CREATED" true 3)))
    /\ sameOrigin (sampleInfo "CREATED" true 3) r'.
Proof.
  destruct (records_are_kept [Submit alice "ws1"; Terminate alice "ws1"]
              (worldWith (sampleInfo "CREATED" true 3))) as (_ & _ & Hkept).
  - split.
    + constructor; [intros [] | constructor].
    + repeat constructor.
  - apply Hkept. apply list_elem_of_In. left. reflexivity.
Defined.

(** ** The version of a record *)

Lemma verNotLowered_refl r : verNotLowered r r.
Proof. split; [reflexivity | lia]. Qed.

Lemma verNotLowered_trans r1 r2 r3 :
  verNotLowered r1 r2 -> verNotLowered r2 r3 -> verNotLowered r1 r3.
Proof. intros [Hid1 Hv1] [Hid2 Hv2]. split; [congruence | lia]. Qed.

Lemma keepsVer_refl table : keepsVer table table.
Proof.
  exists table, []. split; [by rewrite app_nil_r|].
  apply Forall_Forall2_diag, List.Forall_forall. intros r _. apply verNotLowered_refl.
Qed.

Lemma keepsVer_trans t1 t2 t3 : keepsVer t1 t2 -> keepsVer t2 t3 -> keepsVer t1 t3.
Proof.
  intros (kept1 & added1 & -> & H1) (kept2 & added2 & -> & H2).
  apply Forall2_app_inv_l in H2 as (k2a & k2b & Ha & Hb & ->).
  exists k2a, (k2b ++ added2). split; [by rewrite app_assoc|].
  clear Hb. revert k2a Ha. induction H1 as [|x y l l' Hxy Hl IH]; intros k2a Ha.
  - apply Forall2_nil_inv_l in Ha as ->. constructor.
  - apply Forall2_cons_inv_l in Ha as (z & k' & Hyz & Hk & ->).
    constructor; [by apply (verNotLowered_trans x y z) | by apply IH].
Qed.

Lemma keepsVer_appended table item : keepsVer table (table ++ [item]).
Proof.
  exists table, [item]. split; [reflexivity|].
  apply Forall_Forall2_diag, List.Forall_forall. intros r _. apply verNotLowered_refl.
Qed.

Lemma keepsVer_replaced table r r' :
  List.NoDup (map EgressStoreInfo.id table) ->
  r ∈ table ->
  verNotLowered r r' ->
  keepsVer table (replaced r r' table).
Proof.
  intros Hnd Hin Hver. exists (replaced r r' table), [].
  split; [by rewrite app_nil_r|].
  unfold replaced. apply Forall2_fmap_r, Forall_Forall2_diag, List.Forall_forall.
  intros i Hi. apply list_elem_of_In in Hi. unfold compose. case_bool_decide as Hid.
  - by rewrite (NoDup_id_unique table i r Hnd Hi Hin Hid).
  - apply verNotLowered_refl.
Qed.

Lemma serve_keepsVer q w :
  wellKeyed (dbEgressStore w) ->
  keepsVer (dbEgressStore w) (dbEgressStore (serve q w)).
Proof.
  destruct q as [c env|c e|c e|c e]; intros [Hnd _]; cbn [serve].
  - destruct (createEgressStore_table c env w) as [-> | (item & _ & _ & ->)];
      [apply keepsVer_refl | apply keepsVer_appended].
  - destruct (terminateEgressStore_rewrites c e w)
      as [-> | (r & r' & Hin & [Hid _] & Hver & ->)];
      [apply keepsVer_refl | by apply keepsVer_replaced].
  - destruct (notifySNS_rewrites c e w) as [-> | (r & r' & Hin & [Hid _] & Hver & ->)];
      [apply keepsVer_refl | by apply keepsVer_replaced].
  - assert (Hp : preserves dbEgressStore (getEgressStore exactFloorLog1024 c e))
      by service_preserves.
    rewrite Hp. apply keepsVer_refl.
Qed.

Lemma serveAll_keepsVer qs w :
  wellKeyed (dbEgressStore w) ->
  keepsVer (dbEgressStore w) (dbEgressStore (serveAll qs w)).
Proof.
  unfold serveAll. revert w. induction qs as [|q qs IH]; intros w Hwk;
    [apply keepsVer_refl|].
  cbn [foldl]. apply (keepsVer_trans _ (dbEgressStore (serve q w))).
  - by apply serve_keepsVer.
  - apply IH. by apply serve_wellKeyed.
Qed.

(** [enableEgressStoreSubmission] writes the record it is given over the
    item stored under its id, whatever that item is. *)
Lemma enableEgressStoreSubmission_writes w r0 r :
  r0 ∈ dbEgressStore w ->
  EgressStoreInfo.id r = EgressStoreInfo.id r0 ->
  ddbLockId (EgressStoreInfo.id r) ∉ heldLocks w ->
  dbWriteError w = None ->
  enableEgressStoreSubmission r w =
    (Returned tt, set_dbEgressStore (replaced r0 (enabledInfo r) (dbEgressStore w)) w).
Proof.
  intros Hin Hid Hlock Hdb. unfold ddbLockId in Hlock.
  change (lockAndUpdate ("egress-store-ddb-access-" +:+ EgressStoreInfo.id r)
            (EgressStoreInfo.id r) (enabledInfo r) w =
          (Returned tt,
           set_dbEgressStore (replaced r0 (enabledInfo r) (dbEgressStore w)) w)).
  revert Hlock. generalize (enabledInfo r). intros item. rewrite Hid. intros Hlock.
  apply (lockAndUpdate_ok _ r0 w Hlock Hdb Hin).
Qed.

Lemma enableEgressStoreSubmission_thrown r w err w' :
  enableEgressStoreSubmission r w = (Thrown err, w') -> w' = w.
Proof.
  unfold enableEgressStoreSubmission. cbv zeta. cbn [EgressStoreInfo.id].
  match goal with
  | |- lockAndUpdate ?l _ ?i ?W = _ -> _ =>
      destruct (lockAndUpdate_cases l r i W) as [[err0 ->]| ->]
  end; intros H; by inversion H.
Qed.

(** C4, as amended: [ver] numbers the accepted submissions of a store, not
    the mutations of its record.  A create writes it as 0; an accepted submit
    writes one more than it found; an accepted terminate writes what it
    found.  So, from a table with one item per id, each filed under the id
    of its workspace, after any sequence of creates, terminates, submits and
    listings, whether they return or throw, the table holds under each id,
    and in its place, an item whose [ver] is at least what it was.
    [enableEgressStoreSubmission] does not read the table: it writes the
    record it is given over the item stored under its id, so that the [ver]
    stored afterwards is the [ver] of its argument: the one that was stored
    when the argument is the stored record, a lower one when the argument is
    an older copy of it.  When it throws it has written nothing. *)
Theorem ver_of_mutations requestContext environmentId :
  (forall environment w store w',
     createEgressStore requestContext environment w = (Returned store, w') ->
     exists item,
       dbEgressStore w' = dbEgressStore w ++ [item]
       /\ EgressStoreInfo.id item = Environment.id environment
       /\ EgressStoreInfo.ver item = 0)
  /\
  (forall w r,
     featureEnabled w ->
     hasRecord w environmentId r ->
     EgressStoreInfo.isAbleToSubmitEgressRequest r = true ->
     adminOrOwner requestContext r ->
     s3ListError w = None ->
     versionsKnown w r ->
     s3WriteError w = None ->
     ddbLockId (EgressStoreInfo.id r) ∉ heldLocks w ->
     dbWriteError w = None ->
     publishError w = None ->
     exists message r' w',
       notifySNS requestContext environmentId w = (Returned message, w')
       /\ dbEgressStore w' = replaced r r' (dbEgressStore w)
       /\ EgressStoreInfo.ver r' = EgressStoreInfo.ver r + 1)
  /\
  (forall w r account,
     featureEnabled w ->
     hasRecord w environmentId r ->
     adminOrOwner requestContext r ->
     toUpperCase (EgressStoreInfo.status r) = PROCESSED_STATUS_CODE
     \/ (toUpperCase (EgressStoreInfo.status r) = CREATED_STATUS_CODE
         /\ EgressStoreInfo.isAbleToSubmitEgressRequest r = false) ->
     s3WriteError w = None ->
     dbWriteError w = None ->
     ddbLockId (EgressStoreInfo.id r) ∉ heldLocks w ->
     memberAccount w environmentId = inr account ->
     bucketPolicyLockId (EgressStoreInfo.s3BucketName r) ∉ heldLocks w ->
     getPolicyError w = None ->
     putPolicyError w = None ->
     exists r' w',
       terminateEgressStore requestContext environmentId w = (Returned (Some r'), w')
       /\ dbEgressStore w' = replaced r r' (dbEgressStore w)
       /\ EgressStoreInfo.ver r' = EgressStoreInfo.ver r)
  /\
  (forall qs w,
     wellKeyed (dbEgressStore w) ->
     keepsVer (dbEgressStore w) (dbEgressStore (serveAll qs w))
     /\ forall r, r ∈ dbEgressStore w ->
          exists r',
            r' ∈ dbEgressStore (serveAll qs w)
            /\ EgressStoreInfo.id r' = EgressStoreInfo.id r
            /\ EgressStoreInfo.ver r <= EgressStoreInfo.ver r')
  /\
  (forall w r0 r,
     r0 ∈ dbEgressStore w ->
     EgressStoreInfo.id r = EgressStoreInfo.id r0 ->
     ddbLockId (EgressStoreInfo.id r) ∉ heldLocks w ->
     dbWriteError w = None ->
     exists r' w',
       enableEgressStoreSubmission r w = (Returned tt, w')
       /\ dbEgressStore w' = replaced r0 r' (dbEgressStore w)
       /\ r' ∈ dbEgressStore w'
       /\ EgressStoreInfo.id r' = EgressStoreInfo.id r0
       /\ EgressStoreInfo.isAbleToSubmitEgressRequest r' = true
       /\ EgressStoreInfo.ver r' = EgressStoreInfo.ver r
       /\ (r = r0 -> EgressStoreInfo.ver r' = EgressStoreInfo.ver r0)
       /\ (EgressStoreInfo.ver r < EgressStoreInfo.ver r0 ->
           EgressStoreInfo.ver r' < EgressStoreInfo.ver r0))
  /\
  (forall w r err w',
     enableEgressStoreSubmission r w = (Thrown err, w') -> w' = w).
Proof.
  split; [|split; [|split; [|split; [|split]]]].
  - intros environment w store w' Hrun.
    apply createEgressStore_inv in Hrun
      as (_ & _ & _ & _ & _ & item & Htable & Hid & _ & _ & Hver & _).
    exists item. auto.
  - intros w r Hen Hrec Hable Hauth Hlist Hvers Hput Hlock Hdb Hpub.
    destruct (notifySNS_submitted requestContext environmentId w r)
      as (objects & _ & Hok & _); try assumption.
    destruct (Hok Hpub) as (w' & Hrun & Htable & _).
    eexists; eexists; exists w'. split; [exact Hrun|]. split; [exact Htable|]. reflexivity.
  - intros w r account Hen Hrec Hauth Hst Hs3 Hdb Hlock1 Hacct Hlock2 Hget Hput.
    destruct (terminateEgressStore_terminated requestContext environmentId w r account)
      as (w' & Hrun & _ & Htable & _); try assumption.
    eexists; exists w'. split; [exact Hrun|]. split; [exact Htable|]. reflexivity.
  - intros qs w Hwk. pose proof (serveAll_keepsVer qs w Hwk) as Hkeeps.
    split; [exact Hkeeps|].
    destruct Hkeeps as (kept & added & -> & Hall).
    intros r Hr. apply list_elem_of_lookup in Hr as [i Hi].
    destruct (Forall2_lookup_l _ _ _ _ _ Hall Hi) as (r' & Hi' & Hid & Hver).
    exists r'. split; [|by split].
    apply elem_of_app. left. by apply (list_elem_of_lookup_2 _ i).
  - intros w r0 r Hin Hid Hlock Hdb.
    exists (enabledInfo r). eexists.
    split; [by apply enableEgressStoreSubmission_writes|].
    cbn [dbEgressStore set_dbEgressStore].
    split; [reflexivity|]. split.
    { unfold replaced. apply list_elem_of_In, in_map_iff. exists r0. split.
      - by rewrite bool_decide_eq_true_2.
      - by apply list_elem_of_In. }
    split; [exact Hid|]. split; [reflexivity|]. split; [reflexivity|].
    split; [by intros ->|]. intros Hlt. exact Hlt.
  - intros w r err w'. apply enableEgressStoreSubmission_thrown.
Qed.

Lemma ver_of_mutations_witness :
  (exists r' w',
     enableEgressStoreSubmission (sampleInfo "PROCESSED" false 1)
       (worldWith (sampleInfo "PROCESSED" false 5)) = (Returned tt, w')
     /\ dbEgressStore w' = [r']
     /\ EgressStoreInfo.isAbleToSubmitEgressRequest r' = true
     /\ EgressStoreInfo.ver r' = 1)
  /\ keepsVer [sampleInfo "CREATED" true 3]
       (dbEgressStore
          (serveAll [Submit alice "ws1"; Terminate alice "ws1"]
             (worldWith (sampleInfo "CREATED" true 3)))).
Proof.
  destruct (ver_of_mutations alice "ws1") as (_ & _ & _ & Hcalls & Henable & _).
  split.
  - destruct (Henable (worldWith (sampleInfo "PROCESSED" false 5))
                (sampleInfo "PROCESSED" false 5) (sampleInfo "PROCESSED" false 1))
      as (r' & w' & Hrun & Htable & _ & _ & Hable & Hver & _).
    + apply list_elem_of_singleton. reflexivity.
    + reflexivity.
    + apply not_elem_of_empty.
    + reflexivity.
    + exists r', w'. split; [exact Hrun|]. split; [|by split].
      rewrite Htable. unfold replaced. cbn [map worldWith dbEgressStore set_dbEgressStore].
      by rewrite bool_decide_eq_true_2.
  - apply (Hcalls [Submit alice "ws1"; Terminate alice "ws1"]
             (worldWith (sampleInfo "CREATED" true 3))).
    split.
    + constructor; [intros [] | constructor].
    + repeat constructor.
Defined.
